(** * PoseEvaluator: the exercise analysis engine of services/exerciseLogic.ts

    A shallow embedding of the geometry primitives, the three stateful
    evaluators (PushupCounter, SquatCounter, PlankEvaluator), the module-scope
    singletons and the exported wrapper functions.

    Numbers.  A JavaScript [number] is modelled as an exact real extended with
    the value NaN.  Arithmetic propagates NaN, every comparison with NaN is
    false, and [Math.acos]/[Math.sqrt] answer NaN outside their domain, as in
    ECMAScript.  Rounding and overflow of IEEE doubles are outside this model,
    and the two infinities are folded into NaN (a division by zero answers
    NaN).  The angle functions are embedded a second time over numbers that
    overflow (module [Double]); the statements about angles are made there,
    and those about smoothed angles where the two embeddings agree.
    [Date.now()] is an explicit integer argument (milliseconds). *)

From Stdlib Require Import Reals Lra List String Ascii ZArith Bool Lia.
Import ListNotations.
Local Open Scope string_scope.
Local Open Scope Z_scope.
Local Open Scope R_scope.

(* ================================================================== *)
(** ** JavaScript numbers *)
(* ================================================================== *)

Inductive number : Type :=
| NaN
| Num (r : R).

Definition Rleb (x y : R) : bool := if Rle_dec x y then true else false.
Definition Rltb (x y : R) : bool := if Rlt_dec x y then true else false.

Definition isNaN (a : number) : bool :=
  match a with NaN => true | Num _ => false end.

Definition lift2 (f : R -> R -> R) (a b : number) : number :=
  match a, b with
  | Num x, Num y => Num (f x y)
  | _, _ => NaN
  end.

Definition nadd : number -> number -> number := lift2 Rplus.
Definition nsub : number -> number -> number := lift2 Rminus.
Definition nmul : number -> number -> number := lift2 Rmult.

Definition ndiv (a b : number) : number :=
  match a, b with
  | Num x, Num y => if Req_dec_T y 0 then NaN else Num (x / y)
  | _, _ => NaN
  end.

Definition nle (a b : number) : bool :=
  match a, b with Num x, Num y => Rleb x y | _, _ => false end.
Definition nlt (a b : number) : bool :=
  match a, b with Num x, Num y => Rltb x y | _, _ => false end.
Definition nge (a b : number) : bool := nle b a.
Definition ngt (a b : number) : bool := nlt b a.

Declare Scope js_scope.
Delimit Scope js_scope with js.
Bind Scope js_scope with number.
Infix "[+]" := nadd (at level 50, left associativity) : js_scope.
Infix "[-]" := nsub (at level 50, left associativity) : js_scope.
Infix "[*]" := nmul (at level 40, left associativity) : js_scope.
Infix "[/]" := ndiv (at level 40, left associativity) : js_scope.
Infix "[<=]" := nle (at level 70, no associativity) : js_scope.
Infix "[<]" := nlt (at level 70, no associativity) : js_scope.
Infix "[>=]" := nge (at level 70, no associativity) : js_scope.
Infix "[>]" := ngt (at level 70, no associativity) : js_scope.
Local Open Scope js_scope.

(** The parts of the [Math] object the module uses. *)
Module Math.

Definition PI : number := Num Rtrigo1.PI.

Definition max : number -> number -> number := lift2 Rmax.
Definition min : number -> number -> number := lift2 Rmin.

Definition abs (a : number) : number :=
  match a with Num x => Num (Rabs x) | NaN => NaN end.

Definition sqrt (a : number) : number :=
  match a with
  | Num x => if Rltb x 0 then NaN else Num (R_sqrt.sqrt x)
  | NaN => NaN
  end.

Definition hypot (a b : number) : number :=
  match a, b with
  | Num x, Num y => Num (R_sqrt.sqrt (x * x + y * y))
  | _, _ => NaN
  end.

Definition acos (a : number) : number :=
  match a with
  | Num x => if Rleb (-1) x && Rleb x 1 then Num (Ratan.acos x) else NaN
  | NaN => NaN
  end.

End Math.

(* ================================================================== *)
(** ** Landmarks, points and the geometry helpers *)
(* ================================================================== *)

(** types.ts: [visibility] is optional. *)
Record Landmark : Type := mkLandmark {
  lx : R;
  ly : R;
  lz : R;
  visibility : option R
}.

Record Point : Type := mkPoint {
  x : number;
  y : number;
  z : number;
  vis : number
}.

Definition calculateAngle3D (a b c : Point) : number :=
  let bax := a.(x) [-] b.(x) in
  let bay := a.(y) [-] b.(y) in
  let baz := a.(z) [-] b.(z) in
  let bcx := c.(x) [-] b.(x) in
  let bcy := c.(y) [-] b.(y) in
  let bcz := c.(z) [-] b.(z) in
  let normBA := Math.sqrt (bax [*] bax [+] bay [*] bay [+] baz [*] baz) in
  let normBC := Math.sqrt (bcx [*] bcx [+] bcy [*] bcy [+] bcz [*] bcz) in
  let den := Math.max (Num 1e-9) (normBA [*] normBC) in
  let cos := Math.max (Num (-1))
               (Math.min (Num 1) ((bax [*] bcx [+] bay [*] bcy [+] baz [*] bcz) [/] den)) in
  (Math.acos cos [*] Num 180) [/] Math.PI.

Definition calculateAngle2D (a b c : Point) : number :=
  let bax := a.(x) [-] b.(x) in
  let bay := a.(y) [-] b.(y) in
  let bcx := c.(x) [-] b.(x) in
  let bcy := c.(y) [-] b.(y) in
  let den := Math.max (Num 1e-9) (Math.hypot bax bay [*] Math.hypot bcx bcy) in
  let cos := Math.max (Num (-1))
               (Math.min (Num 1) ((bax [*] bcx [+] bay [*] bcy) [/] den)) in
  (Math.acos cos [*] Num 180) [/] Math.PI.

(** [landmark.visibility ?? NaN] *)
Definition toPoint (landmark : Landmark) (imageW imageH : number) : Point :=
  {| x := Num landmark.(lx) [*] imageW;
     y := Num landmark.(ly) [*] imageH;
     z := Num landmark.(lz);
     vis := match landmark.(visibility) with Some v => Num v | None => NaN end |}.

Definition isVisible (point : Point) (minVisibility : number) : bool :=
  isNaN point.(vis) || (point.(vis) [>=] minVisibility).


(** Modelled from the spec: services/geometry.ts, which exports
    [POSE_LANDMARKS], is not among the sources.  The spec fixes "a fixed
    standard topology" of at least 33 landmarks; the indices below are those of
    that topology (the source itself reads the ears at 7 and 8). *)
Module POSE_LANDMARKS.
Definition LEFT_SHOULDER : nat := 11.
Definition RIGHT_SHOULDER : nat := 12.
Definition LEFT_ELBOW : nat := 13.
Definition RIGHT_ELBOW : nat := 14.
Definition LEFT_WRIST : nat := 15.
Definition RIGHT_WRIST : nat := 16.
Definition LEFT_HIP : nat := 23.
Definition RIGHT_HIP : nat := 24.
Definition LEFT_KNEE : nat := 25.
Definition RIGHT_KNEE : nat := 26.
Definition LEFT_ANKLE : nat := 27.
Definition RIGHT_ANKLE : nat := 28.
End POSE_LANDMARKS.

Definition origin : Landmark :=
  {| lx := 0; ly := 0; lz := 0; visibility := None |}.

(** [landmarks[i]] below a guard [landmarks.length >= 33]: every index of the
    topology is in range there, so the default of [nth] is never returned. *)
Definition at_index (landmarks : list Landmark) (i : nat) : Landmark :=
  nth i landmarks origin.

(** [landmarks[i]] without a guard: [None] is JavaScript's [undefined]. *)
Definition index (landmarks : list Landmark) (i : nat) : option Landmark :=
  nth_error landmarks i.

(* ================================================================== *)
(** ** Strings *)
(* ================================================================== *)

Definition lowerAscii (c : ascii) : ascii :=
  let n := nat_of_ascii c in
  if ((65 <=? n) && (n <=? 90))%nat then ascii_of_nat (n + 32) else c.

Fixpoint toLowerCase (s : string) : string :=
  match s with
  | EmptyString => EmptyString
  | String c s' => String (lowerAscii c) (toLowerCase s')
  end.

Definition startsWith (s p : string) : bool := String.prefix p s.

Fixpoint includes (s sub : string) : bool :=
  String.prefix sub s ||
  match s with
  | EmptyString => false
  | String _ s' => includes s' sub
  end.

(** [a || b] on strings: the empty string is falsy. *)
Definition str_or (a b : string) : string :=
  match a with EmptyString => b | _ => a end.

(* ================================================================== *)
(** ** PushupCounter *)
(* ================================================================== *)

Module PushupCounter.

Inductive PushupState : Type := UNARMED | UP | DOWN.

Definition PushupState_str (s : PushupState) : string :=
  match s with UNARMED => "UNARMED" | UP => "UP" | DOWN => "DOWN" end.

Record t : Type := mk {
  state : PushupState;
  count : Z;
  elbowAngle : number;
  kneeAngle : number;
  formWarning : string;
  legsQualified : bool;
  (* constructor parameters *)
  upThresh : number;
  downThresh : number;
  minVisibility : number;
  legExtendedThresh : number
}.

Definition new (upThresh downThresh minVisibility legExtendedThresh : number) : t :=
  {| state := UNARMED; count := 0; elbowAngle := NaN; kneeAngle := NaN;
     formWarning := ""; legsQualified := false;
     upThresh := upThresh; downThresh := downThresh;
     minVisibility := minVisibility; legExtendedThresh := legExtendedThresh |}.

(** [new PushupCounter()] *)
Definition default : t := new (Num 145) (Num 70) (Num 0.6) (Num 130).

Definition reset (this : t) : t :=
  {| state := UNARMED; count := 0; elbowAngle := NaN; kneeAngle := NaN;
     formWarning := ""; legsQualified := false;
     upThresh := this.(upThresh); downThresh := this.(downThresh);
     minVisibility := this.(minVisibility);
     legExtendedThresh := this.(legExtendedThresh) |}.

(** The locals of [update] that the state machine and the feedback read. *)
Record Frame : Type := mkFrame {
  sh : Point;
  el : Point;
  wr : Point;
  f_elbowAngle : number;
  f_kneeAngle : number;
  legsVisible : bool;
  legsExtended : bool
}.

(** Lines 90-146 of [update]: side selection and the two angles. *)
Definition measure (this : t) (landmarks : list Landmark)
           (imageW imageH : number) (side : string) : Frame :=
  let preferRight := startsWith (toLowerCase side) "r" in
  let pt i := toPoint (at_index landmarks i) imageW imageH in
  let lsh := pt POSE_LANDMARKS.LEFT_SHOULDER in
  let rsh := pt POSE_LANDMARKS.RIGHT_SHOULDER in
  let lel := pt POSE_LANDMARKS.LEFT_ELBOW in
  let rel := pt POSE_LANDMARKS.RIGHT_ELBOW in
  let lwr := pt POSE_LANDMARKS.LEFT_WRIST in
  let rwr := pt POSE_LANDMARKS.RIGHT_WRIST in
  let lhip := pt POSE_LANDMARKS.LEFT_HIP in
  let rhip := pt POSE_LANDMARKS.RIGHT_HIP in
  let lkn := pt POSE_LANDMARKS.LEFT_KNEE in
  let rkn := pt POSE_LANDMARKS.RIGHT_KNEE in
  let lank := pt POSE_LANDMARKS.LEFT_ANKLE in
  let rank := pt POSE_LANDMARKS.RIGHT_ANKLE in
  let mv := this.(minVisibility) in
  let armOK (isRight : bool) :=
    let sh := if isRight then rsh else lsh in
    let el := if isRight then rel else lel in
    let wr := if isRight then rwr else lwr in
    isVisible sh mv && isVisible el mv && isVisible wr mv in
  let useRight :=
    if armOK preferRight then preferRight
    else if negb (armOK (negb preferRight)) then preferRight
    else negb preferRight in
  let sh := if useRight then rsh else lsh in
  let el := if useRight then rel else lel in
  let wr := if useRight then rwr else lwr in
  let legOK (isRight : bool) :=
    let hp := if isRight then rhip else lhip in
    let kn := if isRight then rkn else lkn in
    let an := if isRight then rank else lank in
    isVisible hp mv && isVisible kn mv && isVisible an mv in
  let rightLegOk := legOK true in
  let leftLegOk := legOK false in
  (* [None] is the source's [null] *)
  let legSide : option bool :=
    if rightLegOk && leftLegOk then Some useRight
    else if rightLegOk then Some true
    else if leftLegOk then Some false
    else None in
  let elbowAngle := calculateAngle2D sh el wr in
  let kneeAngle :=
    match legSide with
    | Some legSide =>
        let hp := if legSide then rhip else lhip in
        let kn := if legSide then rkn else lkn in
        let an := if legSide then rank else lank in
        calculateAngle2D hp kn an
    | None => NaN
    end in
  let legsVisible := match legSide with Some _ => true | None => false end in
  let legsExtended :=
    legsVisible && negb (isNaN kneeAngle)
    && (kneeAngle [>=] this.(legExtendedThresh)) in
  {| sh := sh; el := el; wr := wr;
     f_elbowAngle := elbowAngle; f_kneeAngle := kneeAngle;
     legsVisible := legsVisible; legsExtended := legsExtended |}.

Definition set_fsm (this : t) (st : PushupState) (cnt : Z) (lq : bool) : t :=
  {| state := st; count := cnt;
     elbowAngle := this.(elbowAngle); kneeAngle := this.(kneeAngle);
     formWarning := this.(formWarning); legsQualified := lq;
     upThresh := this.(upThresh); downThresh := this.(downThresh);
     minVisibility := this.(minVisibility);
     legExtendedThresh := this.(legExtendedThresh) |}.

Definition set_angles (this : t) (e k : number) : t :=
  {| state := this.(state); count := this.(count);
     elbowAngle := e; kneeAngle := k;
     formWarning := this.(formWarning); legsQualified := this.(legsQualified);
     upThresh := this.(upThresh); downThresh := this.(downThresh);
     minVisibility := this.(minVisibility);
     legExtendedThresh := this.(legExtendedThresh) |}.

Definition set_formWarning (this : t) (w : string) : t :=
  {| state := this.(state); count := this.(count);
     elbowAngle := this.(elbowAngle); kneeAngle := this.(kneeAngle);
     formWarning := w; legsQualified := this.(legsQualified);
     upThresh := this.(upThresh); downThresh := this.(downThresh);
     minVisibility := this.(minVisibility);
     legExtendedThresh := this.(legExtendedThresh) |}.

(** The [switch (this.state)] of [update], lines 149-170. *)
Definition stateMachine (this : t) (legsExtended : bool) : t :=
  match this.(state) with
  | UNARMED =>
      if (this.(elbowAngle) [>=] this.(upThresh)) && legsExtended
      then set_fsm this UP this.(count) false
      else set_fsm this UNARMED this.(count) false
  | UP =>
      if this.(elbowAngle) [<=] this.(downThresh)
      then set_fsm this DOWN this.(count) legsExtended
      else this
  | DOWN =>
      let legsQualified := this.(legsQualified) || legsExtended in
      if (this.(elbowAngle) [>=] this.(upThresh)) && legsQualified
      then set_fsm this UP (this.(count) + 1) false
      else set_fsm this DOWN this.(count) legsQualified
  end.

Definition PushupState_eqb (a b : PushupState) : bool :=
  match a, b with
  | UNARMED, UNARMED | UP, UP | DOWN, DOWN => true
  | _, _ => false
  end.

(** The feedback chain of [update], lines 173-189. *)
Definition feedback (this : t) (f : Frame) : string :=
  let mv := this.(minVisibility) in
  let visibilityOK :=
    isVisible f.(sh) mv && isVisible f.(el) mv && isVisible f.(wr) mv in
  if negb visibilityOK then "Arm not clearly visible"
  else if negb f.(legsVisible) then "Keep legs in frame"
  else if PushupState_eqb this.(state) UNARMED
          && (this.(elbowAngle) [>=] this.(upThresh)) && negb f.(legsExtended)
  then "Straighten your legs & arms"
  else if PushupState_eqb this.(state) DOWN && negb this.(legsQualified)
  then "Straighten your legs"
  else if PushupState_eqb this.(state) UP
          && (this.(elbowAngle) [<] this.(upThresh) [-] Num 10)
  then "Extend your arms more"
  else if negb (PushupState_eqb this.(state) UP)
          && (this.(elbowAngle) [>] this.(downThresh) [+] Num 10)
  then "Go lower"
  else "".

Definition update (this : t) (landmarks : list Landmark)
           (imageW imageH : number) (side : string) : t :=
  if (List.length landmarks <? 33)%nat then this
  else
    let f := measure this landmarks imageW imageH side in
    let this := set_angles this f.(f_elbowAngle) f.(f_kneeAngle) in
    let this := stateMachine this f.(legsExtended) in
    set_formWarning this (feedback this f).

Record Snapshot : Type := mkSnapshot {
  s_count : Z;
  s_warning : string;
  s_state : string;
  s_elbowAngle : number;
  s_kneeAngle : number
}.

Definition getState (this : t) : Snapshot :=
  {| s_count := this.(count); s_warning := this.(formWarning);
     s_state := PushupState_str this.(state);
     s_elbowAngle := this.(elbowAngle); s_kneeAngle := this.(kneeAngle) |}.

End PushupCounter.

(* ================================================================== *)
(** ** SquatCounter *)
(* ================================================================== *)

Module SquatCounter.

Inductive SquatState : Type := UNARMED | UP | DOWN.

Definition SquatState_str (s : SquatState) : string :=
  match s with UNARMED => "UNARMED" | UP => "UP" | DOWN => "DOWN" end.

Definition SquatState_eqb (a b : SquatState) : bool :=
  match a, b with
  | UNARMED, UNARMED | UP, UP | DOWN, DOWN => true
  | _, _ => false
  end.

Record SquatMetrics : Type := mkMetrics {
  m_kneeAngle : number;
  m_hipAngle : number;
  legsVisible : bool;
  standing : bool;
  hipBelowKnee : bool;
  kneeOverFootOK : bool
}.

Record t : Type := mk {
  state : SquatState;
  count : Z;
  kneeAngle : number;
  hipAngle : number;
  formWarning : string;
  liveWarning : string;
  visibilityQualified : bool;
  kneeEma : number;
  hipEma : number;
  (* constructor parameters *)
  upThresh : number;
  downThresh : number;
  minVisibility : number;
  torsoLeanMax : number;
  smoothAlpha : number
}.

Definition new (upThresh downThresh minVisibility torsoLeanMax smoothAlpha : number) : t :=
  {| state := UNARMED; count := 0; kneeAngle := NaN; hipAngle := NaN;
     formWarning := ""; liveWarning := ""; visibilityQualified := false;
     kneeEma := NaN; hipEma := NaN;
     upThresh := upThresh; downThresh := downThresh;
     minVisibility := minVisibility; torsoLeanMax := torsoLeanMax;
     smoothAlpha := smoothAlpha |}.

(** [new SquatCounter()] *)
Definition default : t := new (Num 165) (Num 95) (Num 0.6) (Num 55) (Num 0.35).

Definition reset (this : t) : t :=
  {| state := UNARMED; count := 0; kneeAngle := NaN; hipAngle := NaN;
     formWarning := ""; liveWarning := ""; visibilityQualified := false;
     kneeEma := NaN; hipEma := NaN;
     upThresh := this.(upThresh); downThresh := this.(downThresh);
     minVisibility := this.(minVisibility); torsoLeanMax := this.(torsoLeanMax);
     smoothAlpha := this.(smoothAlpha) |}.

Definition ema (this : t) (prev cur : number) : number :=
  if this.(smoothAlpha) [<=] Num 0 then cur
  else if isNaN prev then cur
  else this.(smoothAlpha) [*] cur [+] (Num 1 [-] this.(smoothAlpha)) [*] prev.

Definition computeMetrics (this : t) (landmarks : list Landmark)
           (imageW imageH : number) (side : string) : SquatMetrics :=
  if (List.length landmarks <? 33)%nat then
    {| m_kneeAngle := this.(kneeAngle); m_hipAngle := this.(hipAngle);
       legsVisible := false; standing := false; hipBelowKnee := false;
       kneeOverFootOK := true |}
  else
    let preferRight := startsWith (toLowerCase side) "r" in
    let pt i := toPoint (at_index landmarks i) imageW imageH in
    let lsh := pt POSE_LANDMARKS.LEFT_SHOULDER in
    let rsh := pt POSE_LANDMARKS.RIGHT_SHOULDER in
    let lhip := pt POSE_LANDMARKS.LEFT_HIP in
    let rhip := pt POSE_LANDMARKS.RIGHT_HIP in
    let lkn := pt POSE_LANDMARKS.LEFT_KNEE in
    let rkn := pt POSE_LANDMARKS.RIGHT_KNEE in
    let lank := pt POSE_LANDMARKS.LEFT_ANKLE in
    let rank := pt POSE_LANDMARKS.RIGHT_ANKLE in
    let mv := this.(minVisibility) in
    let legOK (isRight : bool) :=
      let sh := if isRight then rsh else lsh in
      let hp := if isRight then rhip else lhip in
      let kn := if isRight then rkn else lkn in
      let an := if isRight then rank else lank in
      isVisible sh mv && isVisible hp mv && isVisible kn mv && isVisible an mv in
    let useRight :=
      if legOK preferRight then preferRight
      else if negb (legOK (negb preferRight)) then preferRight
      else negb preferRight in
    let sh := if useRight then rsh else lsh in
    let hp := if useRight then rhip else lhip in
    let kn := if useRight then rkn else lkn in
    let an := if useRight then rank else lank in
    let kneeA := calculateAngle2D hp kn an in
    let hipA := calculateAngle2D sh hp kn in
    let legsVisible :=
      isVisible sh mv && isVisible hp mv && isVisible kn mv && isVisible an mv in
    let standing := kneeA [>=] this.(upThresh) in
    let depthMarginPx := imageH [*] Num 0.01 in
    let hipBelowKnee := hp.(y) [>] kn.(y) [+] depthMarginPx in
    let kneeAnkleDx := Math.abs (kn.(x) [-] an.(x)) in
    let kneeAnkleLen :=
      Math.max (Num 1e-6) (Math.hypot (kn.(x) [-] an.(x)) (kn.(y) [-] an.(y))) in
    let kneeOverFootOK := (kneeAnkleDx [/] kneeAnkleLen) [<=] Num 0.45 in
    {| m_kneeAngle := kneeA; m_hipAngle := hipA; legsVisible := legsVisible;
       standing := standing; hipBelowKnee := hipBelowKnee;
       kneeOverFootOK := kneeOverFootOK |}.

Definition depthReached (this : t) (m : SquatMetrics) : bool :=
  (m.(m_kneeAngle) [<=] this.(downThresh)) && m.(hipBelowKnee).

Definition warningFromMetrics (this : t) (m : SquatMetrics) : string :=
  if negb m.(legsVisible) then "Keep legs in frame"
  else if negb (SquatState_eqb this.(state) DOWN)
          && (m.(m_kneeAngle) [>] this.(downThresh) [+] Num 12)
  then "Go deeper"
  else if negb (SquatState_eqb this.(state) DOWN) && negb m.(hipBelowKnee)
  then "Drop hips below knees"
  else if SquatState_eqb this.(state) UP
          && (m.(m_kneeAngle) [<] this.(upThresh) [-] Num 10)
  then "Stand up fully"
  else if negb m.(kneeOverFootOK) then "Align knee over foot"
  else if m.(m_hipAngle) [<] this.(torsoLeanMax) then "Keep chest up"
  else "".

Definition set_fsm (this : t) (st : SquatState) (cnt : Z) (vq : bool) : t :=
  {| state := st; count := cnt;
     kneeAngle := this.(kneeAngle); hipAngle := this.(hipAngle);
     formWarning := this.(formWarning); liveWarning := this.(liveWarning);
     visibilityQualified := vq;
     kneeEma := this.(kneeEma); hipEma := this.(hipEma);
     upThresh := this.(upThresh); downThresh := this.(downThresh);
     minVisibility := this.(minVisibility); torsoLeanMax := this.(torsoLeanMax);
     smoothAlpha := this.(smoothAlpha) |}.

(** Lines 340-344: both accumulators, then the two public angles. *)
Definition set_smoothed (this : t) (k h : number) : t :=
  {| state := this.(state); count := this.(count);
     kneeAngle := k; hipAngle := h;
     formWarning := this.(formWarning); liveWarning := this.(liveWarning);
     visibilityQualified := this.(visibilityQualified);
     kneeEma := k; hipEma := h;
     upThresh := this.(upThresh); downThresh := this.(downThresh);
     minVisibility := this.(minVisibility); torsoLeanMax := this.(torsoLeanMax);
     smoothAlpha := this.(smoothAlpha) |}.

Definition set_warnings (this : t) (w : string) : t :=
  {| state := this.(state); count := this.(count);
     kneeAngle := this.(kneeAngle); hipAngle := this.(hipAngle);
     formWarning := w; liveWarning := w;
     visibilityQualified := this.(visibilityQualified);
     kneeEma := this.(kneeEma); hipEma := this.(hipEma);
     upThresh := this.(upThresh); downThresh := this.(downThresh);
     minVisibility := this.(minVisibility); torsoLeanMax := this.(torsoLeanMax);
     smoothAlpha := this.(smoothAlpha) |}.

(** [{ ...m, kneeAngle: this.kneeAngle, hipAngle: this.hipAngle }] *)
Definition smoothed (this : t) (m : SquatMetrics) : SquatMetrics :=
  {| m_kneeAngle := this.(kneeAngle); m_hipAngle := this.(hipAngle);
     legsVisible := m.(legsVisible); standing := m.(standing);
     hipBelowKnee := m.(hipBelowKnee); kneeOverFootOK := m.(kneeOverFootOK) |}.

(** The [switch (this.state)] of [update], lines 349-370. *)
Definition stateMachine (this : t) (smoothedMetrics : SquatMetrics) : t :=
  match this.(state) with
  | UNARMED =>
      if smoothedMetrics.(standing) && smoothedMetrics.(legsVisible)
      then set_fsm this UP this.(count) false
      else set_fsm this UNARMED this.(count) false
  | UP =>
      if depthReached this smoothedMetrics
      then set_fsm this DOWN this.(count) smoothedMetrics.(legsVisible)
      else this
  | DOWN =>
      let visibilityQualified :=
        this.(visibilityQualified) && smoothedMetrics.(legsVisible) in
      if smoothedMetrics.(standing) && visibilityQualified
      then set_fsm this UP (this.(count) + 1) false
      else set_fsm this DOWN this.(count) visibilityQualified
  end.

Definition update (this : t) (landmarks : list Landmark)
           (imageW imageH : number) (side : string) : t :=
  let m := computeMetrics this landmarks imageW imageH side in
  let this := set_smoothed this (ema this this.(kneeEma) m.(m_kneeAngle))
                                (ema this this.(hipEma) m.(m_hipAngle)) in
  let smoothedMetrics := smoothed this m in
  let this := stateMachine this smoothedMetrics in
  set_warnings this (warningFromMetrics this smoothedMetrics).

Record Snapshot : Type := mkSnapshot {
  s_count : Z;
  s_warning : string;
  s_state : string;
  s_kneeAngle : number;
  s_hipAngle : number
}.

Definition getState (this : t) : Snapshot :=
  {| s_count := this.(count); s_warning := this.(formWarning);
     s_state := SquatState_str this.(state);
     s_kneeAngle := this.(kneeAngle); s_hipAngle := this.(hipAngle) |}.

End SquatCounter.

(* ================================================================== *)
(** ** PlankEvaluator *)
(* ================================================================== *)

Module PlankEvaluator.

Inductive PlankState : Type := NOT_READY | READY | HOLDING.

Inductive PlankType : Type := HIGH | FOREARM | UNKNOWN.

Definition PlankState_str (s : PlankState) : string :=
  match s with NOT_READY => "NOT_READY" | READY => "READY" | HOLDING => "HOLDING" end.

Definition PlankState_eqb (a b : PlankState) : bool :=
  match a, b with
  | NOT_READY, NOT_READY | READY, READY | HOLDING, HOLDING => true
  | _, _ => false
  end.

Definition isHIGH (p : PlankType) : bool :=
  match p with HIGH => true | _ => false end.

(** The constructor parameters; [weights] is a [Record<string, number>]. *)
Record Config : Type := mkConfig {
  hipOkRange : number * number;
  hipSagMax : number;
  hipPikeMin : number;
  headOkRange : number * number;
  stackOkMaxDeg : number;
  underShoulderPxNorm : number;
  feetMaxWidth : number;
  feetMinWidth : number;
  emaAlpha : number;
  minVisibility : number;
  readySeconds : number;
  weights : string -> option number
}.

Definition defaultWeights (key : string) : option number :=
  if String.eqb key "hip" then Some (Num 0.35)
  else if String.eqb key "head" then Some (Num 0.15)
  else if String.eqb key "stack" then Some (Num 0.15)
  else if String.eqb key "under" then Some (Num 0.2)
  else if String.eqb key "feet" then Some (Num 0.15)
  else None.

Definition defaultConfig : Config :=
  {| hipOkRange := (Num 165, Num 180);
     hipSagMax := Num 150;
     hipPikeMin := Num 190;
     headOkRange := (Num 155, Num 200);
     stackOkMaxDeg := Num 6;
     underShoulderPxNorm := Num 0.25;
     feetMaxWidth := Num 1.4;
     feetMinWidth := Num 0.7;
     emaAlpha := Num 0.35;
     minVisibility := Num 0.5;
     readySeconds := Num 1;
     weights := defaultWeights |}.

Record t : Type := mk {
  state : PlankState;
  plankType : PlankType;
  overallScore : number;
  holdTime : number;
  bestHold : number;
  totalTime : number;
  hipScore : number;
  headScore : number;
  stackScore : number;
  underScore : number;
  feetScore : number;
  hipAngle : number;
  headAngle : number;
  shoulderMisalignment : number;
  hipMisalignment : number;
  underShoulderDist : number;
  feetWidthRatio : number;
  formWarnings : list string;
  stateStartTime : Z;
  holdStartTime : option Z;
  lastUpdateTime : Z;
  hipAngSmooth : number;
  headAngSmooth : number;
  stackShSmooth : number;
  stackHipSmooth : number;
  underSmooth : number;
  feetWSmooth : number;
  cfg : Config
}.

(** The field initialisers; [t1] and [t2] are the two readings of
    [Date.now()]. *)
Definition initial (c : Config) (t1 t2 : Z) : t :=
  {| state := NOT_READY; plankType := UNKNOWN;
     overallScore := Num 0; holdTime := Num 0; bestHold := Num 0;
     totalTime := Num 0;
     hipScore := Num 1; headScore := Num 1; stackScore := Num 1;
     underScore := Num 1; feetScore := Num 1;
     hipAngle := NaN; headAngle := NaN;
     shoulderMisalignment := NaN; hipMisalignment := NaN;
     underShoulderDist := NaN; feetWidthRatio := NaN;
     formWarnings := [];
     stateStartTime := t1; holdStartTime := None; lastUpdateTime := t2;
     hipAngSmooth := NaN; headAngSmooth := NaN;
     stackShSmooth := NaN; stackHipSmooth := NaN;
     underSmooth := NaN; feetWSmooth := NaN;
     cfg := c |}.

(** [new PlankEvaluator()] *)
Definition default (t1 t2 : Z) : t := initial defaultConfig t1 t2.

Definition reset (this : t) (t1 t2 : Z) : t := initial this.(cfg) t1 t2.

Definition ema (this : t) (prev newVal : number) : number :=
  if isNaN prev || isNaN newVal then newVal
  else this.(cfg).(emaAlpha) [*] newVal [+] (Num 1 [-] this.(cfg).(emaAlpha)) [*] prev.

Definition angle3 (a b c : Point) : number :=
  let bax := a.(x) [-] b.(x) in
  let bay := a.(y) [-] b.(y) in
  let baz := a.(z) [-] b.(z) in
  let bcx := c.(x) [-] b.(x) in
  let bcy := c.(y) [-] b.(y) in
  let bcz := c.(z) [-] b.(z) in
  let normBA := Math.sqrt (bax [*] bax [+] bay [*] bay [+] baz [*] baz) in
  let normBC := Math.sqrt (bcx [*] bcx [+] bcy [*] bcy [+] bcz [*] bcz) in
  let den := Math.max (Num 1e-9) (normBA [*] normBC) in
  let cos := Math.max (Num (-1))
               (Math.min (Num 1) ((bax [*] bcx [+] bay [*] bcy [+] baz [*] bcz) [/] den)) in
  let ang := (Math.acos cos [*] Num 180) [/] Math.PI in
  Num 180 [-] ang [+] Num 180.

Definition verticalMisalignDeg (l r : Point) : number :=
  let dx := r.(x) [-] l.(x) in
  let dy := r.(y) [-] l.(y) in
  let dz := r.(z) [-] l.(z) in
  let norm := Math.sqrt (dx [*] dx [+] dy [*] dy [+] dz [*] dz) in
  if norm [<] Num 1e-6 then NaN
  else
    let horizNorm := Math.hypot dx dz in
    if horizNorm [<] Num 1e-6 then NaN
    else
      let cos := Math.max (Num (-1)) (Math.min (Num 1) (horizNorm [/] norm)) in
      (Math.acos cos [*] Num 180) [/] Math.PI.

(** The local [elbowAngle] of [classifyPlank]. *)
Definition elbowAngle (lsh lel lwr : Point) : number :=
  let bax := lsh.(x) [-] lel.(x) in
  let bay := lsh.(y) [-] lel.(y) in
  let baz := lsh.(z) [-] lel.(z) in
  let bcx := lwr.(x) [-] lel.(x) in
  let bcy := lwr.(y) [-] lel.(y) in
  let bcz := lwr.(z) [-] lel.(z) in
  let normBA := Math.sqrt (bax [*] bax [+] bay [*] bay [+] baz [*] baz) in
  let normBC := Math.sqrt (bcx [*] bcx [+] bcy [*] bcy [+] bcz [*] bcz) in
  if (normBA [<] Num 1e-6) || (normBC [<] Num 1e-6) then NaN
  else
    let cos := Math.max (Num (-1))
                 (Math.min (Num 1)
                    ((bax [*] bcx [+] bay [*] bcy [+] baz [*] bcz) [/] (normBA [*] normBC))) in
    (Math.acos cos [*] Num 180) [/] Math.PI.

Definition classifyPlank (this : t) (lsh rsh lel rel lwr rwr : Point) : PlankType :=
  let mv := this.(cfg).(minVisibility) in
  let allVisible :=
    isVisible lsh mv && isVisible rsh mv && isVisible lel mv && isVisible rel mv
    && isVisible lwr mv && isVisible rwr mv in
  if negb allVisible then UNKNOWN
  else
    let avgDiff := ((lel.(y) [-] lwr.(y)) [+] (rel.(y) [-] rwr.(y))) [/] Num 2 in
    if avgDiff [<] Num (-0.02) then HIGH
    else if avgDiff [>] Num 0.02 then FOREARM
    else
      let angL := elbowAngle lsh lel lwr in
      let angR := elbowAngle rsh rel rwr in
      let ang :=
        if negb (isNaN angL) && negb (isNaN angR) then (angL [+] angR) [/] Num 2
        else if negb (isNaN angL) then angL else angR in
      if isNaN ang then UNKNOWN
      else if ang [>] Num 150 then HIGH else FOREARM.

Definition avg (a b : Point) : Point :=
  {| x := (a.(x) [+] b.(x)) [/] Num 2;
     y := (a.(y) [+] b.(y)) [/] Num 2;
     z := (a.(z) [+] b.(z)) [/] Num 2;
     vis := (a.(vis) [+] b.(vis)) [/] Num 2 |}.

Definition horizDist (base sh : Point) : number :=
  let dx := base.(x) [-] sh.(x) in
  let dz := base.(z) [-] sh.(z) in
  Math.hypot dx dz.

(** Lines 645-662: the hip sub-score and its issue message. *)
Definition scoreHip (c : Config) (hipAngSmooth : number) : number * list string :=
  if negb (isNaN hipAngSmooth) then
    if hipAngSmooth [<] c.(hipSagMax) then
      (Math.max (Num 0) ((hipAngSmooth [-] Num 90) [/] (c.(hipSagMax) [-] Num 90)),
       ["Hips sagging too much"])
    else if hipAngSmooth [<] fst c.(hipOkRange) then
      let range := fst c.(hipOkRange) [-] c.(hipSagMax) in
      (Num 0.5 [+] Num 0.5 [*] ((hipAngSmooth [-] c.(hipSagMax)) [/] range),
       ["Lift hips slightly"])
    else if hipAngSmooth [>] c.(hipPikeMin) then
      (Math.max (Num 0) (Num 1 [-] (hipAngSmooth [-] c.(hipPikeMin)) [/] Num 20),
       ["Lower hips (piking)"])
    else if hipAngSmooth [>] snd c.(hipOkRange) then
      let range := c.(hipPikeMin) [-] snd c.(hipOkRange) in
      (Num 0.5 [+] Num 0.5 [*] (Num 1 [-] (hipAngSmooth [-] snd c.(hipOkRange)) [/] range),
       ["Lower hips slightly"])
    else (Num 1, [])
  else (Num 1, []).

(** Lines 665-675. *)
Definition scoreHead (c : Config) (headAngSmooth : number) : number * list string :=
  if negb (isNaN headAngSmooth) then
    if headAngSmooth [<] fst c.(headOkRange) then
      let range := fst c.(headOkRange) [-] Num 90 in
      (Math.max (Num 0) ((headAngSmooth [-] Num 90) [/] range),
       ["Look forward (head dropping)"])
    else if headAngSmooth [<] fst c.(headOkRange) [+] Num 10 then
      let range := Num 10 in
      (Num 0.8 [+] Num 0.2 [*] ((headAngSmooth [-] fst c.(headOkRange)) [/] range), [])
    else (Num 1, [])
  else (Num 1, []).

(** Lines 678-685. *)
Definition scoreStack (c : Config) (stackShSmooth stackHipSmooth : number)
  : number * list string :=
  if negb (isNaN stackShSmooth) && negb (isNaN stackHipSmooth) then
    let maxMis := Math.max stackShSmooth stackHipSmooth in
    if maxMis [>] c.(stackOkMaxDeg) then
      (Math.max (Num 0) (Num 1 [-] (maxMis [-] c.(stackOkMaxDeg)) [/] Num 15),
       ["Align shoulders/hips (no twist)"])
    else (Num 1, [])
  else (Num 1, []).

(** Lines 688-694. *)
Definition scoreUnder (c : Config) (underSmooth : number) : number * list string :=
  if negb (isNaN underSmooth) then
    if underSmooth [>] c.(underShoulderPxNorm) then
      (Math.max (Num 0) (Num 1 [-] (underSmooth [-] c.(underShoulderPxNorm)) [/] Num 0.3),
       ["Position hands/elbows under shoulders"])
    else (Num 1, [])
  else (Num 1, []).

(** Lines 697-706. *)
Definition scoreFeet (c : Config) (feetWSmooth : number) : number * list string :=
  if negb (isNaN feetWSmooth) then
    if feetWSmooth [<] c.(feetMinWidth) then
      (Math.max (Num 0) (feetWSmooth [/] c.(feetMinWidth)), ["Widen feet to hip-width"])
    else if feetWSmooth [>] c.(feetMaxWidth) then
      (Math.max (Num 0) (Num 1 [-] (feetWSmooth [-] c.(feetMaxWidth)) [/] Num 0.6),
       ["Narrow feet to hip-width"])
    else (Num 1, [])
  else (Num 1, []).

(** [this.weights[key] || dflt]: [undefined], [0] and NaN are falsy. *)
Definition weight_or (c : Config) (key : string) (dflt : number) : number :=
  match c.(weights) key with
  | Some (Num w) => if Req_dec_T w 0 then dflt else Num w
  | Some NaN => dflt
  | None => dflt
  end.

(** Lines 709-715. *)
Definition overall (c : Config) (hipScore headScore stackScore underScore feetScore : number)
  : number :=
  (weight_or c "hip" (Num 0.35) [*] hipScore [+]
   weight_or c "head" (Num 0.15) [*] headScore [+]
   weight_or c "stack" (Num 0.15) [*] stackScore [+]
   weight_or c "under" (Num 0.2) [*] underScore [+]
   weight_or c "feet" (Num 0.15) [*] feetScore) [*] Num 100.

(** Lines 577-580. *)
Definition criticalPointsVisible (this : t) (landmarks : list Landmark)
           (imageW imageH : number) : bool :=
  let pt i := toPoint (at_index landmarks i) imageW imageH in
  let mv := this.(cfg).(minVisibility) in
  let leftSideVisible :=
    isVisible (pt POSE_LANDMARKS.LEFT_SHOULDER) mv
    && isVisible (pt POSE_LANDMARKS.LEFT_KNEE) mv in
  let rightSideVisible :=
    isVisible (pt POSE_LANDMARKS.RIGHT_SHOULDER) mv
    && isVisible (pt POSE_LANDMARKS.RIGHT_KNEE) mv in
  leftSideVisible || rightSideVisible.

(** Everything [update] computes between the visibility gate and the state
    machine (lines 593-724). *)
Record Assessment : Type := mkAssessment {
  a_plankType : PlankType;
  a_hipAngle : number;
  a_headAngle : number;
  a_shoulderMisalignment : number;
  a_hipMisalignment : number;
  a_underShoulderDist : number;
  a_feetWidthRatio : number;
  a_hipAngSmooth : number;
  a_headAngSmooth : number;
  a_stackShSmooth : number;
  a_stackHipSmooth : number;
  a_underSmooth : number;
  a_feetWSmooth : number;
  a_hipScore : number;
  a_headScore : number;
  a_stackScore : number;
  a_underScore : number;
  a_feetScore : number;
  a_issues : list string;
  a_overallScore : number;
  a_stableEnough : bool
}.

Definition assess (this : t) (landmarks : list Landmark)
           (imageW imageH : number) : Assessment :=
  let pt i := toPoint (at_index landmarks i) imageW imageH in
  let lsh := pt POSE_LANDMARKS.LEFT_SHOULDER in
  let rsh := pt POSE_LANDMARKS.RIGHT_SHOULDER in
  let lel := pt POSE_LANDMARKS.LEFT_ELBOW in
  let rel := pt POSE_LANDMARKS.RIGHT_ELBOW in
  let lwr := pt POSE_LANDMARKS.LEFT_WRIST in
  let rwr := pt POSE_LANDMARKS.RIGHT_WRIST in
  let lhip := pt POSE_LANDMARKS.LEFT_HIP in
  let rhip := pt POSE_LANDMARKS.RIGHT_HIP in
  let lank := pt POSE_LANDMARKS.LEFT_ANKLE in
  let rank := pt POSE_LANDMARKS.RIGHT_ANKLE in
  let lear := pt 7%nat in
  let rear := pt 8%nat in
  let c := this.(cfg) in
  let mv := c.(minVisibility) in
  let sho := avg lsh rsh in
  let hip := avg lhip rhip in
  let ank := avg lank rank in
  let ear := avg lear rear in
  let scale := Math.hypot (sho.(x) [-] hip.(x)) (sho.(y) [-] hip.(y)) in
  let hipAngle := angle3 sho hip ank in
  let headAngle := angle3 ear sho hip in
  let shoulderMisalignment := verticalMisalignDeg lsh rsh in
  let hipMisalignment := verticalMisalignDeg lhip rhip in
  let plankType := classifyPlank this lsh rsh lel rel lwr rwr in
  let baseL := if isHIGH plankType then lwr else lel in
  let baseR := if isHIGH plankType then rwr else rel in
  let underShoulderDist := (horizDist baseL lsh [+] horizDist baseR rsh) [/] Num 2 in
  let hipW :=
    (Math.hypot (lsh.(x) [-] rsh.(x)) (lsh.(y) [-] rsh.(y))
     [+] Math.hypot (lhip.(x) [-] rhip.(x)) (lhip.(y) [-] rhip.(y))) [/] Num 2 in
  let feetWidthRatio :=
    Math.hypot (lank.(x) [-] rank.(x)) (lank.(y) [-] rank.(y))
    [/] Math.max hipW (Num 1) in
  let hipAngSmooth := ema this this.(hipAngSmooth) hipAngle in
  let headAngSmooth := ema this this.(headAngSmooth) headAngle in
  let stackShSmooth := ema this this.(stackShSmooth) shoulderMisalignment in
  let stackHipSmooth := ema this this.(stackHipSmooth) hipMisalignment in
  let underSmooth :=
    ema this this.(underSmooth) (underShoulderDist [/] Math.max scale (Num 1)) in
  let feetWSmooth := ema this this.(feetWSmooth) feetWidthRatio in
  let hipScore := fst (scoreHip c hipAngSmooth) in
  let headScore := fst (scoreHead c headAngSmooth) in
  let stackScore := fst (scoreStack c stackShSmooth stackHipSmooth) in
  let underScore := fst (scoreUnder c underSmooth) in
  let feetScore := fst (scoreFeet c feetWSmooth) in
  let issues :=
    (snd (scoreHip c hipAngSmooth) ++ snd (scoreHead c headAngSmooth)
     ++ snd (scoreStack c stackShSmooth stackHipSmooth)
     ++ snd (scoreUnder c underSmooth) ++ snd (scoreFeet c feetWSmooth))%list in
  let overallScore := overall c hipScore headScore stackScore underScore feetScore in
  let stableCoreVisible :=
    isVisible lsh mv && isVisible rsh mv && isVisible lhip mv && isVisible rhip mv
    && isVisible lank mv && isVisible rank mv in
  let stableEnough := (overallScore [>] Num 50) && stableCoreVisible in
  {| a_plankType := plankType;
     a_hipAngle := hipAngle; a_headAngle := headAngle;
     a_shoulderMisalignment := shoulderMisalignment;
     a_hipMisalignment := hipMisalignment;
     a_underShoulderDist := underShoulderDist;
     a_feetWidthRatio := feetWidthRatio;
     a_hipAngSmooth := hipAngSmooth; a_headAngSmooth := headAngSmooth;
     a_stackShSmooth := stackShSmooth; a_stackHipSmooth := stackHipSmooth;
     a_underSmooth := underSmooth; a_feetWSmooth := feetWSmooth;
     a_hipScore := hipScore; a_headScore := headScore;
     a_stackScore := stackScore; a_underScore := underScore;
     a_feetScore := feetScore;
     a_issues := issues;
     a_overallScore := overallScore;
     a_stableEnough := stableEnough |}.

(** Milliseconds between two clock readings, in seconds. *)
Definition seconds (later earlier : Z) : number :=
  Num (IZR (later - earlier)) [/] Num 1000.

(** What the [switch (this.state)] of lines 726-755 writes. *)
Record Timing : Type := mkTiming {
  t_state : PlankState;
  t_stateStartTime : Z;
  t_holdStartTime : option Z;
  t_totalTime : number
}.

Definition stateMachine (this : t) (now : Z) (stableEnough : bool) : Timing :=
  match this.(state) with
  | NOT_READY =>
      if stableEnough
      then mkTiming READY now this.(holdStartTime) this.(totalTime)
      else mkTiming NOT_READY this.(stateStartTime) this.(holdStartTime) this.(totalTime)
  | READY =>
      if negb stableEnough
      then mkTiming NOT_READY now this.(holdStartTime) this.(totalTime)
      else
        let elapsed := seconds now this.(stateStartTime) in
        if elapsed [>=] this.(cfg).(readySeconds)
        then mkTiming HOLDING this.(stateStartTime) (Some now) this.(totalTime)
        else mkTiming READY this.(stateStartTime) this.(holdStartTime) this.(totalTime)
  | HOLDING =>
      let deltaTime := seconds now this.(lastUpdateTime) in
      let totalTime := this.(totalTime) [+] deltaTime in
      if negb stableEnough
      then mkTiming NOT_READY now None totalTime
      else mkTiming HOLDING this.(stateStartTime) this.(holdStartTime) totalTime
  end.

(** [this.holdStartTime ? (now - this.holdStartTime) / 1000.0 : 0.0]:
    [null] and the timestamp [0] are falsy. *)
Definition holdTimeAt (now : Z) (holdStartTime : option Z) : number :=
  match holdStartTime with
  | Some hs => if (hs =? 0)%Z then Num 0 else seconds now hs
  | None => Num 0
  end.

Definition update (this : t) (now : Z) (landmarks : list Landmark)
           (imageW imageH : number) : t :=
  if (List.length landmarks <? 33)%nat then this
  else if negb (criticalPointsVisible this landmarks imageW imageH) then
    let leaving := negb (PlankState_eqb this.(state) NOT_READY) in
    {| state := NOT_READY;
       plankType := this.(plankType);
       overallScore := Num 0;
       holdTime := this.(holdTime); bestHold := this.(bestHold);
       totalTime := this.(totalTime);
       hipScore := this.(hipScore); headScore := this.(headScore);
       stackScore := this.(stackScore); underScore := this.(underScore);
       feetScore := this.(feetScore);
       hipAngle := this.(hipAngle); headAngle := this.(headAngle);
       shoulderMisalignment := this.(shoulderMisalignment);
       hipMisalignment := this.(hipMisalignment);
       underShoulderDist := this.(underShoulderDist);
       feetWidthRatio := this.(feetWidthRatio);
       formWarnings := ["Keep at least one shoulder and knee visible"];
       stateStartTime := if leaving then now else this.(stateStartTime);
       holdStartTime := if leaving then None else this.(holdStartTime);
       lastUpdateTime := this.(lastUpdateTime);
       hipAngSmooth := this.(hipAngSmooth); headAngSmooth := this.(headAngSmooth);
       stackShSmooth := this.(stackShSmooth); stackHipSmooth := this.(stackHipSmooth);
       underSmooth := this.(underSmooth); feetWSmooth := this.(feetWSmooth);
       cfg := this.(cfg) |}
  else
    let a := assess this landmarks imageW imageH in
    let tm := stateMachine this now a.(a_stableEnough) in
    let holdTime := holdTimeAt now tm.(t_holdStartTime) in
    {| state := tm.(t_state);
       plankType := a.(a_plankType);
       overallScore := a.(a_overallScore);
       holdTime := holdTime;
       bestHold := Math.max this.(bestHold) holdTime;
       totalTime := tm.(t_totalTime);
       hipScore := a.(a_hipScore); headScore := a.(a_headScore);
       stackScore := a.(a_stackScore); underScore := a.(a_underScore);
       feetScore := a.(a_feetScore);
       hipAngle := a.(a_hipAngle); headAngle := a.(a_headAngle);
       shoulderMisalignment := a.(a_shoulderMisalignment);
       hipMisalignment := a.(a_hipMisalignment);
       underShoulderDist := a.(a_underShoulderDist);
       feetWidthRatio := a.(a_feetWidthRatio);
       formWarnings := a.(a_issues);
       stateStartTime := tm.(t_stateStartTime);
       holdStartTime := tm.(t_holdStartTime);
       lastUpdateTime := now;
       hipAngSmooth := a.(a_hipAngSmooth); headAngSmooth := a.(a_headAngSmooth);
       stackShSmooth := a.(a_stackShSmooth); stackHipSmooth := a.(a_stackHipSmooth);
       underSmooth := a.(a_underSmooth); feetWSmooth := a.(a_feetWSmooth);
       cfg := this.(cfg) |}.

Record Snapshot : Type := mkSnapshot {
  s_count : Z;
  s_warning : string;
  s_state : string;
  s_holdTime : number;
  s_bestHold : number;
  s_overallScore : number
}.

(** [this.formWarnings[0] || ''] *)
Definition getState (this : t) : Snapshot :=
  {| s_count := 0;
     s_warning := match this.(formWarnings) with w :: _ => w | [] => "" end;
     s_state := PlankState_str this.(state);
     s_holdTime := this.(holdTime);
     s_bestHold := this.(bestHold);
     s_overallScore := this.(overallScore) |}.

Definition getStateLabel (this : t) : string :=
  match this.(state) with
  | NOT_READY => "Get in position"
  | READY => "Hold steady..."
  | HOLDING => "Holding"
  end.

End PlankEvaluator.

(* ================================================================== *)
(** ** The output contract, the singletons and the exported wrappers *)
(* ================================================================== *)

Inductive Stage : Type := StageUP | StageDOWN | StageNEUTRAL.

Definition Stage_eqb (a b : Stage) : bool :=
  match a, b with
  | StageUP, StageUP | StageDOWN, StageDOWN | StageNEUTRAL, StageNEUTRAL => true
  | _, _ => false
  end.

(** types.ts, [interface ExerciseState]; the last three fields are optional. *)
Module ExerciseState.
Record t : Type := mk {
  count : Z;
  feedback : string;
  isCorrectForm : bool;
  stage : Stage;
  timer : option number;
  visibilityIssue : option bool;
  landmarksNeedingImprovement : option (list nat)
}.
End ExerciseState.

(** The three module-scope constants of lines 795-797. *)
Record Singletons : Type := mkSingletons {
  pushupCounter : PushupCounter.t;
  squatCounter : SquatCounter.t;
  plankEvaluator : PlankEvaluator.t
}.

(** Loading the module; [t1], [t2] are the clock readings of the
    [PlankEvaluator] field initialisers. *)
Definition load (t1 t2 : Z) : Singletons :=
  {| pushupCounter := PushupCounter.default;
     squatCounter := SquatCounter.default;
     plankEvaluator := PlankEvaluator.default t1 t2 |}.

Definition processPushup (m : Singletons) (landmarks : list Landmark)
           (state : ExerciseState.t) : ExerciseState.t * Singletons :=
  let imageW := Num 640 in
  let imageH := Num 480 in
  let pc := PushupCounter.update m.(pushupCounter) landmarks imageW imageH "right" in
  let counterState := PushupCounter.getState pc in
  let warning := counterState.(PushupCounter.s_warning) in
  let st := counterState.(PushupCounter.s_state) in
  let newState :=
    {| ExerciseState.count := counterState.(PushupCounter.s_count);
       ExerciseState.feedback :=
         str_or warning
           (if String.eqb st "UP" then "Go Down"
            else if String.eqb st "DOWN" then "Push Up" else "Get Ready");
       ExerciseState.isCorrectForm := String.eqb warning "";
       ExerciseState.stage :=
         if String.eqb st "UP" then StageUP
         else if String.eqb st "DOWN" then StageDOWN else StageNEUTRAL;
       ExerciseState.timer := None;
       ExerciseState.visibilityIssue :=
         Some (includes warning "visible" || includes warning "frame");
       ExerciseState.landmarksNeedingImprovement :=
         Some (if includes warning "legs" then
                 [POSE_LANDMARKS.LEFT_KNEE; POSE_LANDMARKS.RIGHT_KNEE;
                  POSE_LANDMARKS.LEFT_HIP; POSE_LANDMARKS.RIGHT_HIP]
               else if includes warning "arms" then
                 [POSE_LANDMARKS.LEFT_ELBOW; POSE_LANDMARKS.RIGHT_ELBOW;
                  POSE_LANDMARKS.LEFT_WRIST; POSE_LANDMARKS.RIGHT_WRIST]
               else []) |} in
  (newState,
   {| pushupCounter := pc;
      squatCounter := m.(squatCounter);
      plankEvaluator := m.(plankEvaluator) |}).

(** The stateless squat processor, lines 840-932.  A property read on
    [undefined] throws a TypeError: the result is then [None]. *)
Module StatelessSquat.

Definition VISIBILITY_THRESH : number := Num 0.5.

(** [(l.visibility || 0) > VISIBILITY_THRESH]: an absent visibility and the
    value 0 both count as 0. *)
Definition gate (l : Landmark) : bool :=
  let v := match l.(visibility) with
           | Some v => if Req_dec_T v 0 then Num 0 else Num v
           | None => Num 0
           end in
  v [>] VISIBILITY_THRESH.

(** [a.visibility ... && b.visibility ...] with [a], [b] read from the
    array: [b] is only dereferenced when the test on [a] passes. *)
Definition bothGate (a b : option Landmark) : option bool :=
  match a with
  | None => None
  | Some a =>
      if gate a then
        match b with
        | None => None
        | Some b => Some (gate b)
        end
      else Some false
  end.

Definition angleAt (a b c : option Landmark) : option number :=
  match a, b, c with
  | Some a, Some b, Some c =>
      Some (calculateAngle2D (toPoint a (Num 1) (Num 1)) (toPoint b (Num 1) (Num 1))
              (toPoint c (Num 1) (Num 1)))
  | _, _, _ => None
  end.

Definition UP_THRESH : number := Num 165.
Definition DOWN_THRESH : number := Num 95.
Definition TORSO_LEAN_MAX : number := Num 55.

Definition with_form (state : ExerciseState.t) (fb : string) (ok : bool)
           (vis : bool) (lm : list nat) : ExerciseState.t :=
  {| ExerciseState.count := state.(ExerciseState.count);
     ExerciseState.feedback := fb;
     ExerciseState.isCorrectForm := ok;
     ExerciseState.stage := state.(ExerciseState.stage);
     ExerciseState.timer := state.(ExerciseState.timer);
     ExerciseState.visibilityIssue := Some vis;
     ExerciseState.landmarksNeedingImprovement := Some lm |}.

Definition with_rep (newState : ExerciseState.t) (cnt : Z) (st : Stage) (fb : string)
  : ExerciseState.t :=
  {| ExerciseState.count := cnt;
     ExerciseState.feedback := fb;
     ExerciseState.isCorrectForm := newState.(ExerciseState.isCorrectForm);
     ExerciseState.stage := st;
     ExerciseState.timer := newState.(ExerciseState.timer);
     ExerciseState.visibilityIssue := newState.(ExerciseState.visibilityIssue);
     ExerciseState.landmarksNeedingImprovement :=
       newState.(ExerciseState.landmarksNeedingImprovement) |}.

(** Lines 902-931, after the angles are known. *)
Definition countRep (state : ExerciseState.t) (kneeAngle hipAngle : number)
           (checkLean : bool) : ExerciseState.t :=
  if checkLean && (hipAngle [<] TORSO_LEAN_MAX) then
    with_form state "Keep Chest Up" false false
      [POSE_LANDMARKS.LEFT_SHOULDER; POSE_LANDMARKS.RIGHT_SHOULDER;
       POSE_LANDMARKS.LEFT_HIP; POSE_LANDMARKS.RIGHT_HIP]
  else
    let newState := with_form state state.(ExerciseState.feedback) true false [] in
    let cnt := state.(ExerciseState.count) in
    let stg := state.(ExerciseState.stage) in
    if kneeAngle [>=] UP_THRESH then
      if Stage_eqb stg StageDOWN
      then with_rep newState (cnt + 1) StageUP "Good Squat!"
      else with_rep newState cnt StageUP "Squat Down"
    else if kneeAngle [<=] DOWN_THRESH then
      with_rep newState cnt StageDOWN "Stand Up"
    else if Stage_eqb stg StageUP then with_rep newState cnt stg "Lowering..."
    else if Stage_eqb stg StageDOWN then with_rep newState cnt stg "Rising..."
    else with_rep newState cnt stg "Get Ready".

Definition run (landmarks : list Landmark) (state : ExerciseState.t)
  : option ExerciseState.t :=
  let leftShoulder := index landmarks POSE_LANDMARKS.LEFT_SHOULDER in
  let leftHip := index landmarks POSE_LANDMARKS.LEFT_HIP in
  let leftKnee := index landmarks POSE_LANDMARKS.LEFT_KNEE in
  let leftAnkle := index landmarks POSE_LANDMARKS.LEFT_ANKLE in
  let rightShoulder := index landmarks POSE_LANDMARKS.RIGHT_SHOULDER in
  let rightHip := index landmarks POSE_LANDMARKS.RIGHT_HIP in
  let rightKnee := index landmarks POSE_LANDMARKS.RIGHT_KNEE in
  let rightAnkle := index landmarks POSE_LANDMARKS.RIGHT_ANKLE in
  match bothGate leftHip leftKnee with
  | None => None
  | Some isLeftVisible =>
      match bothGate rightHip rightKnee with
      | None => None
      | Some isRightVisible =>
          if negb isLeftVisible && negb isRightVisible then
            Some (with_form state "Full body visible?" false true
                    [POSE_LANDMARKS.LEFT_HIP; POSE_LANDMARKS.RIGHT_HIP;
                     POSE_LANDMARKS.LEFT_KNEE; POSE_LANDMARKS.RIGHT_KNEE])
          else if isLeftVisible && isRightVisible then
            match angleAt leftHip leftKnee leftAnkle with
            | None => None
            | Some leftLegAngle =>
                match angleAt rightHip rightKnee rightAnkle with
                | None => None
                | Some rightLegAngle =>
                    Some (countRep state ((leftLegAngle [+] rightLegAngle) [/] Num 2)
                            (Num 180) false)
                end
            end
          else if isLeftVisible then
            match angleAt leftHip leftKnee leftAnkle with
            | None => None
            | Some kneeAngle =>
                match angleAt leftShoulder leftHip leftKnee with
                | None => None
                | Some hipAngle => Some (countRep state kneeAngle hipAngle true)
                end
            end
          else
            match angleAt rightHip rightKnee rightAnkle with
            | None => None
            | Some kneeAngle =>
                match angleAt rightShoulder rightHip rightKnee with
                | None => None
                | Some hipAngle => Some (countRep state kneeAngle hipAngle true)
                end
            end
      end
  end.

End StatelessSquat.

(** [processSquat] never names [squatCounter]: the singletons are returned as
    they were received. *)
Definition processSquat (m : Singletons) (landmarks : list Landmark)
           (state : ExerciseState.t) : option ExerciseState.t * Singletons :=
  (StatelessSquat.run landmarks state, m).

Definition processPlank (m : Singletons) (now : Z) (landmarks : list Landmark)
           (state : ExerciseState.t) : ExerciseState.t * Singletons :=
  let imageW := Num 640 in
  let imageH := Num 480 in
  let pe := PlankEvaluator.update m.(plankEvaluator) now landmarks imageW imageH in
  let evaluatorState := PlankEvaluator.getState pe in
  let warning := evaluatorState.(PlankEvaluator.s_warning) in
  let newState :=
    {| ExerciseState.count := 0;
       ExerciseState.feedback := str_or warning (PlankEvaluator.getStateLabel pe);
       ExerciseState.isCorrectForm :=
         String.eqb warning ""
         && String.eqb evaluatorState.(PlankEvaluator.s_state) "HOLDING";
       ExerciseState.stage := StageNEUTRAL;
       ExerciseState.timer := Some evaluatorState.(PlankEvaluator.s_holdTime);
       ExerciseState.visibilityIssue := Some (includes warning "visible");
       ExerciseState.landmarksNeedingImprovement :=
         Some (if includes warning "hips" then
                 [POSE_LANDMARKS.LEFT_SHOULDER; POSE_LANDMARKS.RIGHT_SHOULDER;
                  POSE_LANDMARKS.LEFT_HIP; POSE_LANDMARKS.RIGHT_HIP;
                  POSE_LANDMARKS.LEFT_ANKLE; POSE_LANDMARKS.RIGHT_ANKLE]
               else if includes warning "head" then
                 [POSE_LANDMARKS.LEFT_SHOULDER; POSE_LANDMARKS.RIGHT_SHOULDER]
               else if includes warning "shoulders" || includes warning "twist" then
                 [POSE_LANDMARKS.LEFT_SHOULDER; POSE_LANDMARKS.RIGHT_SHOULDER;
                  POSE_LANDMARKS.LEFT_HIP; POSE_LANDMARKS.RIGHT_HIP]
               else if includes warning "hands" || includes warning "elbows" then
                 [POSE_LANDMARKS.LEFT_WRIST; POSE_LANDMARKS.RIGHT_WRIST;
                  POSE_LANDMARKS.LEFT_ELBOW; POSE_LANDMARKS.RIGHT_ELBOW;
                  POSE_LANDMARKS.LEFT_SHOULDER; POSE_LANDMARKS.RIGHT_SHOULDER]
               else if includes warning "feet" then
                 [POSE_LANDMARKS.LEFT_ANKLE; POSE_LANDMARKS.RIGHT_ANKLE]
               else []) |} in
  (newState,
   {| pushupCounter := m.(pushupCounter);
      squatCounter := m.(squatCounter);
      plankEvaluator := pe |}).

(** The knee test of the stateless push-up processor (unnamed part_000,
    lines 26-28):
    [knee.visibility !== undefined && knee.visibility > VISIBILITY_THRESH]. *)
Module StatelessPushup.
Definition VISIBILITY_THRESH : number := Num 0.5.
Definition isKneeVisible (knee : Landmark) : bool :=
  match knee.(visibility) with
  | Some v => Num v [>] VISIBILITY_THRESH
  | None => false
  end.
End StatelessPushup.

(** The [ExerciseState] the host starts a workout with. *)
Definition initialExerciseState : ExerciseState.t :=
  {| ExerciseState.count := 0;
     ExerciseState.feedback := "Loading...";
     ExerciseState.isCorrectForm := true;
     ExerciseState.stage := StageNEUTRAL;
     ExerciseState.timer := Some (Num 0);
     ExerciseState.visibilityIssue := None;
     ExerciseState.landmarksNeedingImprovement := None |}.

(* ================================================================== *)
(** ** Sequences of calls *)
(* ================================================================== *)

(** One [update(landmarks, imageW, imageH, side)] call of a counter. *)
Record Call : Type := mkCall {
  c_landmarks : list Landmark;
  c_imageW : number;
  c_imageH : number;
  c_side : string
}.

Definition pushupStep (this : PushupCounter.t) (c : Call) : PushupCounter.t :=
  PushupCounter.update this c.(c_landmarks) c.(c_imageW) c.(c_imageH) c.(c_side).

Definition pushupRun (this : PushupCounter.t) (calls : list Call) : PushupCounter.t :=
  fold_left pushupStep calls this.

Definition squatStep (this : SquatCounter.t) (c : Call) : SquatCounter.t :=
  SquatCounter.update this c.(c_landmarks) c.(c_imageW) c.(c_imageH) c.(c_side).

Definition squatRun (this : SquatCounter.t) (calls : list Call) : SquatCounter.t :=
  fold_left squatStep calls this.

(** One [update(landmarks, imageW, imageH)] call of the plank evaluator,
    with the reading of the clock made during the call. *)
Record PlankCall : Type := mkPlankCall {
  p_now : Z;
  p_landmarks : list Landmark;
  p_imageW : number;
  p_imageH : number
}.

Definition plankStep (this : PlankEvaluator.t) (c : PlankCall) : PlankEvaluator.t :=
  PlankEvaluator.update this c.(p_now) c.(p_landmarks) c.(p_imageW) c.(p_imageH).

Definition plankRun (this : PlankEvaluator.t) (calls : list PlankCall) : PlankEvaluator.t :=
  fold_left plankStep calls this.

(** A frame the plank evaluator does not skip. *)
Definition plankProcessed (c : PlankCall) : bool :=
  negb (List.length c.(p_landmarks) <? 33)%nat.

(** Stability of a frame as [update] decides it in state [this]: the
    visibility gate passes, the overall score exceeds 50 and the core
    landmarks are visible. *)
Definition plankStable (this : PlankEvaluator.t) (c : PlankCall) : bool :=
  PlankEvaluator.criticalPointsVisible this c.(p_landmarks) c.(p_imageW) c.(p_imageH)
  && PlankEvaluator.a_stableEnough
       (PlankEvaluator.assess this c.(p_landmarks) c.(p_imageW) c.(p_imageH)).






(* ================================================================== *)
(** ** Predicates of the statements *)
(* ================================================================== *)

(** A sub-score: a real number in [0, 1]. *)
Definition unitScore (a : number) : Prop :=
  exists s, a = Num s /\ 0 <= s <= 1.

(** An accumulator that is still unset (NaN) or holds a value in [lo, hi]. *)
Definition unsetOrWithin (lo hi : R) (a : number) : Prop :=
  match a with
  | NaN => True
  | Num r => lo <= r <= hi
  end.

(** The two smoothed angles of a plank evaluator hold nothing outside
    [180, 360] and the smoothing factor is a real in [0, 1]. *)
Definition plankAnglesWithin (this : PlankEvaluator.t) : Prop :=
  (exists alpha, this.(PlankEvaluator.cfg).(PlankEvaluator.emaAlpha) = Num alpha
                 /\ 0 <= alpha <= 1)
  /\ unsetOrWithin 180 360 this.(PlankEvaluator.hipAngSmooth)
  /\ unsetOrWithin 180 360 this.(PlankEvaluator.headAngSmooth).

(* ================================================================== *)
(** ** Concrete frames *)
(* ================================================================== *)

(** A 33-landmark frame with the same landmark on the left and on the right
    side of each joint; every other landmark is at the origin. *)
Definition pose (shoulder elbow wrist hip knee ankle : Landmark) : list Landmark :=
  map (fun i : nat =>
         if (i =? 11)%nat || (i =? 12)%nat then shoulder
         else if (i =? 13)%nat || (i =? 14)%nat then elbow
         else if (i =? 15)%nat || (i =? 16)%nat then wrist
         else if (i =? 23)%nat || (i =? 24)%nat then hip
         else if (i =? 25)%nat || (i =? 26)%nat then knee
         else if (i =? 27)%nat || (i =? 28)%nat then ankle
         else origin)
      (seq 0 33).

(** A landmark without a visibility value. *)
Definition lm (px py : R) : Landmark :=
  {| lx := px; ly := py; lz := 0; visibility := None |}.

(** All 33 landmarks at the origin, no visibility values. *)
Definition frameOrigin : list Landmark := repeat origin 33.

(** Standing upright, seen from the side: shoulder, hip, knee and ankle on
    one vertical line. *)
Definition squatStanding : list Landmark :=
  pose (lm 0.5 0.2) origin origin (lm 0.5 0.5) (lm 0.5 0.7) (lm 0.5 0.9).

(** The bottom of a squat: the hip below the knee, the leg folded. *)
Definition squatDeep : list Landmark :=
  pose (lm 0.5 0.4) origin origin (lm 0.5 0.8) (lm 0.5 0.7) (lm 0.5 0.9).

(** Arms and legs straight. *)
Definition pushupTop : list Landmark :=
  pose (lm 0.5 0.1) (lm 0.5 0.2) (lm 0.5 0.3) (lm 0.5 0.5) (lm 0.5 0.7) (lm 0.5 0.9).

(** Arms folded, legs straight. *)
Definition pushupBottom : list Landmark :=
  pose (lm 0.5 0.1) (lm 0.5 0.2) (lm 0.5 0.1) (lm 0.5 0.5) (lm 0.5 0.7) (lm 0.5 0.9).

(** A default squat counter in a given state of its machine; the two public
    angles equal the accumulators, as after every [update]. *)
Definition squatAt (st : SquatCounter.SquatState) (cnt : Z) (knee hip : number)
           (vq : bool) (fw lw : string) : SquatCounter.t :=
  SquatCounter.mk st cnt knee hip fw lw vq knee hip
    (Num 165) (Num 95) (Num 0.6) (Num 55) (Num 0.35).

Definition squatCall (l : list Landmark) : Call :=
  {| c_landmarks := l; c_imageW := Num 640; c_imageH := Num 480; c_side := "right" |}.

(** A default push-up counter in DOWN with the legs qualified. *)
Definition pushupDownQualified : PushupCounter.t :=
  PushupCounter.set_fsm PushupCounter.default PushupCounter.DOWN 0 true.

(** The origin as a point, with all three coordinates finite. *)
Definition originPoint : Point :=
  {| x := Num 0; y := Num 0; z := Num 0; vis := NaN |}.

(** A 33-landmark frame for the plank: as [pose], with the ears. *)
Definition plankPose (ear shoulder elbow wrist hip knee ankle : Landmark) : list Landmark :=
  map (fun i : nat =>
         if (i =? 7)%nat || (i =? 8)%nat then ear
         else if (i =? 11)%nat || (i =? 12)%nat then shoulder
         else if (i =? 13)%nat || (i =? 14)%nat then elbow
         else if (i =? 15)%nat || (i =? 16)%nat then wrist
         else if (i =? 23)%nat || (i =? 24)%nat then hip
         else if (i =? 25)%nat || (i =? 26)%nat then knee
         else if (i =? 27)%nat || (i =? 28)%nat then ankle
         else origin)
      (seq 0 33).

(** A high plank seen from the side: ear, shoulder, hip, knee and ankle on
    one horizontal line, the arms straight down from the shoulders. *)
Definition plankStraight : list Landmark :=
  plankPose (lm 0.1 0.5) (lm 0.2 0.5) (lm 0.2 0.6) (lm 0.2 0.7) (lm 0.5 0.5) (lm 0.7 0.5)
    (lm 0.9 0.5).

(** An accumulator that is unset or holds exactly [v]. *)
Definition unsetOr (v : R) (a : number) : Prop := a = NaN \/ a = Num v.

Definition plankCall (now : Z) (l : list Landmark) : PlankCall :=
  {| p_now := now; p_landmarks := l; p_imageW := Num 640; p_imageH := Num 480 |}.

(** A landmark at the origin whose visibility equals the threshold 0.5. *)
Definition atThreshold : Landmark :=
  {| lx := 0; ly := 0; lz := 0; visibility := Some 0.5 |}.

(* ================================================================== *)
(** ** The visibility closures of the counters, by name *)
(* ================================================================== *)

(** The closure [armOK] of [PushupCounter.update] (lines 107-112). *)
Definition pushupArmOK (this : PushupCounter.t) (landmarks : list Landmark)
           (imageW imageH : number) (isRight : bool) : bool :=
  let pt i := toPoint (at_index landmarks i) imageW imageH in
  let mv := this.(PushupCounter.minVisibility) in
  let sh := if isRight then pt POSE_LANDMARKS.RIGHT_SHOULDER
            else pt POSE_LANDMARKS.LEFT_SHOULDER in
  let el := if isRight then pt POSE_LANDMARKS.RIGHT_ELBOW
            else pt POSE_LANDMARKS.LEFT_ELBOW in
  let wr := if isRight then pt POSE_LANDMARKS.RIGHT_WRIST
            else pt POSE_LANDMARKS.LEFT_WRIST in
  isVisible sh mv && isVisible el mv && isVisible wr mv.

(** The closure [legOK] of [PushupCounter.update] (lines 121-126). *)
Definition pushupLegOK (this : PushupCounter.t) (landmarks : list Landmark)
           (imageW imageH : number) (isRight : bool) : bool :=
  let pt i := toPoint (at_index landmarks i) imageW imageH in
  let mv := this.(PushupCounter.minVisibility) in
  let hp := if isRight then pt POSE_LANDMARKS.RIGHT_HIP else pt POSE_LANDMARKS.LEFT_HIP in
  let kn := if isRight then pt POSE_LANDMARKS.RIGHT_KNEE else pt POSE_LANDMARKS.LEFT_KNEE in
  let an := if isRight then pt POSE_LANDMARKS.RIGHT_ANKLE else pt POSE_LANDMARKS.LEFT_ANKLE in
  isVisible hp mv && isVisible kn mv && isVisible an mv.

(** The knee angle (hip, knee, ankle) of one side, in pixels. *)
Definition kneeAngleOf (landmarks : list Landmark) (imageW imageH : number)
           (isRight : bool) : number :=
  let pt i := toPoint (at_index landmarks i) imageW imageH in
  let hp := if isRight then pt POSE_LANDMARKS.RIGHT_HIP else pt POSE_LANDMARKS.LEFT_HIP in
  let kn := if isRight then pt POSE_LANDMARKS.RIGHT_KNEE else pt POSE_LANDMARKS.LEFT_KNEE in
  let an := if isRight then pt POSE_LANDMARKS.RIGHT_ANKLE else pt POSE_LANDMARKS.LEFT_ANKLE in
  calculateAngle2D hp kn an.

(** The closure [legOK] of [SquatCounter.computeMetrics] (lines 282-289). *)
Definition squatLegOK (this : SquatCounter.t) (landmarks : list Landmark)
           (imageW imageH : number) (isRight : bool) : bool :=
  let pt i := toPoint (at_index landmarks i) imageW imageH in
  let mv := this.(SquatCounter.minVisibility) in
  let sh := if isRight then pt POSE_LANDMARKS.RIGHT_SHOULDER
            else pt POSE_LANDMARKS.LEFT_SHOULDER in
  let hp := if isRight then pt POSE_LANDMARKS.RIGHT_HIP else pt POSE_LANDMARKS.LEFT_HIP in
  let kn := if isRight then pt POSE_LANDMARKS.RIGHT_KNEE else pt POSE_LANDMARKS.LEFT_KNEE in
  let an := if isRight then pt POSE_LANDMARKS.RIGHT_ANKLE else pt POSE_LANDMARKS.LEFT_ANKLE in
  isVisible sh mv && isVisible hp mv && isVisible kn mv && isVisible an mv.

(** Twice the count, plus one while the machine is in DOWN: every edge that
    moves towards the next rep raises it by one. *)
Definition pushupProgress (this : PushupCounter.t) : Z :=
  2 * this.(PushupCounter.count)
  + match this.(PushupCounter.state) with PushupCounter.DOWN => 1 | _ => 0 end.

Definition squatProgress (this : SquatCounter.t) : Z :=
  2 * this.(SquatCounter.count)
  + match this.(SquatCounter.state) with SquatCounter.DOWN => 1 | _ => 0 end.

(** The frame is processed and the legs are not extended in it. *)
Definition legsNotExtendedIn (this : PushupCounter.t) (c : Call) : Prop :=
  (PushupCounter.measure this c.(c_landmarks) c.(c_imageW) c.(c_imageH) c.(c_side))
    .(PushupCounter.legsExtended) = false.

(* ================================================================== *)
(** ** The feedback tables of the wrappers and the hold clock *)
(* ================================================================== *)


(** The messages a plank evaluator with the default configuration can reach
    when it starts from the constructor or from [reset]. *)
Definition plankReachableWarnings : list string :=
  ["Keep at least one shoulder and knee visible"; "Lower hips (piking)";
   "Lower hips slightly"; "Align shoulders/hips (no twist)";
   "Position hands/elbows under shoulders"; "Widen feet to hip-width";
   "Narrow feet to hip-width"].

Definition kneesAndHips : list nat :=
  [POSE_LANDMARKS.LEFT_KNEE; POSE_LANDMARKS.RIGHT_KNEE;
   POSE_LANDMARKS.LEFT_HIP; POSE_LANDMARKS.RIGHT_HIP].

Definition elbowsAndWrists : list nat :=
  [POSE_LANDMARKS.LEFT_ELBOW; POSE_LANDMARKS.RIGHT_ELBOW;
   POSE_LANDMARKS.LEFT_WRIST; POSE_LANDMARKS.RIGHT_WRIST].

Definition shouldersHipsAnkles : list nat :=
  [POSE_LANDMARKS.LEFT_SHOULDER; POSE_LANDMARKS.RIGHT_SHOULDER;
   POSE_LANDMARKS.LEFT_HIP; POSE_LANDMARKS.RIGHT_HIP;
   POSE_LANDMARKS.LEFT_ANKLE; POSE_LANDMARKS.RIGHT_ANKLE].

Definition shouldersAndHips : list nat :=
  [POSE_LANDMARKS.LEFT_SHOULDER; POSE_LANDMARKS.RIGHT_SHOULDER;
   POSE_LANDMARKS.LEFT_HIP; POSE_LANDMARKS.RIGHT_HIP].

(** Warning of the push-up counter, [visibilityIssue] and
    [landmarksNeedingImprovement] as [processPushup] reports them together. *)
Definition pushupRows : list (string * bool * list nat) :=
  [("", false, []);
   ("Arm not clearly visible", true, []);
   ("Keep legs in frame", true, kneesAndHips);
   ("Straighten your legs & arms", false, kneesAndHips);
   ("Straighten your legs", false, kneesAndHips);
   ("Extend your arms more", false, elbowsAndWrists);
   ("Go lower", false, [])].

(** The same for [processPlank] and the first warning of the evaluator. *)
Definition plankRows : list (string * bool * list nat) :=
  [("", false, []);
   ("Keep at least one shoulder and knee visible", true, []);
   ("Hips sagging too much", false, []);
   ("Lift hips slightly", false, shouldersHipsAnkles);
   ("Lower hips (piking)", false, shouldersHipsAnkles);
   ("Lower hips slightly", false, shouldersHipsAnkles);
   ("Look forward (head dropping)", false,
    [POSE_LANDMARKS.LEFT_SHOULDER; POSE_LANDMARKS.RIGHT_SHOULDER]);
   ("Align shoulders/hips (no twist)", false, shouldersHipsAnkles);
   ("Position hands/elbows under shoulders", false, shouldersAndHips);
   ("Widen feet to hip-width", false,
    [POSE_LANDMARKS.LEFT_ANKLE; POSE_LANDMARKS.RIGHT_ANKLE]);
   ("Narrow feet to hip-width", false,
    [POSE_LANDMARKS.LEFT_ANKLE; POSE_LANDMARKS.RIGHT_ANKLE])].

(** [formWarnings[0] || ''], the warning [getState] hands to the wrapper. *)
Definition plankFirst (l : list string) : string :=
  match l with w :: _ => w | [] => "" end.

(** A straight high plank seen from the side, the right landmarks 0.1 of the
    image height below the left ones: feet and hips equally wide. *)
Definition plankClean : list Landmark :=
  map (fun i : nat =>
         if (i =? 7)%nat then lm 0.1 0.5 else if (i =? 8)%nat then lm 0.1 0.6
         else if (i =? 11)%nat then lm 0.2 0.5 else if (i =? 12)%nat then lm 0.2 0.6
         else if (i =? 13)%nat then lm 0.2 0.6 else if (i =? 14)%nat then lm 0.2 0.7
         else if (i =? 15)%nat then lm 0.2 0.7 else if (i =? 16)%nat then lm 0.2 0.8
         else if (i =? 23)%nat then lm 0.5 0.5 else if (i =? 24)%nat then lm 0.5 0.6
         else if (i =? 25)%nat then lm 0.7 0.5 else if (i =? 26)%nat then lm 0.7 0.6
         else if (i =? 27)%nat then lm 0.9 0.5 else if (i =? 28)%nat then lm 0.9 0.6
         else origin)
      (seq 0 33).

(* ================================================================== *)
(** ** The stateless push-up processor (unnamed part_000) *)
(* ================================================================== *)

Module Part000.
Section WithGeometry.

(** [calculateAngle] of services/geometry.ts, which is not among the
    sources: any function of three array entries ([None] is [undefined]);
    its result is [None] when the call throws. *)
Variable calculateAngle :
  option Landmark -> option Landmark -> option Landmark -> option number.

Definition UP_THRESH : number := Num 145.
Definition DOWN_THRESH : number := Num 70.
Definition LEG_EXTENDED_THRESH : number := Num 130.

(** Lines 42-53: the knee angle of the visible side, or the mean of both. *)
Definition visibleKneeAngle (landmarks : list Landmark) (isLeftKneeVisible isRightKneeVisible : bool)
  : option number :=
  let leftHip := index landmarks POSE_LANDMARKS.LEFT_HIP in
  let leftKnee := index landmarks POSE_LANDMARKS.LEFT_KNEE in
  let leftAnkle := index landmarks POSE_LANDMARKS.LEFT_ANKLE in
  let rightHip := index landmarks POSE_LANDMARKS.RIGHT_HIP in
  let rightKnee := index landmarks POSE_LANDMARKS.RIGHT_KNEE in
  let rightAnkle := index landmarks POSE_LANDMARKS.RIGHT_ANKLE in
  if isLeftKneeVisible && isRightKneeVisible then
    match calculateAngle leftHip leftKnee leftAnkle with
    | None => None
    | Some leftLegAngle =>
        match calculateAngle rightHip rightKnee rightAnkle with
        | None => None
        | Some rightLegAngle => Some ((leftLegAngle [+] rightLegAngle) [/] Num 2)
        end
    end
  else if isLeftKneeVisible then calculateAngle leftHip leftKnee leftAnkle
  else calculateAngle rightHip rightKnee rightAnkle.

(** Lines 57-99, once both angles are known. *)
Definition countRep (state : ExerciseState.t) (elbowAngle kneeAngle : number)
  : ExerciseState.t :=
  if kneeAngle [<] LEG_EXTENDED_THRESH then
    StatelessSquat.with_form state "Straighten Legs" false false
      [POSE_LANDMARKS.LEFT_KNEE; POSE_LANDMARKS.RIGHT_KNEE;
       POSE_LANDMARKS.LEFT_HIP; POSE_LANDMARKS.RIGHT_HIP]
  else
    let newState :=
      StatelessSquat.with_form state state.(ExerciseState.feedback) true false [] in
    let cnt := state.(ExerciseState.count) in
    let stg := state.(ExerciseState.stage) in
    if elbowAngle [>=] UP_THRESH then
      if Stage_eqb stg StageDOWN
      then StatelessSquat.with_rep newState (cnt + 1) StageUP "Nice Rep!"
      else StatelessSquat.with_rep newState cnt StageUP "Go Down"
    else if elbowAngle [<=] DOWN_THRESH then
      StatelessSquat.with_rep newState cnt StageDOWN "Push Up"
    else if Stage_eqb stg StageUP then StatelessSquat.with_rep newState cnt stg "Lowering..."
    else if Stage_eqb stg StageDOWN then StatelessSquat.with_rep newState cnt stg "Pushing..."
    else StatelessSquat.with_rep newState cnt stg "Get Ready".

(** [processPushup], lines 4-102.  Reading [visibility] on a missing knee
    throws a TypeError: the result is then [None]. *)
Definition processPushup (landmarks : list Landmark) (state : ExerciseState.t)
  : option ExerciseState.t :=
  let leftShoulder := index landmarks POSE_LANDMARKS.LEFT_SHOULDER in
  let leftElbow := index landmarks POSE_LANDMARKS.LEFT_ELBOW in
  let leftWrist := index landmarks POSE_LANDMARKS.LEFT_WRIST in
  let rightShoulder := index landmarks POSE_LANDMARKS.RIGHT_SHOULDER in
  let rightElbow := index landmarks POSE_LANDMARKS.RIGHT_ELBOW in
  let rightWrist := index landmarks POSE_LANDMARKS.RIGHT_WRIST in
  match index landmarks POSE_LANDMARKS.LEFT_KNEE,
        index landmarks POSE_LANDMARKS.RIGHT_KNEE with
  | Some leftKnee, Some rightKnee =>
      let isLeftKneeVisible := StatelessPushup.isKneeVisible leftKnee in
      let isRightKneeVisible := StatelessPushup.isKneeVisible rightKnee in
      if negb isLeftKneeVisible && negb isRightKneeVisible then
        Some (StatelessSquat.with_form state "Knees must be visible" false true
                [POSE_LANDMARKS.LEFT_KNEE; POSE_LANDMARKS.RIGHT_KNEE])
      else
        match calculateAngle leftShoulder leftElbow leftWrist with
        | None => None
        | Some leftArmAngle =>
            match calculateAngle rightShoulder rightElbow rightWrist with
            | None => None
            | Some rightArmAngle =>
                let elbowAngle := (leftArmAngle [+] rightArmAngle) [/] Num 2 in
                match visibleKneeAngle landmarks isLeftKneeVisible isRightKneeVisible with
                | None => None
                | Some kneeAngle => Some (countRep state elbowAngle kneeAngle)
                end
            end
        end
  | _, _ => None
  end.

End WithGeometry.
End Part000.

(* ================================================================== *)
(** ** Numbers that overflow: the angle functions once more *)
(* ================================================================== *)

(** The angle functions over numbers with the two infinities.  A finite
    result is still an exact real (rounding is not modelled), but a result
    whose magnitude exceeds [Number.MAX_VALUE] becomes an infinity, and the
    infinities and NaN combine as in ECMAScript.  Signed zeros are not
    modelled: a zero divisor counts as +0 (the angle functions never divide
    by zero, their divisor is floored at 1e-9). *)
Module Double.

Inductive t : Type := NaN | Inf (negative : bool) | Fin (r : R).

Definition MAX_VALUE : R := 1.7976931348623157e308.

(** The value of an operation whose exact result is [r]. *)
Definition of_real (r : R) : t :=
  if Rltb MAX_VALUE r then Inf false
  else if Rltb r (- MAX_VALUE) then Inf true
  else Fin r.

Definition add (a b : t) : t :=
  match a, b with
  | NaN, _ | _, NaN => NaN
  | Inf s, Inf s' => if Bool.eqb s s' then Inf s else NaN
  | Inf s, Fin _ | Fin _, Inf s => Inf s
  | Fin u, Fin v => of_real (u + v)
  end.

Definition sub (a b : t) : t :=
  match a, b with
  | NaN, _ | _, NaN => NaN
  | Inf s, Inf s' => if Bool.eqb s s' then NaN else Inf s
  | Inf s, Fin _ => Inf s
  | Fin _, Inf s => Inf (negb s)
  | Fin u, Fin v => of_real (u - v)
  end.

Definition mul (a b : t) : t :=
  match a, b with
  | NaN, _ | _, NaN => NaN
  | Inf s, Inf s' => Inf (xorb s s')
  | Inf s, Fin v | Fin v, Inf s =>
      if Req_dec_T v 0 then NaN else Inf (xorb s (Rltb v 0))
  | Fin u, Fin v => of_real (u * v)
  end.

Definition div (a b : t) : t :=
  match a, b with
  | NaN, _ | _, NaN => NaN
  | Inf _, Inf _ => NaN
  | Inf s, Fin v => Inf (xorb s (Rltb v 0))
  | Fin _, Inf _ => Fin 0
  | Fin u, Fin v =>
      if Req_dec_T v 0
      then (if Req_dec_T u 0 then NaN else Inf (Rltb u 0))
      else of_real (u / v)
  end.

(** [Math.max], [Math.min]: NaN when an argument is NaN. *)
Definition max (a b : t) : t :=
  match a, b with
  | NaN, _ | _, NaN => NaN
  | Inf false, _ | _, Inf false => Inf false
  | Inf true, c | c, Inf true => c
  | Fin u, Fin v => Fin (Rmax u v)
  end.

Definition min (a b : t) : t :=
  match a, b with
  | NaN, _ | _, NaN => NaN
  | Inf true, _ | _, Inf true => Inf true
  | Inf false, c | c, Inf false => c
  | Fin u, Fin v => Fin (Rmin u v)
  end.

Definition sqrt (a : t) : t :=
  match a with
  | NaN => NaN
  | Inf s => if s then NaN else Inf false
  | Fin u => if Rltb u 0 then NaN else Fin (R_sqrt.sqrt u)
  end.

(** [Math.hypot]: infinite when an argument is infinite, even beside a
    NaN; the squares themselves do not overflow. *)
Definition hypot (a b : t) : t :=
  match a, b with
  | Inf _, _ | _, Inf _ => Inf false
  | NaN, _ | _, NaN => NaN
  | Fin u, Fin v => of_real (R_sqrt.sqrt (u * u + v * v))
  end.

Definition acos (a : t) : t :=
  match a with
  | Fin u => if Rleb (-1) u && Rleb u 1 then Fin (Ratan.acos u) else NaN
  | _ => NaN
  end.

Definition PI : t := Fin Rtrigo1.PI.

Record Point : Type := mkPoint {
  x : t;
  y : t;
  z : t;
  vis : t
}.

(** Lines 12-26. *)
Definition calculateAngle3D (a b c : Point) : t :=
  let bax := sub a.(x) b.(x) in
  let bay := sub a.(y) b.(y) in
  let baz := sub a.(z) b.(z) in
  let bcx := sub c.(x) b.(x) in
  let bcy := sub c.(y) b.(y) in
  let bcz := sub c.(z) b.(z) in
  let normBA := sqrt (add (add (mul bax bax) (mul bay bay)) (mul baz baz)) in
  let normBC := sqrt (add (add (mul bcx bcx) (mul bcy bcy)) (mul bcz bcz)) in
  let den := max (Fin 1e-9) (mul normBA normBC) in
  let cos := max (Fin (-1))
               (min (Fin 1)
                  (div (add (add (mul bax bcx) (mul bay bcy)) (mul baz bcz)) den)) in
  div (mul (acos cos) (Fin 180)) PI.

(** Lines 28-38. *)
Definition calculateAngle2D (a b c : Point) : t :=
  let bax := sub a.(x) b.(x) in
  let bay := sub a.(y) b.(y) in
  let bcx := sub c.(x) b.(x) in
  let bcy := sub c.(y) b.(y) in
  let den := max (Fin 1e-9) (mul (hypot bax bay) (hypot bcx bcy)) in
  let cos := max (Fin (-1))
               (min (Fin 1) (div (add (mul bax bcx) (mul bay bcy)) den)) in
  div (mul (acos cos) (Fin 180)) PI.

(** A point with finite coordinates. *)
Definition at_ (px py pz : R) : Point :=
  {| x := Fin px; y := Fin py; z := Fin pz; vis := NaN |}.



End Double.

(** A number without overflow, as a double. *)
Definition to_double (a : number) : Double.t :=
  match a with
  | NaN => Double.NaN
  | Num r => Double.Fin r
  end.

(* ================================================================== *)
(** ** Smoothing: samples, bounded calls and overflow *)
(* ================================================================== *)

(** An accumulator that holds a number in [lo, hi]. *)
Definition setWithin (lo hi : R) (a : number) : Prop :=
  exists r, a = Num r /\ lo <= r <= hi.




(** A point of the exact model whose coordinates are numbers of magnitude at
    most 1e150. *)
Definition boundedPoint (p : Point) : Prop :=
  exists px py pz,
    p.(x) = Num px /\ p.(y) = Num py /\ p.(z) = Num pz /\
    Rabs px <= 1e150 /\ Rabs py <= 1e150 /\ Rabs pz <= 1e150.

(** A point of the exact model, as a point of doubles. *)
Definition to_double_point (p : Point) : Double.Point :=
  {| Double.x := to_double p.(x); Double.y := to_double p.(y);
     Double.z := to_double p.(z); Double.vis := to_double p.(vis) |}.





(* ================================================================== *)
(** ** The stateless processors: the angles of a frame *)
(* ================================================================== *)

(** [processSquat], lines 855-887: the knee angle, the hip angle and
    [checkLean] of a frame in which a side passes the gate; [None] when no
    side does, or when an undefined landmark is dereferenced. *)
Definition squatFrameAngles (landmarks : list Landmark) : option (number * number * bool) :=
  let leftShoulder := index landmarks POSE_LANDMARKS.LEFT_SHOULDER in
  let leftHip := index landmarks POSE_LANDMARKS.LEFT_HIP in
  let leftKnee := index landmarks POSE_LANDMARKS.LEFT_KNEE in
  let leftAnkle := index landmarks POSE_LANDMARKS.LEFT_ANKLE in
  let rightShoulder := index landmarks POSE_LANDMARKS.RIGHT_SHOULDER in
  let rightHip := index landmarks POSE_LANDMARKS.RIGHT_HIP in
  let rightKnee := index landmarks POSE_LANDMARKS.RIGHT_KNEE in
  let rightAnkle := index landmarks POSE_LANDMARKS.RIGHT_ANKLE in
  match StatelessSquat.bothGate leftHip leftKnee with
  | None => None
  | Some isLeftVisible =>
      match StatelessSquat.bothGate rightHip rightKnee with
      | None => None
      | Some isRightVisible =>
          if negb isLeftVisible && negb isRightVisible then None
          else if isLeftVisible && isRightVisible then
            match StatelessSquat.angleAt leftHip leftKnee leftAnkle with
            | None => None
            | Some leftLegAngle =>
                match StatelessSquat.angleAt rightHip rightKnee rightAnkle with
                | None => None
                | Some rightLegAngle =>
                    Some ((leftLegAngle [+] rightLegAngle) [/] Num 2, Num 180, false)
                end
            end
          else if isLeftVisible then
            match StatelessSquat.angleAt leftHip leftKnee leftAnkle with
            | None => None
            | Some kneeAngle =>
                match StatelessSquat.angleAt leftShoulder leftHip leftKnee with
                | None => None
                | Some hipAngle => Some (kneeAngle, hipAngle, true)
                end
            end
          else
            match StatelessSquat.angleAt rightHip rightKnee rightAnkle with
            | None => None
            | Some kneeAngle =>
                match StatelessSquat.angleAt rightShoulder rightHip rightKnee with
                | None => None
                | Some hipAngle => Some (kneeAngle, hipAngle, true)
                end
            end
      end
  end.

(** The torso-lean check of [processSquat] (line 895) lets the frame pass. *)
Definition squatFormPasses (hipAngle : number) (checkLean : bool) : bool :=
  negb (checkLean && (hipAngle [<] StatelessSquat.TORSO_LEAN_MAX)).

(** The stateless [processPushup], lines 24-53: the elbow angle and the
    knee angle of a frame with a visible knee; [None] when no knee is
    visible, a knee is missing or [calculateAngle] throws. *)
Definition pushupFrameAngles
           (calculateAngle : option Landmark -> option Landmark -> option Landmark
                             -> option number)
           (landmarks : list Landmark) : option (number * number) :=
  let leftShoulder := index landmarks POSE_LANDMARKS.LEFT_SHOULDER in
  let leftElbow := index landmarks POSE_LANDMARKS.LEFT_ELBOW in
  let leftWrist := index landmarks POSE_LANDMARKS.LEFT_WRIST in
  let rightShoulder := index landmarks POSE_LANDMARKS.RIGHT_SHOULDER in
  let rightElbow := index landmarks POSE_LANDMARKS.RIGHT_ELBOW in
  let rightWrist := index landmarks POSE_LANDMARKS.RIGHT_WRIST in
  match index landmarks POSE_LANDMARKS.LEFT_KNEE,
        index landmarks POSE_LANDMARKS.RIGHT_KNEE with
  | Some leftKnee, Some rightKnee =>
      let isLeftKneeVisible := StatelessPushup.isKneeVisible leftKnee in
      let isRightKneeVisible := StatelessPushup.isKneeVisible rightKnee in
      if negb isLeftKneeVisible && negb isRightKneeVisible then None
      else
        match calculateAngle leftShoulder leftElbow leftWrist with
        | None => None
        | Some leftArmAngle =>
            match calculateAngle rightShoulder rightElbow rightWrist with
            | None => None
            | Some rightArmAngle =>
                match Part000.visibleKneeAngle calculateAngle landmarks
                        isLeftKneeVisible isRightKneeVisible with
                | None => None
                | Some kneeAngle =>
                    Some ((leftArmAngle [+] rightArmAngle) [/] Num 2, kneeAngle)
                end
            end
        end
  | _, _ => None
  end.

(** A landmark reported with visibility 0.9. *)
Definition lmv (px py : R) : Landmark :=
  {| lx := px; ly := py; lz := 0; visibility := Some 0.9 |}.

(** [squatStanding] and [squatDeep] with every joint visible. *)
Definition squatStandingVisible : list Landmark :=
  pose (lmv 0.5 0.2) origin origin (lmv 0.5 0.5) (lmv 0.5 0.7) (lmv 0.5 0.9).

Definition squatDeepVisible : list Landmark :=
  pose (lmv 0.5 0.4) origin origin (lmv 0.5 0.8) (lmv 0.5 0.7) (lmv 0.5 0.9).

(** [pushupTop] and [pushupBottom] with every joint visible. *)
Definition pushupTopVisible : list Landmark :=
  pose (lmv 0.5 0.1) (lmv 0.5 0.2) (lmv 0.5 0.3) (lmv 0.5 0.5) (lmv 0.5 0.7) (lmv 0.5 0.9).

Definition pushupBottomVisible : list Landmark :=
  pose (lmv 0.5 0.1) (lmv 0.5 0.2) (lmv 0.5 0.1) (lmv 0.5 0.5) (lmv 0.5 0.7) (lmv 0.5 0.9).

(* ================================================================== *)
(** ** Basic facts about the number model *)
(* ================================================================== *)

Ltac num_cases :=
  repeat match goal with
    | |- context [Rlt_dec ?a ?b] => destruct (Rlt_dec a b)
    | |- context [Rle_dec ?a ?b] => destruct (Rle_dec a b)
    | |- context [Req_dec_T ?a ?b] => destruct (Req_dec_T a b)
    end.

Ltac unfold_num :=
  unfold ngt, nge, nlt, nle, Rltb, Rleb, Math.max, Math.min, nadd, nsub, nmul, ndiv, lift2.

Ltac unit_score_cases :=
  cbn; unfold_num; num_cases; try lra; cbn;
  eexists; (split; [reflexivity |]);
  unfold Rmax; num_cases; lra.

Lemma Rleb_true (a b : R) : a <= b -> Rleb a b = true.
Proof. intros H. unfold Rleb. destruct (Rle_dec a b); [reflexivity | contradiction]. Qed.

Lemma Rleb_false (a b : R) : b < a -> Rleb a b = false.
Proof. intros H. unfold Rleb. destruct (Rle_dec a b); [lra | reflexivity]. Qed.

Lemma Rltb_true (a b : R) : a < b -> Rltb a b = true.
Proof. intros H. unfold Rltb. destruct (Rlt_dec a b); [reflexivity | contradiction]. Qed.

Lemma Rltb_false (a b : R) : b <= a -> Rltb a b = false.
Proof. intros H. unfold Rltb. destruct (Rlt_dec a b); [lra | reflexivity]. Qed.

Lemma ndiv_Num (a b : R) : b <> 0 -> Num a [/] Num b = Num (a / b).
Proof. intros H. unfold ndiv. destruct (Req_dec_T b 0); [contradiction | reflexivity]. Qed.


(** The clamp [Math.max(-1, Math.min(1, q))] followed by [Math.acos], scaled
    to degrees, is a real in [0, 180]. *)
Lemma clamped_acos_degrees (q : R) :
  exists r,
    (Math.acos (Math.max (Num (-1)) (Math.min (Num 1) (Num q))) [*] Num 180) [/] Math.PI = Num r
    /\ 0 <= r <= 180.
Proof.
  cbn [Math.min Math.max lift2 Math.acos].
  set (c := Rmax (-1) (Rmin 1 q)).
  assert (Hc : -1 <= c <= 1).
  { unfold c. split.
    - apply Rmax_l.
    - apply Rmax_lub; [lra | apply Rmin_l]. }
  rewrite (Rleb_true (-1) c), (Rleb_true c 1) by lra.
  cbn [andb nmul lift2]. unfold Math.PI.
  pose proof PI_RGT_0 as Hpi.
  rewrite ndiv_Num by lra.
  eexists; split; [reflexivity |].
  pose proof (acos_bound c) as [H0 H1].
  split.
  - apply Rmult_le_pos; [nra | left; now apply Rinv_0_lt_compat].
  - apply (Rmult_le_reg_r Rtrigo1.PI); [exact Hpi |].
    unfold Rdiv. rewrite Rmult_assoc, Rinv_l by lra. nra.
Qed.

Lemma floored_den_nonzero (d : R) : Rmax 1e-9 d <> 0.
Proof. pose proof (Rmax_l 1e-9 d). lra. Qed.


Lemma sum_squares_nonneg (u v w : R) : 0 <= u * u + v * v + w * w.
Proof. nra. Qed.


(* ================================================================== *)
(** ** PushupCounter: the DOWN state *)
(* ================================================================== *)

Lemma pushup_update_short (this : PushupCounter.t) l w h side :
  (List.length l < 33)%nat -> PushupCounter.update this l w h side = this.
Proof.
  intros H. unfold PushupCounter.update.
  apply Nat.ltb_lt in H. now rewrite H.
Qed.

Lemma pushup_update_full (this : PushupCounter.t) l w h side :
  (33 <= List.length l)%nat ->
  PushupCounter.update this l w h side =
  let f := PushupCounter.measure this l w h side in
  let this1 := PushupCounter.set_angles this f.(PushupCounter.f_elbowAngle)
                 f.(PushupCounter.f_kneeAngle) in
  let this2 := PushupCounter.stateMachine this1 f.(PushupCounter.legsExtended) in
  PushupCounter.set_formWarning this2 (PushupCounter.feedback this2 f).
Proof.
  intros H. unfold PushupCounter.update.
  apply Nat.ltb_ge in H. now rewrite H.
Qed.

(** C1. In state DOWN, a processed frame OR-accumulates [legsQualified] with
    the frame's [legsExtended]; the machine goes to UP exactly when the
    measured elbow angle is at least [upThresh] and the accumulated flag is
    true, and then [count] grows by exactly 1 and the flag is cleared.  In
    every other case (a skipped frame included) [count] is unchanged. *)
Theorem pushup_down_counts_exactly_when_qualified
        (this : PushupCounter.t) l w h side :
  this.(PushupCounter.state) = PushupCounter.DOWN ->
  let this' := PushupCounter.update this l w h side in
  let f := PushupCounter.measure this l w h side in
  let accumulated := this.(PushupCounter.legsQualified) || f.(PushupCounter.legsExtended) in
  let fires := (f.(PushupCounter.f_elbowAngle) [>=] this.(PushupCounter.upThresh))
               && accumulated in
  ((List.length l < 33)%nat -> this' = this) /\
  ((33 <= List.length l)%nat ->
     this'.(PushupCounter.elbowAngle) = f.(PushupCounter.f_elbowAngle) /\
     (fires = true ->
        this'.(PushupCounter.state) = PushupCounter.UP /\
        this'.(PushupCounter.count) = (this.(PushupCounter.count) + 1)%Z /\
        this'.(PushupCounter.legsQualified) = false) /\
     (fires = false ->
        this'.(PushupCounter.state) = PushupCounter.DOWN /\
        this'.(PushupCounter.count) = this.(PushupCounter.count) /\
        this'.(PushupCounter.legsQualified) = accumulated)).
Proof.
  intros Hdown this' f accumulated fires. split.
  - intros Hshort. now apply pushup_update_short.
  - intros Hfull. subst this'. rewrite pushup_update_full by exact Hfull.
    cbn zeta. fold f.
    unfold PushupCounter.stateMachine.
    cbn [PushupCounter.set_angles PushupCounter.state PushupCounter.elbowAngle
         PushupCounter.upThresh PushupCounter.legsQualified PushupCounter.count].
    rewrite Hdown. fold accumulated. fold fires.
    destruct fires; cbn; repeat split; intros; try reflexivity; discriminate.
Qed.

(* ================================================================== *)
(** ** Rep counts *)
(* ================================================================== *)

Lemma pushup_stateMachine_count (this : PushupCounter.t) (e : bool) :
  (this.(PushupCounter.count) <= (PushupCounter.stateMachine this e).(PushupCounter.count))%Z.
Proof.
  unfold PushupCounter.stateMachine.
  destruct (PushupCounter.state this);
    repeat match goal with |- context [if ?b then _ else _] => destruct b end;
    cbn; lia.
Qed.

Lemma pushup_update_count (this : PushupCounter.t) l w h side :
  (this.(PushupCounter.count) <= (PushupCounter.update this l w h side).(PushupCounter.count))%Z.
Proof.
  destruct (Nat.lt_ge_cases (List.length l) 33) as [Hs | Hf].
  - rewrite pushup_update_short by exact Hs. lia.
  - rewrite pushup_update_full by exact Hf. cbn zeta.
    cbn [PushupCounter.set_formWarning PushupCounter.count].
    etransitivity; [| apply pushup_stateMachine_count]. cbn. lia.
Qed.

Lemma pushupRun_count (calls : list Call) : forall this : PushupCounter.t,
  (this.(PushupCounter.count) <= (pushupRun this calls).(PushupCounter.count))%Z.
Proof.
  induction calls as [| c calls IH]; intros this; cbn.
  - lia.
  - etransitivity; [| apply IH]. apply pushup_update_count.
Qed.

Lemma squat_stateMachine_count (this : SquatCounter.t) (m : SquatCounter.SquatMetrics) :
  (this.(SquatCounter.count) <= (SquatCounter.stateMachine this m).(SquatCounter.count))%Z.
Proof.
  unfold SquatCounter.stateMachine.
  destruct (SquatCounter.state this);
    repeat match goal with |- context [if ?b then _ else _] => destruct b end;
    cbn; lia.
Qed.

Lemma squat_update_count (this : SquatCounter.t) l w h side :
  (this.(SquatCounter.count) <= (SquatCounter.update this l w h side).(SquatCounter.count))%Z.
Proof.
  unfold SquatCounter.update. cbn zeta.
  cbn [SquatCounter.set_warnings SquatCounter.count].
  etransitivity; [| apply squat_stateMachine_count]. cbn. lia.
Qed.

Lemma squatRun_count (calls : list Call) : forall this : SquatCounter.t,
  (this.(SquatCounter.count) <= (squatRun this calls).(SquatCounter.count))%Z.
Proof.
  induction calls as [| c calls IH]; intros this; cbn.
  - lia.
  - etransitivity; [| apply IH]. apply squat_update_count.
Qed.

(** C2. For each evaluator the count is 0 right after [reset()], and no
    sequence of [update] calls makes it smaller: only [reset()] does.  (The
    plank evaluator reports the constant count 0.) *)
Theorem count_zero_after_reset_then_never_decreases :
  (forall this : PushupCounter.t,
      (PushupCounter.reset this).(PushupCounter.count) = 0%Z /\
      forall calls,
        (this.(PushupCounter.count) <= (pushupRun this calls).(PushupCounter.count))%Z) /\
  (forall this : SquatCounter.t,
      (SquatCounter.reset this).(SquatCounter.count) = 0%Z /\
      forall calls,
        (this.(SquatCounter.count) <= (squatRun this calls).(SquatCounter.count))%Z) /\
  (forall (this : PlankEvaluator.t) (t1 t2 : Z),
      (PlankEvaluator.getState (PlankEvaluator.reset this t1 t2)).(PlankEvaluator.s_count) = 0%Z /\
      forall calls,
        ((PlankEvaluator.getState this).(PlankEvaluator.s_count)
         <= (PlankEvaluator.getState (plankRun this calls)).(PlankEvaluator.s_count))%Z).
Proof.
  repeat split.
  - intros calls. apply pushupRun_count.
  - intros calls. apply squatRun_count.
  - intros calls. cbn. lia.
Qed.

(* ================================================================== *)
(** ** Frames with fewer than 33 landmarks *)
(* ================================================================== *)

Lemma plank_update_short (this : PlankEvaluator.t) now l w h :
  (List.length l < 33)%nat -> PlankEvaluator.update this now l w h = this.
Proof.
  intros H. unfold PlankEvaluator.update.
  apply Nat.ltb_lt in H. now rewrite H.
Qed.

Lemma squat_metrics_short (this : SquatCounter.t) l w h side :
  (List.length l < 33)%nat ->
  SquatCounter.computeMetrics this l w h side =
  {| SquatCounter.m_kneeAngle := this.(SquatCounter.kneeAngle);
     SquatCounter.m_hipAngle := this.(SquatCounter.hipAngle);
     SquatCounter.legsVisible := false; SquatCounter.standing := false;
     SquatCounter.hipBelowKnee := false; SquatCounter.kneeOverFootOK := true |}.
Proof.
  intros H. unfold SquatCounter.computeMetrics.
  apply Nat.ltb_lt in H. now rewrite H.
Qed.

(** C4, as the code has it.  A frame with fewer than 33 landmarks leaves the
    push-up counter and the plank evaluator exactly as they were.  The squat
    counter keeps its FSM state and its count, but handles the frame as one
    with the legs not visible: the warning becomes "Keep legs in frame" and
    the visibility qualification is cleared unless the machine is in UP. *)
Theorem short_frame_skipped_or_legs_not_visible l w h side now :
  (List.length l < 33)%nat ->
  (forall this, PushupCounter.update this l w h side = this) /\
  (forall this, PlankEvaluator.update this now l w h = this) /\
  (forall this,
      let this' := SquatCounter.update this l w h side in
      this'.(SquatCounter.state) = this.(SquatCounter.state) /\
      this'.(SquatCounter.count) = this.(SquatCounter.count) /\
      this'.(SquatCounter.formWarning) = "Keep legs in frame" /\
      this'.(SquatCounter.liveWarning) = "Keep legs in frame" /\
      this'.(SquatCounter.visibilityQualified) =
        match this.(SquatCounter.state) with
        | SquatCounter.UP => this.(SquatCounter.visibilityQualified)
        | _ => false
        end).
Proof.
  intros Hshort. split; [| split].
  - intros this. now apply pushup_update_short.
  - intros this. now apply plank_update_short.
  - intros this this'. subst this'. unfold SquatCounter.update.
    rewrite squat_metrics_short by exact Hshort. cbn zeta.
    unfold SquatCounter.stateMachine, SquatCounter.depthReached,
      SquatCounter.warningFromMetrics.
    cbn [SquatCounter.smoothed SquatCounter.set_smoothed SquatCounter.state
         SquatCounter.standing SquatCounter.legsVisible SquatCounter.hipBelowKnee
         SquatCounter.count SquatCounter.visibilityQualified andb negb].
    rewrite !andb_false_r.
    destruct (SquatCounter.state this) eqn:Hst; cbn; rewrite ?Hst; auto.
Qed.

(** C4 fails as stated: on a fresh squat counter the empty landmark list
    changes the state (the warnings are set). *)
Lemma short_frame_changes_squat_counter :
  SquatCounter.update SquatCounter.default [] (Num 640) (Num 480) "right"
  <> SquatCounter.default.
Proof.
  intros H. apply (f_equal SquatCounter.formWarning) in H.
  unfold SquatCounter.update in H.
  rewrite squat_metrics_short in H by (cbn; lia).
  cbn in H. discriminate H.
Qed.

(* ================================================================== *)
(** ** Visibility tests *)
(* ================================================================== *)

(** C6, as the code has it.  [isVisible], the test of the three stateful
    evaluators, takes an absent visibility as visible and a present one as
    visible exactly when it is at least the threshold.  The gate of the
    stateless [processSquat] and the knee test of the stateless
    [processPushup] take an absent visibility as not visible and a present one
    as visible exactly when it is strictly greater than 0.5. *)
Theorem visibility_tests :
  (forall (l : Landmark) (w h : number) (threshold : R),
      isVisible (toPoint l w h) (Num threshold) =
      match l.(visibility) with
      | None => true
      | Some v => Rleb threshold v
      end) /\
  (forall l : Landmark,
      StatelessSquat.gate l =
      match l.(visibility) with
      | None => false
      | Some v => Rltb 0.5 v
      end) /\
  (forall l : Landmark,
      StatelessPushup.isKneeVisible l =
      match l.(visibility) with
      | None => false
      | Some v => Rltb 0.5 v
      end).
Proof.
  split; [| split].
  - intros [px py pz [v |]] w h threshold; reflexivity.
  - intros [px py pz [v |]]; unfold StatelessSquat.gate; cbn.
    + destruct (Req_dec_T v 0) as [-> | Hv]; reflexivity.
    + apply Rltb_false. lra.
  - intros [px py pz [v |]]; reflexivity.
Qed.

(* ================================================================== *)
(** ** PlankEvaluator: the overall score *)
(* ================================================================== *)

Lemma scoreHip_unit (a : number) :
  unitScore (fst (PlankEvaluator.scoreHip PlankEvaluator.defaultConfig a)).
Proof.
  destruct a as [| v]; unfold PlankEvaluator.scoreHip, unitScore.
  - cbn. exists 1. split; [reflexivity | lra].
  - unit_score_cases.
Qed.

Lemma scoreHead_unit (a : number) :
  unitScore (fst (PlankEvaluator.scoreHead PlankEvaluator.defaultConfig a)).
Proof.
  destruct a as [| v]; unfold PlankEvaluator.scoreHead, unitScore.
  - cbn. exists 1. split; [reflexivity | lra].
  - unit_score_cases.
Qed.

Lemma scoreStack_unit (a b : number) :
  unitScore (fst (PlankEvaluator.scoreStack PlankEvaluator.defaultConfig a b)).
Proof.
  destruct a as [| u], b as [| v]; unfold PlankEvaluator.scoreStack, unitScore;
    try (cbn; exists 1; split; [reflexivity | lra]).
  cbn [negb isNaN andb Math.max lift2]. unfold Rmax.
  destruct (Rle_dec u v); unit_score_cases.
Qed.

Lemma scoreUnder_unit (a : number) :
  unitScore (fst (PlankEvaluator.scoreUnder PlankEvaluator.defaultConfig a)).
Proof.
  destruct a as [| v]; unfold PlankEvaluator.scoreUnder, unitScore.
  - cbn. exists 1. split; [reflexivity | lra].
  - unit_score_cases.
Qed.

Lemma scoreFeet_unit (a : number) :
  unitScore (fst (PlankEvaluator.scoreFeet PlankEvaluator.defaultConfig a)).
Proof.
  destruct a as [| v]; unfold PlankEvaluator.scoreFeet, unitScore.
  - cbn. exists 1. split; [reflexivity | lra].
  - unit_score_cases.
Qed.

Lemma overall_default (a b c d e : R) :
  PlankEvaluator.overall PlankEvaluator.defaultConfig (Num a) (Num b) (Num c) (Num d) (Num e)
  = Num ((0.35 * a + 0.15 * b + 0.15 * c + 0.2 * d + 0.15 * e) * 100).
Proof.
  unfold PlankEvaluator.overall, PlankEvaluator.weight_or. cbn.
  num_cases; try lra. reflexivity.
Qed.

Lemma overall_default_bounded (a b c d e : number) :
  unitScore a -> unitScore b -> unitScore c -> unitScore d -> unitScore e ->
  exists r, PlankEvaluator.overall PlankEvaluator.defaultConfig a b c d e = Num r
            /\ 0 <= r <= 100.
Proof.
  intros (x1 & -> & H1) (x2 & -> & H2) (x3 & -> & H3) (x4 & -> & H4) (x5 & -> & H5).
  rewrite overall_default. eexists; split; [reflexivity | lra].
Qed.

Lemma plank_update_gate_closed (this : PlankEvaluator.t) now l w h :
  (33 <= List.length l)%nat ->
  PlankEvaluator.criticalPointsVisible this l w h = false ->
  let this' := PlankEvaluator.update this now l w h in
  this'.(PlankEvaluator.state) = PlankEvaluator.NOT_READY /\
  this'.(PlankEvaluator.overallScore) = Num 0 /\
  this'.(PlankEvaluator.bestHold) = this.(PlankEvaluator.bestHold) /\
  this'.(PlankEvaluator.holdStartTime) =
    (if PlankEvaluator.PlankState_eqb this.(PlankEvaluator.state) PlankEvaluator.NOT_READY
     then this.(PlankEvaluator.holdStartTime) else None) /\
  this'.(PlankEvaluator.hipAngSmooth) = this.(PlankEvaluator.hipAngSmooth) /\
  this'.(PlankEvaluator.headAngSmooth) = this.(PlankEvaluator.headAngSmooth) /\
  this'.(PlankEvaluator.cfg) = this.(PlankEvaluator.cfg).
Proof.
  intros Hfull Hgate this'. subst this'. unfold PlankEvaluator.update.
  apply Nat.ltb_ge in Hfull. rewrite Hfull, Hgate. cbn.
  destruct (PlankEvaluator.PlankState_eqb _ _); repeat split; reflexivity.
Qed.

Lemma plank_update_gate_open (this : PlankEvaluator.t) now l w h :
  (33 <= List.length l)%nat ->
  PlankEvaluator.criticalPointsVisible this l w h = true ->
  let a := PlankEvaluator.assess this l w h in
  let tm := PlankEvaluator.stateMachine this now a.(PlankEvaluator.a_stableEnough) in
  let this' := PlankEvaluator.update this now l w h in
  this'.(PlankEvaluator.state) = tm.(PlankEvaluator.t_state) /\
  this'.(PlankEvaluator.stateStartTime) = tm.(PlankEvaluator.t_stateStartTime) /\
  this'.(PlankEvaluator.holdStartTime) = tm.(PlankEvaluator.t_holdStartTime) /\
  this'.(PlankEvaluator.bestHold) =
    Math.max this.(PlankEvaluator.bestHold)
      (PlankEvaluator.holdTimeAt now tm.(PlankEvaluator.t_holdStartTime)) /\
  this'.(PlankEvaluator.overallScore) = a.(PlankEvaluator.a_overallScore) /\
  this'.(PlankEvaluator.hipScore) = a.(PlankEvaluator.a_hipScore) /\
  this'.(PlankEvaluator.headScore) = a.(PlankEvaluator.a_headScore) /\
  this'.(PlankEvaluator.stackScore) = a.(PlankEvaluator.a_stackScore) /\
  this'.(PlankEvaluator.underScore) = a.(PlankEvaluator.a_underScore) /\
  this'.(PlankEvaluator.feetScore) = a.(PlankEvaluator.a_feetScore) /\
  this'.(PlankEvaluator.hipAngSmooth) = a.(PlankEvaluator.a_hipAngSmooth) /\
  this'.(PlankEvaluator.headAngSmooth) = a.(PlankEvaluator.a_headAngSmooth) /\
  this'.(PlankEvaluator.cfg) = this.(PlankEvaluator.cfg).
Proof.
  intros Hfull Hgate a tm this'. subst this'. unfold PlankEvaluator.update.
  apply Nat.ltb_ge in Hfull. rewrite Hfull, Hgate.
  cbn [negb]. repeat split; reflexivity.
Qed.

Lemma assess_overallScore (this : PlankEvaluator.t) l w h :
  let a := PlankEvaluator.assess this l w h in
  a.(PlankEvaluator.a_overallScore) =
  PlankEvaluator.overall this.(PlankEvaluator.cfg)
    a.(PlankEvaluator.a_hipScore) a.(PlankEvaluator.a_headScore)
    a.(PlankEvaluator.a_stackScore) a.(PlankEvaluator.a_underScore)
    a.(PlankEvaluator.a_feetScore).
Proof. reflexivity. Qed.

Lemma assess_scores (this : PlankEvaluator.t) l w h :
  let a := PlankEvaluator.assess this l w h in
  let c := this.(PlankEvaluator.cfg) in
  a.(PlankEvaluator.a_hipScore) = fst (PlankEvaluator.scoreHip c a.(PlankEvaluator.a_hipAngSmooth)) /\
  a.(PlankEvaluator.a_headScore) = fst (PlankEvaluator.scoreHead c a.(PlankEvaluator.a_headAngSmooth)) /\
  a.(PlankEvaluator.a_stackScore) =
    fst (PlankEvaluator.scoreStack c a.(PlankEvaluator.a_stackShSmooth)
           a.(PlankEvaluator.a_stackHipSmooth)) /\
  a.(PlankEvaluator.a_underScore) = fst (PlankEvaluator.scoreUnder c a.(PlankEvaluator.a_underSmooth)) /\
  a.(PlankEvaluator.a_feetScore) = fst (PlankEvaluator.scoreFeet c a.(PlankEvaluator.a_feetWSmooth)).
Proof. repeat split; reflexivity. Qed.

(* ================================================================== *)
(** ** Ranges of the smoothed angles *)
(* ================================================================== *)

Lemma clamped_acos_degrees_any (q : number) :
  unsetOrWithin 0 180
    ((Math.acos (Math.max (Num (-1)) (Math.min (Num 1) q)) [*] Num 180) [/] Math.PI).
Proof.
  destruct q as [| q].
  - exact I.
  - destruct (clamped_acos_degrees q) as (r & -> & Hr). exact Hr.
Qed.

Lemma recentred_within (ang : number) :
  unsetOrWithin 0 180 ang -> unsetOrWithin 180 360 (Num 180 [-] ang [+] Num 180).
Proof. destruct ang as [| r]; cbn; [easy | lra]. Qed.

Lemma angle3_within (a b c : Point) :
  unsetOrWithin 180 360 (PlankEvaluator.angle3 a b c).
Proof.
  unfold PlankEvaluator.angle3. cbn zeta.
  apply recentred_within, clamped_acos_degrees_any.
Qed.

Lemma plank_ema_within (this : PlankEvaluator.t) (lo hi : R) (prev cur : number) :
  (exists alpha, this.(PlankEvaluator.cfg).(PlankEvaluator.emaAlpha) = Num alpha
                 /\ 0 <= alpha <= 1) ->
  unsetOrWithin lo hi prev -> unsetOrWithin lo hi cur ->
  unsetOrWithin lo hi (PlankEvaluator.ema this prev cur).
Proof.
  intros (alpha & Ha & Hle) Hp Hc. unfold PlankEvaluator.ema. rewrite Ha.
  destruct prev as [| p]; [exact Hc |].
  destruct cur as [| c]; [exact I |].
  cbn in *. nra.
Qed.

Lemma squat_stateMachine_angles (this : SquatCounter.t) (m : SquatCounter.SquatMetrics) :
  let this' := SquatCounter.stateMachine this m in
  this'.(SquatCounter.kneeEma) = this.(SquatCounter.kneeEma) /\
  this'.(SquatCounter.hipEma) = this.(SquatCounter.hipEma) /\
  this'.(SquatCounter.kneeAngle) = this.(SquatCounter.kneeAngle) /\
  this'.(SquatCounter.hipAngle) = this.(SquatCounter.hipAngle) /\
  this'.(SquatCounter.smoothAlpha) = this.(SquatCounter.smoothAlpha).
Proof.
  unfold SquatCounter.stateMachine.
  destruct (SquatCounter.state this);
    repeat match goal with |- context [if ?b then _ else _] => destruct b end;
    cbn; repeat split; reflexivity.
Qed.

Lemma assess_smoothed_angles (this : PlankEvaluator.t) l w h :
  let a := PlankEvaluator.assess this l w h in
  exists p1 p2 p3 q1 q2 q3,
    a.(PlankEvaluator.a_hipAngSmooth)
    = PlankEvaluator.ema this this.(PlankEvaluator.hipAngSmooth)
        (PlankEvaluator.angle3 p1 p2 p3) /\
    a.(PlankEvaluator.a_headAngSmooth)
    = PlankEvaluator.ema this this.(PlankEvaluator.headAngSmooth)
        (PlankEvaluator.angle3 q1 q2 q3).
Proof. cbn zeta. do 6 eexists. split; reflexivity. Qed.

Lemma plank_update_within (this : PlankEvaluator.t) now l w h :
  plankAnglesWithin this -> plankAnglesWithin (PlankEvaluator.update this now l w h).
Proof.
  intros (Ha & Hhip & Hhead).
  destruct (Nat.lt_ge_cases (List.length l) 33) as [Hs | Hf].
  { rewrite plank_update_short by exact Hs. now repeat split. }
  unfold plankAnglesWithin.
  destruct (PlankEvaluator.criticalPointsVisible this l w h) eqn:Hgate.
  - destruct (plank_update_gate_open this now l w h Hf Hgate)
      as (_ & _ & _ & _ & _ & _ & _ & _ & _ & _ & -> & -> & ->).
    destruct (assess_smoothed_angles this l w h)
      as (p1 & p2 & p3 & q1 & q2 & q3 & -> & ->).
    repeat split; try assumption;
      apply plank_ema_within; auto using angle3_within.
  - destruct (plank_update_gate_closed this now l w h Hf Hgate)
      as (_ & _ & _ & _ & -> & -> & ->).
    now repeat split.
Qed.

(* ================================================================== *)
(** ** PlankEvaluator: readiness and hold *)
(* ================================================================== *)

Lemma seconds_Num (later earlier : Z) :
  PlankEvaluator.seconds later earlier = Num (IZR (later - earlier) / 1000).
Proof. unfold PlankEvaluator.seconds. apply ndiv_Num. lra. Qed.

Lemma holdTimeAt_Num (now : Z) (hs : option Z) :
  exists v, PlankEvaluator.holdTimeAt now hs = Num v.
Proof.
  destruct hs as [t0 |]; unfold PlankEvaluator.holdTimeAt; [| eauto].
  destruct (t0 =? 0)%Z; [eauto |]. rewrite seconds_Num. eauto.
Qed.










(* ================================================================== *)
(** ** Angles of concrete configurations *)
(* ================================================================== *)

Ltac decide_cmp :=
  repeat first
    [ rewrite Rleb_true by lra | rewrite Rleb_false by lra
    | rewrite Rltb_true by lra | rewrite Rltb_false by lra ].

Lemma calculateAngle2D_Num (ax ay bx by_ cx cy : R) (za zb zc va vb vc : number) :
  calculateAngle2D (mkPoint (Num ax) (Num ay) za va) (mkPoint (Num bx) (Num by_) zb vb)
    (mkPoint (Num cx) (Num cy) zc vc)
  = Num (acos (Rmax (-1) (Rmin 1
           (((ax - bx) * (cx - bx) + (ay - by_) * (cy - by_))
            / Rmax 1e-9 (sqrt ((ax - bx) * (ax - bx) + (ay - by_) * (ay - by_))
                         * sqrt ((cx - bx) * (cx - bx) + (cy - by_) * (cy - by_))))))
         * 180 / PI).
Proof.
  unfold calculateAngle2D.
  cbn [x y nsub nadd nmul lift2 Math.hypot Math.max Math.min].
  rewrite ndiv_Num by apply floored_den_nonzero.
  cbn [Math.min Math.max lift2 Math.acos].
  set (q := Rmax (-1) (Rmin 1 _)).
  assert (Hq : -1 <= q <= 1).
  { unfold q. split; [apply Rmax_l | apply Rmax_lub; [lra | apply Rmin_l]]. }
  rewrite (Rleb_true (-1) q), (Rleb_true q 1) by lra.
  cbn [andb nmul lift2]. unfold Math.PI.
  pose proof PI_RGT_0. now rewrite ndiv_Num by lra.
Qed.

Lemma sqrt_vertical (d u : R) : d = 0 -> sqrt (d * d + u * u) = Rabs u.
Proof. intros ->. rewrite <- sqrt_Rsqr_abs. f_equal. unfold Rsqr. lra. Qed.

Lemma degrees_of_acos_m1 : acos (-1) * 180 / PI = 180.
Proof.
  replace (-1) with (Ropp 1) by lra.
  rewrite acos_opp, acos_1. pose proof PI_RGT_0. field. lra.
Qed.

Lemma degrees_of_acos_1 : acos 1 * 180 / PI = 0.
Proof. rewrite acos_1. pose proof PI_RGT_0. field. lra. Qed.

Lemma degrees_of_acos_0 : acos 0 * 180 / PI = 90.
Proof. rewrite acos_0. pose proof PI_RGT_0. field. lra. Qed.

Lemma vertical_dot (ax ay bx by_ cx cy : R) :
  ax = bx -> cx = bx ->
  (ax - bx) * (cx - bx) + (ay - by_) * (cy - by_) = (ay - by_) * (cy - by_).
Proof. intros -> ->. lra. Qed.

(** Three points on a vertical line, the outer two on opposite sides of the
    vertex: 180 degrees. *)
Lemma angle2D_straight (ax ay bx by_ cx cy : R) (za zb zc va vb vc : number) :
  ax = bx -> cx = bx -> (ay - by_) * (cy - by_) <= -1e-9 ->
  calculateAngle2D (mkPoint (Num ax) (Num ay) za va) (mkPoint (Num bx) (Num by_) zb vb)
    (mkPoint (Num cx) (Num cy) zc vc) = Num 180.
Proof.
  intros Ha Hc Huv. rewrite calculateAngle2D_Num. f_equal.
  rewrite !sqrt_vertical by lra. rewrite <- Rabs_mult.
  rewrite vertical_dot by assumption.
  set (p := (ay - by_) * (cy - by_)) in *.
  rewrite Rabs_left by lra.
  rewrite (Rmax_right _ (- p)) by lra.
  replace (p / - p) with (-1) by (field; lra).
  rewrite Rmin_right by lra. rewrite Rmax_left by lra.
  apply degrees_of_acos_m1.
Qed.

(** The outer two on the same side of the vertex: 0 degrees. *)
Lemma angle2D_folded (ax ay bx by_ cx cy : R) (za zb zc va vb vc : number) :
  ax = bx -> cx = bx -> 1e-9 <= (ay - by_) * (cy - by_) ->
  calculateAngle2D (mkPoint (Num ax) (Num ay) za va) (mkPoint (Num bx) (Num by_) zb vb)
    (mkPoint (Num cx) (Num cy) zc vc) = Num 0.
Proof.
  intros Ha Hc Huv. rewrite calculateAngle2D_Num. f_equal.
  rewrite !sqrt_vertical by lra. rewrite <- Rabs_mult.
  rewrite vertical_dot by assumption.
  set (p := (ay - by_) * (cy - by_)) in *.
  rewrite Rabs_right by lra.
  rewrite (Rmax_right _ p) by lra.
  replace (p / p) with 1 by (field; lra).
  rewrite Rmin_left by lra. rewrite Rmax_right by lra.
  apply degrees_of_acos_1.
Qed.

(** The first point on the vertex: the floored denominator gives cosine 0,
    hence 90 degrees. *)
Lemma angle2D_coincident (ax ay bx by_ cx cy : R) (za zb zc va vb vc : number) :
  ax = bx -> ay = by_ ->
  calculateAngle2D (mkPoint (Num ax) (Num ay) za va) (mkPoint (Num bx) (Num by_) zb vb)
    (mkPoint (Num cx) (Num cy) zc vc) = Num 90.
Proof.
  intros Ha Hc. rewrite calculateAngle2D_Num. f_equal.
  replace ((ax - bx) * (cx - bx) + (ay - by_) * (cy - by_)) with 0 by (subst; lra).
  unfold Rdiv at 2. rewrite Rmult_0_l.
  rewrite Rmin_right by lra. rewrite Rmax_right by lra.
  apply degrees_of_acos_0.
Qed.


(* ================================================================== *)
(** ** SquatCounter: the standing predicate *)
(* ================================================================== *)

(** [computeMetrics] on a side view without visibility values. *)
Lemma squat_metrics_pose (this : SquatCounter.t) (e wr : Landmark)
      (sx sy hx hy kx ky ax ay W H : R) :
  exists kof,
    SquatCounter.computeMetrics this
      (pose (lm sx sy) e wr (lm hx hy) (lm kx ky) (lm ax ay)) (Num W) (Num H) "right"
    = let P px py := mkPoint (Num (px * W)) (Num (py * H)) (Num 0) NaN in
      {| SquatCounter.m_kneeAngle := calculateAngle2D (P hx hy) (P kx ky) (P ax ay);
         SquatCounter.m_hipAngle := calculateAngle2D (P sx sy) (P hx hy) (P kx ky);
         SquatCounter.legsVisible := true;
         SquatCounter.standing :=
           calculateAngle2D (P hx hy) (P kx ky) (P ax ay) [>=] this.(SquatCounter.upThresh);
         SquatCounter.hipBelowKnee :=
           Num (hy * H) [>] Num (ky * H) [+] Num H [*] Num 0.01;
         SquatCounter.kneeOverFootOK := kof |}.
Proof. eexists. reflexivity. Qed.

Ltac squat_frame l :=
  unfold SquatCounter.update, l;
  match goal with
  | |- context [SquatCounter.computeMetrics ?t
                  (pose (lm ?sx ?sy) ?e ?wr (lm ?hx ?hy) (lm ?kx ?ky) (lm ?ax ?ay))
                  (Num ?W) (Num ?H) _] =>
      destruct (squat_metrics_pose t e wr sx sy hx hy kx ky ax ay W H) as [kof ->]
  end;
  cbn zeta beta.

Ltac squat_machine :=
  unfold SquatCounter.ema, SquatCounter.stateMachine, SquatCounter.depthReached, squatAt;
  cbn -[IZR Rdiv Rmult Rplus Rminus Rinv Rleb Rltb];
  decide_cmp;
  cbn -[IZR Rdiv Rmult Rplus Rminus Rinv Rleb Rltb];
  decide_cmp;
  cbn -[IZR Rdiv Rmult Rplus Rminus Rinv Rleb Rltb].

Lemma squat_first_standing (fw lw : string) :
  exists fw' lw',
    SquatCounter.update (squatAt SquatCounter.UNARMED 0 NaN NaN false fw lw)
      squatStanding (Num 640) (Num 480) "right"
    = squatAt SquatCounter.UP 0 (Num 180) (Num 180) false fw' lw'.
Proof.
  squat_frame squatStanding.
  rewrite !angle2D_straight by lra.
  squat_machine. do 2 eexists. reflexivity.
Qed.

Lemma squat_first_deep (fw lw : string) :
  exists fw' lw',
    SquatCounter.update (squatAt SquatCounter.UP 0 (Num 180) (Num 180) false fw lw)
      squatDeep (Num 640) (Num 480) "right"
    = squatAt SquatCounter.UP 0 (Num 117) (Num 117) false fw' lw'.
Proof.
  squat_frame squatDeep.
  rewrite !angle2D_folded by lra.
  squat_machine.
  replace (0.35 * 0 + (1 - 0.35) * 180) with 117 by lra.
  do 2 eexists. reflexivity.
Qed.

Lemma squat_second_deep (fw lw : string) :
  exists fw' lw',
    SquatCounter.update (squatAt SquatCounter.UP 0 (Num 117) (Num 117) false fw lw)
      squatDeep (Num 640) (Num 480) "right"
    = squatAt SquatCounter.DOWN 0 (Num 76.05) (Num 76.05) true fw' lw'.
Proof.
  squat_frame squatDeep.
  rewrite !angle2D_folded by lra.
  squat_machine.
  replace (0.35 * 0 + (1 - 0.35) * 117) with 76.05 by lra.
  do 2 eexists. reflexivity.
Qed.

Lemma squat_back_to_standing (fw lw : string) :
  exists fw' lw',
    SquatCounter.update (squatAt SquatCounter.DOWN 0 (Num 76.05) (Num 76.05) true fw lw)
      squatStanding (Num 640) (Num 480) "right"
    = squatAt SquatCounter.UP 1 (Num 112.4325) (Num 112.4325) false fw' lw'.
Proof.
  squat_frame squatStanding.
  rewrite !angle2D_straight by lra.
  squat_machine.
  replace (0.35 * 180 + (1 - 0.35) * 76.05) with 112.4325 by lra.
  do 2 eexists. reflexivity.
Qed.

(** C3 fails on the code.  After one standing frame and two frames at the
    bottom the machine is in DOWN with a smoothed knee angle of 76.05.  One
    more standing frame takes it to UP and counts the rep although the
    smoothed knee angle, now 112.4325, is below [upThresh] = 165: [standing]
    was decided in [computeMetrics] on the raw knee angle (180) and is not
    recomputed for [smoothedMetrics]. *)
Theorem squat_standing_is_decided_on_the_raw_knee_angle :
  let before :=
    squatRun SquatCounter.default
      [squatCall squatStanding; squatCall squatDeep; squatCall squatDeep] in
  let after := squatStep before (squatCall squatStanding) in
  before.(SquatCounter.state) = SquatCounter.DOWN /\
  before.(SquatCounter.count) = 0%Z /\
  after.(SquatCounter.state) = SquatCounter.UP /\
  after.(SquatCounter.count) = 1%Z /\
  after.(SquatCounter.kneeAngle) = Num 112.4325 /\
  (after.(SquatCounter.kneeAngle) [>=] after.(SquatCounter.upThresh)) = false.
Proof.
  cbn zeta. unfold squatRun, squatStep, squatCall.
  cbn [fold_left c_landmarks c_imageW c_imageH c_side].
  change SquatCounter.default with (squatAt SquatCounter.UNARMED 0 NaN NaN false "" "").
  destruct (squat_first_standing "" "") as (fw1 & lw1 & ->).
  destruct (squat_first_deep fw1 lw1) as (fw2 & lw2 & ->).
  destruct (squat_second_deep fw2 lw2) as (fw3 & lw3 & ->).
  destruct (squat_back_to_standing fw3 lw3) as (fw4 & lw4 & ->).
  cbn [squatAt SquatCounter.state SquatCounter.count SquatCounter.kneeAngle
       SquatCounter.upThresh nge nle].
  repeat split. apply Rleb_false. lra.
Qed.

(* ================================================================== *)
(** ** The stateless gates *)
(* ================================================================== *)

(** C6 fails as stated: the gate of the exported [processSquat] takes a
    landmark without a visibility value as not visible (a frame of such
    landmarks is answered "Full body visible?"), and a visibility equal to
    the threshold 0.5 as not visible either. *)
Lemma absent_visibility_is_not_visible_to_processSquat :
  StatelessSquat.gate origin = false /\
  StatelessSquat.gate atThreshold = false /\
  fst (processSquat (load 0 0) frameOrigin initialExerciseState)
  = Some (StatelessSquat.with_form initialExerciseState "Full body visible?" false true
            [POSE_LANDMARKS.LEFT_HIP; POSE_LANDMARKS.RIGHT_HIP;
             POSE_LANDMARKS.LEFT_KNEE; POSE_LANDMARKS.RIGHT_KNEE]).
Proof.
  assert (H0 : StatelessSquat.gate origin = false).
  { unfold StatelessSquat.gate. cbn. apply Rltb_false. lra. }
  split; [exact H0 | split].
  - unfold StatelessSquat.gate, atThreshold. cbn [visibility].
    destruct (Req_dec_T 0.5 0); [lra |]. cbn. apply Rltb_false. lra.
  - unfold processSquat, StatelessSquat.run, frameOrigin.
    cbn [fst index nth_error repeat POSE_LANDMARKS.LEFT_HIP POSE_LANDMARKS.RIGHT_HIP
         POSE_LANDMARKS.LEFT_KNEE POSE_LANDMARKS.RIGHT_KNEE StatelessSquat.bothGate].
    rewrite H0. reflexivity.
Qed.

(* ================================================================== *)
(** ** PlankEvaluator on the all-origin frame *)
(* ================================================================== *)

Lemma avg_Num (ax ay az bx by_ bz : R) (va vb : number) :
  PlankEvaluator.avg (mkPoint (Num ax) (Num ay) (Num az) va)
    (mkPoint (Num bx) (Num by_) (Num bz) vb)
  = mkPoint (Num ((ax + bx) / 2)) (Num ((ay + by_) / 2)) (Num ((az + bz) / 2))
      ((va [+] vb) [/] Num 2).
Proof.
  unfold PlankEvaluator.avg. cbn [x y z vis nadd lift2].
  rewrite !ndiv_Num by lra. reflexivity.
Qed.


(* ================================================================== *)
(** ** PlankEvaluator on a straight plank *)
(* ================================================================== *)

Lemma sqrt_axis (u d e : R) : d = 0 -> e = 0 -> sqrt (u * u + d * d + e * e) = Rabs u.
Proof. intros -> ->. rewrite <- sqrt_Rsqr_abs. f_equal. unfold Rsqr. lra. Qed.

Lemma angle3_straight (ax ay az bx by_ bz cx cy cz : R) (va vb vc : number) :
  ay = by_ -> cy = by_ -> az = bz -> cz = bz -> (ax - bx) * (cx - bx) <= -1e-9 ->
  PlankEvaluator.angle3 (mkPoint (Num ax) (Num ay) (Num az) va)
    (mkPoint (Num bx) (Num by_) (Num bz) vb) (mkPoint (Num cx) (Num cy) (Num cz) vc)
  = Num 180.
Proof.
  intros Hay Hcy Haz Hcz Huv. unfold PlankEvaluator.angle3.
  cbn [x y z nsub nadd nmul lift2 Math.sqrt].
  rewrite !Rltb_false by apply sum_squares_nonneg.
  cbn [nmul lift2 Math.max].
  rewrite ndiv_Num by apply floored_den_nonzero.
  rewrite !sqrt_axis by lra. rewrite <- Rabs_mult.
  replace ((ax - bx) * (cx - bx) + (ay - by_) * (cy - by_) + (az - bz) * (cz - bz))
    with ((ax - bx) * (cx - bx)) by (subst; lra).
  set (p := (ax - bx) * (cx - bx)) in *.
  rewrite Rabs_left by lra.
  rewrite (Rmax_right _ (- p)) by lra.
  replace (p / - p) with (-1) by (field; lra).
  cbn [Math.min Math.max lift2 Math.acos].
  rewrite Rmin_right by lra. rewrite Rmax_left by lra.
  decide_cmp. cbn [andb nmul lift2]. unfold Math.PI.
  pose proof PI_RGT_0. rewrite ndiv_Num by lra.
  cbn [nsub nadd lift2]. f_equal. rewrite degrees_of_acos_m1. lra.
Qed.

Lemma verticalMisalignDeg_same (px py pz : R) (va vb : number) :
  PlankEvaluator.verticalMisalignDeg (mkPoint (Num px) (Num py) (Num pz) va)
    (mkPoint (Num px) (Num py) (Num pz) vb) = NaN.
Proof.
  unfold PlankEvaluator.verticalMisalignDeg.
  cbn [x y z nsub nadd nmul lift2 Math.sqrt].
  rewrite Rltb_false by apply sum_squares_nonneg.
  replace ((px - px) * (px - px) + (py - py) * (py - py) + (pz - pz) * (pz - pz)) with 0 by lra.
  rewrite sqrt_0. cbn [nlt]. rewrite Rltb_true by lra. reflexivity.
Qed.

Lemma plank_ema_unsetOr (this : PlankEvaluator.t) (v : R) (prev : number) :
  this.(PlankEvaluator.cfg) = PlankEvaluator.defaultConfig ->
  unsetOr v prev -> PlankEvaluator.ema this prev (Num v) = Num v.
Proof.
  intros Hc [-> | ->]; unfold PlankEvaluator.ema; rewrite ?Hc; cbn; [reflexivity |].
  f_equal. lra.
Qed.

Lemma plank_ema_NaN (this : PlankEvaluator.t) (prev : number) :
  PlankEvaluator.ema this prev NaN = NaN.
Proof. unfold PlankEvaluator.ema. cbn [isNaN]. now rewrite orb_true_r. Qed.

Lemma plankStraight_signals (this : PlankEvaluator.t) :
  this.(PlankEvaluator.cfg) = PlankEvaluator.defaultConfig ->
  let a := PlankEvaluator.assess this plankStraight (Num 640) (Num 480) in
  a.(PlankEvaluator.a_hipAngle) = Num 180 /\
  a.(PlankEvaluator.a_headAngle) = Num 180 /\
  a.(PlankEvaluator.a_shoulderMisalignment) = NaN /\
  a.(PlankEvaluator.a_hipMisalignment) = NaN /\
  a.(PlankEvaluator.a_plankType) = PlankEvaluator.HIGH.
Proof.
  intros Hc a. subst a.
  set (P := fun px py => mkPoint (Num (px * 640)) (Num (py * 480)) (Num 0) NaN).
  repeat split.
  - change (PlankEvaluator.a_hipAngle _)
      with (PlankEvaluator.angle3 (PlankEvaluator.avg (P 0.2 0.5) (P 0.2 0.5))
              (PlankEvaluator.avg (P 0.5 0.5) (P 0.5 0.5))
              (PlankEvaluator.avg (P 0.9 0.5) (P 0.9 0.5))).
    unfold P. rewrite !avg_Num. apply angle3_straight; lra.
  - change (PlankEvaluator.a_headAngle _)
      with (PlankEvaluator.angle3 (PlankEvaluator.avg (P 0.1 0.5) (P 0.1 0.5))
              (PlankEvaluator.avg (P 0.2 0.5) (P 0.2 0.5))
              (PlankEvaluator.avg (P 0.5 0.5) (P 0.5 0.5))).
    unfold P. rewrite !avg_Num. apply angle3_straight; lra.
  - change (PlankEvaluator.a_shoulderMisalignment _)
      with (PlankEvaluator.verticalMisalignDeg (P 0.2 0.5) (P 0.2 0.5)).
    apply verticalMisalignDeg_same.
  - change (PlankEvaluator.a_hipMisalignment _)
      with (PlankEvaluator.verticalMisalignDeg (P 0.5 0.5) (P 0.5 0.5)).
    apply verticalMisalignDeg_same.
  - change (PlankEvaluator.a_plankType _)
      with (PlankEvaluator.classifyPlank this (P 0.2 0.5) (P 0.2 0.5) (P 0.2 0.6) (P 0.2 0.6)
              (P 0.2 0.7) (P 0.2 0.7)).
    unfold PlankEvaluator.classifyPlank, P.
    cbn -[IZR Rdiv Rmult Rplus Rminus Rinv Rleb Rltb ndiv].
    rewrite ndiv_Num by lra. cbn [nlt]. rewrite Rltb_true by lra. reflexivity.
Qed.

Lemma hypot_zero (d e : R) : d = 0 -> e = 0 -> sqrt (d * d + e * e) = 0.
Proof. intros -> ->. replace (0 * 0 + 0 * 0) with 0 by lra. apply sqrt_0. Qed.

Lemma plankStraight_smoothed (this : PlankEvaluator.t) :
  let a := PlankEvaluator.assess this plankStraight (Num 640) (Num 480) in
  let P := fun px py => mkPoint (Num (px * 640)) (Num (py * 480)) (Num 0) NaN in
  a.(PlankEvaluator.a_hipAngSmooth)
  = PlankEvaluator.ema this this.(PlankEvaluator.hipAngSmooth) a.(PlankEvaluator.a_hipAngle) /\
  a.(PlankEvaluator.a_headAngSmooth)
  = PlankEvaluator.ema this this.(PlankEvaluator.headAngSmooth) a.(PlankEvaluator.a_headAngle) /\
  a.(PlankEvaluator.a_stackShSmooth)
  = PlankEvaluator.ema this this.(PlankEvaluator.stackShSmooth)
      a.(PlankEvaluator.a_shoulderMisalignment) /\
  a.(PlankEvaluator.a_stackHipSmooth)
  = PlankEvaluator.ema this this.(PlankEvaluator.stackHipSmooth)
      a.(PlankEvaluator.a_hipMisalignment) /\
  a.(PlankEvaluator.a_underSmooth)
  = PlankEvaluator.ema this this.(PlankEvaluator.underSmooth)
      (((PlankEvaluator.horizDist
           (if PlankEvaluator.isHIGH a.(PlankEvaluator.a_plankType)
            then P 0.2 0.7 else P 0.2 0.6) (P 0.2 0.5)
         [+] PlankEvaluator.horizDist
               (if PlankEvaluator.isHIGH a.(PlankEvaluator.a_plankType)
                then P 0.2 0.7 else P 0.2 0.6) (P 0.2 0.5)) [/] Num 2)
       [/] Math.max
             (Math.hypot
                ((PlankEvaluator.avg (P 0.2 0.5) (P 0.2 0.5)).(x)
                 [-] (PlankEvaluator.avg (P 0.5 0.5) (P 0.5 0.5)).(x))
                ((PlankEvaluator.avg (P 0.2 0.5) (P 0.2 0.5)).(y)
                 [-] (PlankEvaluator.avg (P 0.5 0.5) (P 0.5 0.5)).(y)))
             (Num 1)) /\
  a.(PlankEvaluator.a_stableEnough) = (a.(PlankEvaluator.a_overallScore) [>] Num 50) && true.
Proof. repeat split; reflexivity. Qed.

Lemma plankStraight_stable (this : PlankEvaluator.t) :
  this.(PlankEvaluator.cfg) = PlankEvaluator.defaultConfig ->
  unsetOr 180 this.(PlankEvaluator.hipAngSmooth) ->
  unsetOr 180 this.(PlankEvaluator.headAngSmooth) ->
  unsetOr 0 this.(PlankEvaluator.underSmooth) ->
  let a := PlankEvaluator.assess this plankStraight (Num 640) (Num 480) in
  a.(PlankEvaluator.a_hipAngSmooth) = Num 180 /\
  a.(PlankEvaluator.a_headAngSmooth) = Num 180 /\
  a.(PlankEvaluator.a_underSmooth) = Num 0 /\
  a.(PlankEvaluator.a_stableEnough) = true.
Proof.
  intros Hc Hhip Hhead Hunder a.
  destruct (plankStraight_signals this Hc) as (Hs1 & Hs2 & Hs3 & Hs4 & Hs5).
  destruct (plankStraight_smoothed this) as (E1 & E2 & E3 & E4 & E5 & E6).
  cbn zeta in *. fold a in Hs1, Hs2, Hs3, Hs4, Hs5, E1, E2, E3, E4, E5, E6.
  rewrite Hs1 in E1. rewrite Hs2 in E2. rewrite Hs3 in E3. rewrite Hs4 in E4.
  rewrite Hs5 in E5.
  rewrite plank_ema_unsetOr in E1, E2 by assumption.
  rewrite plank_ema_NaN in E3, E4.
  assert (E5' : PlankEvaluator.a_underSmooth a = Num 0).
  { rewrite E5. rewrite !avg_Num.
    unfold PlankEvaluator.horizDist.
    cbn [PlankEvaluator.isHIGH x y z nsub nadd lift2 Math.hypot Math.max].
    rewrite !hypot_zero by lra.
    rewrite ndiv_Num by lra.
    rewrite ndiv_Num by (pose proof (Rmax_r (sqrt
       (((0.2 * 640 + 0.2 * 640) / 2 - (0.5 * 640 + 0.5 * 640) / 2) *
        ((0.2 * 640 + 0.2 * 640) / 2 - (0.5 * 640 + 0.5 * 640) / 2) +
        ((0.5 * 480 + 0.5 * 480) / 2 - (0.5 * 480 + 0.5 * 480) / 2) *
        ((0.5 * 480 + 0.5 * 480) / 2 - (0.5 * 480 + 0.5 * 480) / 2))) 1); lra).
    replace ((0 + 0) / 2) with 0 by lra.
    unfold Rdiv at 1. rewrite Rmult_0_l.
    now apply plank_ema_unsetOr. }
  repeat split; try assumption.
  rewrite E6, andb_true_r. unfold a in *. rewrite assess_overallScore.
  destruct (assess_scores this plankStraight (Num 640) (Num 480)) as (-> & -> & -> & -> & ->).
  rewrite Hc, E1, E2, E3, E4, E5'.
  match goal with |- context [PlankEvaluator.scoreFeet _ ?f] =>
    destruct (scoreFeet_unit f) as (s5 & -> & Hs) end.
  unfold PlankEvaluator.scoreHip, PlankEvaluator.scoreHead, PlankEvaluator.scoreStack,
    PlankEvaluator.scoreUnder.
  cbn -[IZR Rdiv Rmult Rplus Rminus Rinv Rleb Rltb ndiv PlankEvaluator.overall].
  decide_cmp. cbn [fst]. rewrite overall_default. cbn [ngt nlt].
  apply Rltb_true. lra.
Qed.

Lemma plank_update_underSmooth (this : PlankEvaluator.t) now l w h :
  (33 <= List.length l)%nat ->
  PlankEvaluator.criticalPointsVisible this l w h = true ->
  (PlankEvaluator.update this now l w h).(PlankEvaluator.underSmooth)
  = (PlankEvaluator.assess this l w h).(PlankEvaluator.a_underSmooth).
Proof.
  intros Hfull Hgate. unfold PlankEvaluator.update.
  apply Nat.ltb_ge in Hfull. now rewrite Hfull, Hgate.
Qed.

Lemma plankStraight_gate (this : PlankEvaluator.t) (w h : number) :
  PlankEvaluator.criticalPointsVisible this plankStraight w h = true.
Proof. reflexivity. Qed.

Lemma plankStraight_length : (33 <= List.length plankStraight)%nat.
Proof. cbn. lia. Qed.

Lemma plank_update_holdTime (this : PlankEvaluator.t) now l w h :
  (33 <= List.length l)%nat ->
  PlankEvaluator.criticalPointsVisible this l w h = true ->
  (PlankEvaluator.update this now l w h).(PlankEvaluator.holdTime)
  = PlankEvaluator.holdTimeAt now
      (PlankEvaluator.stateMachine this now
         (PlankEvaluator.assess this l w h).(PlankEvaluator.a_stableEnough))
        .(PlankEvaluator.t_holdStartTime).
Proof.
  intros Hfull Hgate. unfold PlankEvaluator.update.
  apply Nat.ltb_ge in Hfull. now rewrite Hfull, Hgate.
Qed.

(** One straight-plank frame on a default-configured evaluator whose
    accumulators are unset or already hold this frame's values. *)
Lemma plank_straight_step (this : PlankEvaluator.t) (now : Z) :
  this.(PlankEvaluator.cfg) = PlankEvaluator.defaultConfig ->
  unsetOr 180 this.(PlankEvaluator.hipAngSmooth) ->
  unsetOr 180 this.(PlankEvaluator.headAngSmooth) ->
  unsetOr 0 this.(PlankEvaluator.underSmooth) ->
  let this' := PlankEvaluator.update this now plankStraight (Num 640) (Num 480) in
  let tm := PlankEvaluator.stateMachine this now true in
  (this'.(PlankEvaluator.cfg) = PlankEvaluator.defaultConfig /\
   unsetOr 180 this'.(PlankEvaluator.hipAngSmooth) /\
   unsetOr 180 this'.(PlankEvaluator.headAngSmooth) /\
   unsetOr 0 this'.(PlankEvaluator.underSmooth)) /\
  this'.(PlankEvaluator.state) = tm.(PlankEvaluator.t_state) /\
  this'.(PlankEvaluator.stateStartTime) = tm.(PlankEvaluator.t_stateStartTime) /\
  this'.(PlankEvaluator.holdStartTime) = tm.(PlankEvaluator.t_holdStartTime) /\
  this'.(PlankEvaluator.holdTime)
  = PlankEvaluator.holdTimeAt now tm.(PlankEvaluator.t_holdStartTime) /\
  plankStable this (plankCall now plankStraight) = true.
Proof.
  intros Hc Hhip Hhead Hunder. cbn zeta.
  destruct (plank_update_gate_open this now plankStraight (Num 640) (Num 480)
              plankStraight_length (plankStraight_gate _ _ _))
    as (-> & -> & -> & _ & _ & _ & _ & _ & _ & _ & -> & -> & ->).
  rewrite plank_update_underSmooth, plank_update_holdTime
    by (apply plankStraight_length || apply plankStraight_gate).
  unfold plankStable, plankCall. cbn [p_landmarks p_imageW p_imageH].
  rewrite plankStraight_gate.
  destruct (plankStraight_stable this Hc Hhip Hhead Hunder) as (-> & -> & -> & ->).
  repeat split; try assumption; now right.
Qed.

(** Straight-plank frames at clock readings 0 and 1000 take a fresh
    evaluator to READY and then to HOLDING. *)
Lemma plank_two_straight_frames :
  let s1 := PlankEvaluator.update (PlankEvaluator.default 0 0) 0 plankStraight
              (Num 640) (Num 480) in
  let s2 := PlankEvaluator.update s1 1000 plankStraight (Num 640) (Num 480) in
  s1.(PlankEvaluator.state) = PlankEvaluator.READY /\
  s2.(PlankEvaluator.state) = PlankEvaluator.HOLDING /\
  s2.(PlankEvaluator.holdStartTime) = Some 1000%Z /\
  s2.(PlankEvaluator.cfg) = PlankEvaluator.defaultConfig /\
  unsetOr 180 s2.(PlankEvaluator.hipAngSmooth) /\
  unsetOr 180 s2.(PlankEvaluator.headAngSmooth) /\
  unsetOr 0 s2.(PlankEvaluator.underSmooth).
Proof.
  cbn zeta.
  destruct (plank_straight_step (PlankEvaluator.default 0 0) 0 eq_refl)
    as ((Hc1 & Hhip1 & Hhead1 & Hunder1) & Hst1 & Hsst1 & Hhs1 & _); try (now left).
  cbn zeta in *.
  destruct (plank_straight_step _ 1000 Hc1 Hhip1 Hhead1 Hunder1)
    as ((Hc2 & Hhip2 & Hhead2 & Hunder2) & Hst2 & _ & Hhs2 & _).
  cbn zeta in *.
  assert (Hready : (PlankEvaluator.update (PlankEvaluator.default 0 0) 0 plankStraight
                      (Num 640) (Num 480)).(PlankEvaluator.state) = PlankEvaluator.READY)
    by (rewrite Hst1; reflexivity).
  assert (Hstart : (PlankEvaluator.update (PlankEvaluator.default 0 0) 0 plankStraight
                      (Num 640) (Num 480)).(PlankEvaluator.stateStartTime) = 0%Z)
    by (rewrite Hsst1; reflexivity).
  assert (Hmachine :
            PlankEvaluator.stateMachine
              (PlankEvaluator.update (PlankEvaluator.default 0 0) 0 plankStraight
                 (Num 640) (Num 480)) 1000 true
            = PlankEvaluator.mkTiming PlankEvaluator.HOLDING 0 (Some 1000%Z)
                (PlankEvaluator.update (PlankEvaluator.default 0 0) 0 plankStraight
                   (Num 640) (Num 480)).(PlankEvaluator.totalTime)).
  { unfold PlankEvaluator.stateMachine. rewrite Hready, Hstart, Hc1.
    cbn [negb PlankEvaluator.readySeconds PlankEvaluator.defaultConfig].
    rewrite seconds_Num. cbn [nge nle].
    rewrite Rleb_true by (cbn; lra). reflexivity. }
  rewrite Hmachine in Hst2, Hhs2.
  repeat split; assumption.
Qed.

(* ================================================================== *)
(** ** The exported wrappers and the singletons *)
(* ================================================================== *)

(** [measure] on a side view without visibility values. *)
Lemma pushup_measure_pose (this : PushupCounter.t)
      (sx sy ex ey wx wy hx hy kx ky ax ay W H : R) :
  let P px py := mkPoint (Num (px * W)) (Num (py * H)) (Num 0) NaN in
  let knee := calculateAngle2D (P hx hy) (P kx ky) (P ax ay) in
  let f := PushupCounter.measure this
             (pose (lm sx sy) (lm ex ey) (lm wx wy) (lm hx hy) (lm kx ky) (lm ax ay))
             (Num W) (Num H) "right" in
  f.(PushupCounter.f_elbowAngle) = calculateAngle2D (P sx sy) (P ex ey) (P wx wy) /\
  f.(PushupCounter.f_kneeAngle) = knee /\
  f.(PushupCounter.legsExtended)
  = negb (isNaN knee) && (knee [>=] this.(PushupCounter.legExtendedThresh)).
Proof. repeat split; reflexivity. Qed.

Lemma pushupTop_measured (this : PushupCounter.t) :
  this.(PushupCounter.legExtendedThresh) = Num 130 ->
  let f := PushupCounter.measure this pushupTop (Num 640) (Num 480) "right" in
  f.(PushupCounter.f_elbowAngle) = Num 180 /\ f.(PushupCounter.legsExtended) = true.
Proof.
  intros Hthr. unfold pushupTop.
  destruct (pushup_measure_pose this 0.5 0.1 0.5 0.2 0.5 0.3 0.5 0.5 0.5 0.7 0.5 0.9 640 480)
    as (He & _ & Hl).
  cbn zeta in *. rewrite He, Hl, Hthr.
  rewrite !angle2D_straight by lra.
  split; [reflexivity |]. cbn [isNaN negb andb nge nle]. apply Rleb_true. lra.
Qed.

Lemma pushupBottom_measured (this : PushupCounter.t) :
  this.(PushupCounter.legExtendedThresh) = Num 130 ->
  let f := PushupCounter.measure this pushupBottom (Num 640) (Num 480) "right" in
  f.(PushupCounter.f_elbowAngle) = Num 0 /\ f.(PushupCounter.legsExtended) = true.
Proof.
  intros Hthr. unfold pushupBottom.
  destruct (pushup_measure_pose this 0.5 0.1 0.5 0.2 0.5 0.1 0.5 0.5 0.5 0.7 0.5 0.9 640 480)
    as (He & _ & Hl).
  cbn zeta in *. rewrite He, Hl, Hthr.
  rewrite angle2D_folded by lra. rewrite angle2D_straight by lra.
  split; [reflexivity |]. cbn [isNaN negb andb nge nle]. apply Rleb_true. lra.
Qed.

(** What a processed frame does to the machine of the push-up counter. *)
Lemma pushup_update_machine (this : PushupCounter.t) l w h side :
  (33 <= List.length l)%nat ->
  let f := PushupCounter.measure this l w h side in
  let e := f.(PushupCounter.f_elbowAngle) in
  let this' := PushupCounter.update this l w h side in
  this'.(PushupCounter.upThresh) = this.(PushupCounter.upThresh) /\
  this'.(PushupCounter.downThresh) = this.(PushupCounter.downThresh) /\
  this'.(PushupCounter.legExtendedThresh) = this.(PushupCounter.legExtendedThresh) /\
  this'.(PushupCounter.state) =
    match this.(PushupCounter.state) with
    | PushupCounter.UNARMED =>
        if (e [>=] this.(PushupCounter.upThresh)) && f.(PushupCounter.legsExtended)
        then PushupCounter.UP else PushupCounter.UNARMED
    | PushupCounter.UP =>
        if e [<=] this.(PushupCounter.downThresh)
        then PushupCounter.DOWN else PushupCounter.UP
    | PushupCounter.DOWN =>
        if (e [>=] this.(PushupCounter.upThresh))
           && (this.(PushupCounter.legsQualified) || f.(PushupCounter.legsExtended))
        then PushupCounter.UP else PushupCounter.DOWN
    end.
Proof.
  intros Hfull f e this'. subst this'. rewrite pushup_update_full by exact Hfull.
  cbn zeta. fold f. fold e. unfold PushupCounter.stateMachine.
  cbn [PushupCounter.set_formWarning PushupCounter.set_angles PushupCounter.state
       PushupCounter.elbowAngle PushupCounter.upThresh PushupCounter.downThresh
       PushupCounter.legExtendedThresh PushupCounter.legsQualified PushupCounter.count].
  destruct (PushupCounter.state this) eqn:Hst;
    repeat match goal with |- context [if ?b then _ else _] => destruct b end;
    cbn; rewrite ?Hst; repeat split; reflexivity.
Qed.

Lemma pushup_after_top :
  let c := PushupCounter.update PushupCounter.default pushupTop (Num 640) (Num 480) "right" in
  c.(PushupCounter.state) = PushupCounter.UP /\
  c.(PushupCounter.downThresh) = Num 70 /\
  c.(PushupCounter.legExtendedThresh) = Num 130.
Proof.
  cbn zeta.
  destruct (pushup_update_machine PushupCounter.default pushupTop (Num 640) (Num 480) "right")
    as (_ & -> & -> & ->); [cbn; lia |].
  destruct (pushupTop_measured PushupCounter.default eq_refl) as [-> ->].
  cbn [PushupCounter.default PushupCounter.new PushupCounter.state PushupCounter.upThresh
       PushupCounter.downThresh PushupCounter.legExtendedThresh nge nle andb].
  rewrite Rleb_true by lra. repeat split.
Qed.

Lemma pushup_bottom_when_fresh :
  (PushupCounter.update PushupCounter.default pushupBottom (Num 640) (Num 480) "right")
    .(PushupCounter.state) = PushupCounter.UNARMED.
Proof.
  destruct (pushup_update_machine PushupCounter.default pushupBottom (Num 640) (Num 480) "right")
    as (_ & _ & _ & ->); [cbn; lia |].
  destruct (pushupBottom_measured PushupCounter.default eq_refl) as [-> ->].
  cbn [PushupCounter.default PushupCounter.new PushupCounter.state PushupCounter.upThresh
       nge nle andb].
  rewrite Rleb_false by lra. reflexivity.
Qed.

Lemma pushup_bottom_after_top :
  (PushupCounter.update
     (PushupCounter.update PushupCounter.default pushupTop (Num 640) (Num 480) "right")
     pushupBottom (Num 640) (Num 480) "right").(PushupCounter.state) = PushupCounter.DOWN.
Proof.
  destruct pushup_after_top as (Hst & Hdown & Hleg). cbn zeta in *.
  match goal with
  | |- PushupCounter.state (PushupCounter.update ?c _ _ _ _) = _ =>
      destruct (pushup_update_machine c pushupBottom (Num 640) (Num 480) "right")
        as (_ & _ & _ & ->); [cbn; lia |];
      destruct (pushupBottom_measured c Hleg) as [-> _]
  end.
  rewrite Hst, Hdown. cbn [nle]. rewrite Rleb_true by lra. reflexivity.
Qed.

Lemma processPushup_stage (m : Singletons) l st :
  (fst (processPushup m l st)).(ExerciseState.stage) =
  match (PushupCounter.update m.(pushupCounter) l (Num 640) (Num 480) "right")
          .(PushupCounter.state) with
  | PushupCounter.UP => StageUP
  | PushupCounter.DOWN => StageDOWN
  | PushupCounter.UNARMED => StageNEUTRAL
  end.
Proof.
  unfold processPushup.
  cbn [fst ExerciseState.stage PushupCounter.getState PushupCounter.s_state].
  destruct (PushupCounter.state _); reflexivity.
Qed.

Lemma processPlank_timer (m : Singletons) now l st :
  (fst (processPlank m now l st)).(ExerciseState.timer)
  = Some (PlankEvaluator.update m.(plankEvaluator) now l (Num 640) (Num 480))
           .(PlankEvaluator.holdTime).
Proof. reflexivity. Qed.

Lemma plank_timer_when_fresh :
  (PlankEvaluator.update (PlankEvaluator.default 0 0) 3000 plankStraight (Num 640) (Num 480))
    .(PlankEvaluator.holdTime) = Num 0.
Proof.
  destruct (plank_straight_step (PlankEvaluator.default 0 0) 3000 eq_refl)
    as (_ & _ & _ & _ & -> & _); try (now left).
  reflexivity.
Qed.

Lemma plank_timer_after_holding :
  (PlankEvaluator.update
     (PlankEvaluator.update
        (PlankEvaluator.update (PlankEvaluator.default 0 0) 0 plankStraight (Num 640) (Num 480))
        1000 plankStraight (Num 640) (Num 480))
     3000 plankStraight (Num 640) (Num 480)).(PlankEvaluator.holdTime) = Num 2.
Proof.
  destruct plank_two_straight_frames as (_ & Hst & Hhs & Hc & Hhip & Hhead & Hunder).
  cbn zeta in *.
  destruct (plank_straight_step _ 3000 Hc Hhip Hhead Hunder) as (_ & _ & _ & _ & -> & _).
  unfold PlankEvaluator.stateMachine. rewrite Hst, Hhs.
  cbn [negb PlankEvaluator.t_holdStartTime PlankEvaluator.holdTimeAt Z.eqb Pos.eqb].
  rewrite seconds_Num. f_equal. cbn. lra.
Qed.

(** C10. [processSquat] answers from its two arguments alone and returns the
    singletons untouched.  [processPushup] and [processPlank] go through the
    module-scope singletons: the same arguments (and, for the plank, the same
    clock reading) are answered differently after earlier calls than right
    after loading the module. *)
Theorem processSquat_pure_processPushup_processPlank_not :
  (forall (m m' : Singletons) l st,
      fst (processSquat m l st) = fst (processSquat m' l st)) /\
  (forall (m : Singletons) l st, snd (processSquat m l st) = m) /\
  (let m0 := load 0 0 in
   let m1 := snd (processPushup m0 pushupTop initialExerciseState) in
   fst (processPushup m0 pushupBottom initialExerciseState)
   <> fst (processPushup m1 pushupBottom initialExerciseState)) /\
  (let m0 := load 0 0 in
   let m1 := snd (processPlank m0 0 plankStraight initialExerciseState) in
   let m2 := snd (processPlank m1 1000 plankStraight initialExerciseState) in
   fst (processPlank m0 3000 plankStraight initialExerciseState)
   <> fst (processPlank m2 3000 plankStraight initialExerciseState)).
Proof.
  split; [| split; [| split]].
  - reflexivity.
  - reflexivity.
  - cbn zeta. intros H. apply (f_equal ExerciseState.stage) in H.
    rewrite !processPushup_stage in H.
    cbn [load processPushup snd pushupCounter] in H.
    rewrite pushup_bottom_when_fresh, pushup_bottom_after_top in H.
    discriminate H.
  - cbn zeta. intros H. apply (f_equal ExerciseState.timer) in H.
    rewrite !processPlank_timer in H.
    cbn [load processPlank snd plankEvaluator] in H.
    rewrite plank_timer_when_fresh, plank_timer_after_holding in H.
    injection H as H. lra.
Qed.

(* ================================================================== *)
(** ** Instances *)
(* ================================================================== *)

(** C1 at a concrete input: in DOWN with qualified legs, the frame with
    straight arms counts the rep. *)
Lemma pushup_down_counts_exactly_when_qualified_witness :
  let this' := PushupCounter.update pushupDownQualified pushupTop (Num 640) (Num 480) "right" in
  pushupDownQualified.(PushupCounter.state) = PushupCounter.DOWN /\
  (33 <= List.length pushupTop)%nat /\
  this'.(PushupCounter.state) = PushupCounter.UP /\
  this'.(PushupCounter.count) = 1%Z /\
  this'.(PushupCounter.legsQualified) = false.
Proof.
  cbn zeta.
  assert (Hlen : (33 <= List.length pushupTop)%nat) by (cbn; lia).
  split; [reflexivity | split; [exact Hlen |]].
  destruct (pushup_down_counts_exactly_when_qualified pushupDownQualified pushupTop
              (Num 640) (Num 480) "right" eq_refl) as [_ H].
  destruct (H Hlen) as (_ & Hfire & _).
  apply Hfire.
  destruct (pushupTop_measured pushupDownQualified eq_refl) as [-> _].
  cbn [pushupDownQualified PushupCounter.set_fsm PushupCounter.upThresh
       PushupCounter.legsQualified PushupCounter.default PushupCounter.new
       orb andb nge nle].
  rewrite Rleb_true by lra. reflexivity.
Defined.

(** C4 (as amended) at the empty landmark list. *)
Lemma short_frame_skipped_or_legs_not_visible_witness :
  (List.length (@nil Landmark) < 33)%nat /\
  PushupCounter.update PushupCounter.default [] (Num 640) (Num 480) "right"
  = PushupCounter.default /\
  PlankEvaluator.update (PlankEvaluator.default 0 0) 5 [] (Num 640) (Num 480)
  = PlankEvaluator.default 0 0 /\
  (SquatCounter.update SquatCounter.default [] (Num 640) (Num 480) "right")
    .(SquatCounter.formWarning) = "Keep legs in frame".
Proof.
  assert (Hlen : (List.length (@nil Landmark) < 33)%nat) by (cbn; lia).
  destruct (short_frame_skipped_or_legs_not_visible [] (Num 640) (Num 480) "right" 5%Z Hlen)
    as (Hpush & Hplank & Hsquat).
  split; [exact Hlen |].
  split; [apply Hpush |].
  split; [apply Hplank |].
  apply (Hsquat SquatCounter.default).
Defined.



Lemma default_plank_angles_within (t1 t2 : Z) :
  plankAnglesWithin (PlankEvaluator.default t1 t2).
Proof.
  repeat split. exists 0.35. split; [reflexivity | lra].
Qed.

(* ================================================================== *)
(** ** Geometry: symmetry, right angles and the true angle *)
(* ================================================================== *)

Lemma nmul_comm (a b : number) : a [*] b = b [*] a.
Proof. destruct a, b; cbn; try reflexivity. f_equal. lra. Qed.

Lemma nadd_comm (a b : number) : a [+] b = b [+] a.
Proof. destruct a, b; cbn; try reflexivity. f_equal. lra. Qed.

(** X1. The angle at the vertex does not depend on the order of the two
    outer points, for any points at all (NaN coordinates included), in both
    variants. *)
Theorem angle_symmetric (a b c : Point) :
  calculateAngle2D a b c = calculateAngle2D c b a /\
  calculateAngle3D a b c = calculateAngle3D c b a.
Proof.
  split.
  - unfold calculateAngle2D. cbn zeta.
    rewrite (nmul_comm (Math.hypot _ _) (Math.hypot _ _)).
    rewrite (nmul_comm (a.(x) [-] b.(x)) (c.(x) [-] b.(x))).
    rewrite (nmul_comm (a.(y) [-] b.(y)) (c.(y) [-] b.(y))).
    reflexivity.
  - unfold calculateAngle3D. cbn zeta.
    rewrite (nmul_comm (Math.sqrt _) (Math.sqrt _)).
    rewrite (nmul_comm (a.(x) [-] b.(x)) (c.(x) [-] b.(x))).
    rewrite (nmul_comm (a.(y) [-] b.(y)) (c.(y) [-] b.(y))).
    rewrite (nmul_comm (a.(z) [-] b.(z)) (c.(z) [-] b.(z))).
    reflexivity.
Qed.

Lemma calculateAngle3D_Num (ax ay az bx by_ bz cx cy cz : R) (va vb vc : number) :
  calculateAngle3D (mkPoint (Num ax) (Num ay) (Num az) va)
    (mkPoint (Num bx) (Num by_) (Num bz) vb) (mkPoint (Num cx) (Num cy) (Num cz) vc)
  = Num (acos (Rmax (-1) (Rmin 1
           (((ax - bx) * (cx - bx) + (ay - by_) * (cy - by_) + (az - bz) * (cz - bz))
            / Rmax 1e-9
                (sqrt ((ax - bx) * (ax - bx) + (ay - by_) * (ay - by_) + (az - bz) * (az - bz))
                 * sqrt ((cx - bx) * (cx - bx) + (cy - by_) * (cy - by_)
                         + (cz - bz) * (cz - bz))))))
         * 180 / PI).
Proof.
  unfold calculateAngle3D.
  cbn [x y z nsub nadd nmul lift2 Math.sqrt].
  rewrite !Rltb_false by apply sum_squares_nonneg.
  cbn [nmul lift2 Math.max].
  rewrite ndiv_Num by apply floored_den_nonzero.
  cbn [Math.min Math.max lift2 Math.acos].
  set (q := Rmax (-1) (Rmin 1 _)).
  assert (Hq : -1 <= q <= 1).
  { unfold q. split; [apply Rmax_l | apply Rmax_lub; [lra | apply Rmin_l]]. }
  rewrite (Rleb_true (-1) q), (Rleb_true q 1) by lra.
  cbn [andb nmul lift2]. unfold Math.PI.
  pose proof PI_RGT_0. now rewrite ndiv_Num by lra.
Qed.

Lemma clamp_zero_quotient (d : R) :
  acos (Rmax (-1) (Rmin 1 (0 / d))) * 180 / PI = 90.
Proof.
  unfold Rdiv at 2. rewrite Rmult_0_l.
  rewrite Rmin_right by lra. rewrite Rmax_right by lra.
  apply degrees_of_acos_0.
Qed.

Lemma cauchy_schwarz_2 (u1 u2 v1 v2 : R) :
  Rabs (u1 * v1 + u2 * v2) <= sqrt (u1 * u1 + u2 * u2) * sqrt (v1 * v1 + v2 * v2).
Proof.
  rewrite <- sqrt_mult by nra.
  rewrite <- sqrt_Rsqr_abs. apply sqrt_le_1_alt.
  pose proof (Rle_0_sqr (u1 * v2 - u2 * v1)) as H. unfold Rsqr in *. lra.
Qed.

(** In exact arithmetic, above the floor of the denominator, the result is
    the angle between the two vectors. *)
Lemma calculateAngle2D_exact_angle (ax ay bx by_ cx cy : R) (za zb zc va vb vc : number) :
  let lengths := sqrt ((ax - bx) * (ax - bx) + (ay - by_) * (ay - by_))
                 * sqrt ((cx - bx) * (cx - bx) + (cy - by_) * (cy - by_)) in
  1e-9 <= lengths ->
  exists r,
    calculateAngle2D (mkPoint (Num ax) (Num ay) za va) (mkPoint (Num bx) (Num by_) zb vb)
      (mkPoint (Num cx) (Num cy) zc vc) = Num r
    /\ 0 <= r <= 180
    /\ cos (r * PI / 180) * lengths = (ax - bx) * (cx - bx) + (ay - by_) * (cy - by_).
Proof.
  intros lengths Hfloor. rewrite calculateAngle2D_Num. fold lengths.
  pose proof (cauchy_schwarz_2 (ax - bx) (ay - by_) (cx - bx) (cy - by_)) as Hcs.
  fold lengths in Hcs.
  set (dot := (ax - bx) * (cx - bx) + (ay - by_) * (cy - by_)) in *.
  rewrite (Rmax_right _ lengths) by exact Hfloor.
  assert (Hq : -1 <= dot / lengths <= 1).
  { assert (Hd : - lengths <= dot <= lengths)
      by (unfold Rabs in Hcs; destruct (Rcase_abs dot); lra).
    split; apply (Rmult_le_reg_r lengths); try lra;
      unfold Rdiv; rewrite Rmult_assoc, Rinv_l by lra; lra. }
  rewrite Rmin_right by lra. rewrite Rmax_right by lra.
  pose proof PI_RGT_0 as Hpi.
  pose proof (acos_bound (dot / lengths)) as [H0 H1].
  eexists. split; [reflexivity |]. split.
  - split.
    + apply Rmult_le_pos; [nra | left; now apply Rinv_0_lt_compat].
    + apply (Rmult_le_reg_r PI); [exact Hpi |].
      unfold Rdiv. rewrite Rmult_assoc, Rinv_l by lra. nra.
  - replace (acos (dot / lengths) * 180 / PI * PI / 180) with (acos (dot / lengths))
      by (field; lra).
    rewrite cos_acos by exact Hq. field. lra.
Qed.

Lemma lowerAscii_r (c : ascii) :
  Ascii.eqb (lowerAscii c) "r" = (Ascii.eqb c "r" || Ascii.eqb c "R").
Proof. destruct c as [[] [] [] [] [] [] [] []]; reflexivity. Qed.

(** X4. The requested side is "right" exactly when the side string begins
    with r or R; every other string, the empty one included, selects the
    left side. *)
Theorem side_is_right_iff_first_letter_r (side : string) :
  startsWith (toLowerCase side) "r" =
  match side with
  | String c _ => Ascii.eqb c "r" || Ascii.eqb c "R"
  | EmptyString => false
  end.
Proof.
  destruct side as [| c rest]; [reflexivity |].
  unfold startsWith. cbn [toLowerCase String.prefix].
  rewrite <- lowerAscii_r.
  destruct (Ascii.eqb_spec (lowerAscii c) "r") as [-> | Hne].
  - cbn. destruct (toLowerCase rest); reflexivity.
  - destruct (ascii_dec "r" (lowerAscii c)) as [E | E]; [congruence |].
    cbn. destruct (ascii_dec "r" (lowerAscii c)); [congruence | reflexivity].
Qed.

(* ================================================================== *)
(** ** PushupCounter: side selection and warnings *)
(* ================================================================== *)

Lemma pushup_measure_sides (this : PushupCounter.t) l w h side :
  let f := PushupCounter.measure this l w h side in
  let ok := pushupArmOK this l w h in
  let lok := pushupLegOK this l w h in
  let mv := this.(PushupCounter.minVisibility) in
  (isVisible f.(PushupCounter.sh) mv && isVisible f.(PushupCounter.el) mv
   && isVisible f.(PushupCounter.wr) mv) = (ok true || ok false) /\
  f.(PushupCounter.legsVisible) = (lok true || lok false) /\
  (lok true || lok false = false -> f.(PushupCounter.f_kneeAngle) = NaN) /\
  (lok true || lok false = true ->
     exists s, lok s = true /\ f.(PushupCounter.f_kneeAngle) = kneeAngleOf l w h s).
Proof.
  cbn zeta. unfold PushupCounter.measure, pushupArmOK, pushupLegOK, kneeAngleOf.
  destruct (startsWith (toLowerCase side) "r");
    cbn -[isVisible toPoint calculateAngle2D at_index];
    set (mv := PushupCounter.minVisibility this);
    destruct (isVisible (toPoint (at_index l POSE_LANDMARKS.RIGHT_SHOULDER) w h) mv
              && isVisible (toPoint (at_index l POSE_LANDMARKS.RIGHT_ELBOW) w h) mv
              && isVisible (toPoint (at_index l POSE_LANDMARKS.RIGHT_WRIST) w h) mv) eqn:EaR;
    destruct (isVisible (toPoint (at_index l POSE_LANDMARKS.LEFT_SHOULDER) w h) mv
              && isVisible (toPoint (at_index l POSE_LANDMARKS.LEFT_ELBOW) w h) mv
              && isVisible (toPoint (at_index l POSE_LANDMARKS.LEFT_WRIST) w h) mv) eqn:EaL;
    destruct (isVisible (toPoint (at_index l POSE_LANDMARKS.RIGHT_HIP) w h) mv
              && isVisible (toPoint (at_index l POSE_LANDMARKS.RIGHT_KNEE) w h) mv
              && isVisible (toPoint (at_index l POSE_LANDMARKS.RIGHT_ANKLE) w h) mv) eqn:ElR;
    destruct (isVisible (toPoint (at_index l POSE_LANDMARKS.LEFT_HIP) w h) mv
              && isVisible (toPoint (at_index l POSE_LANDMARKS.LEFT_KNEE) w h) mv
              && isVisible (toPoint (at_index l POSE_LANDMARKS.LEFT_ANKLE) w h) mv) eqn:ElL;
    cbn -[isVisible toPoint calculateAngle2D at_index];
    rewrite ?EaR, ?EaL;
    (split; [reflexivity | split; [reflexivity | split]]);
    intros Hx; try discriminate Hx; try reflexivity;
    first [ exists true; split;
            [cbn -[isVisible toPoint calculateAngle2D at_index]; exact ElR | reflexivity]
          | exists false; split;
            [cbn -[isVisible toPoint calculateAngle2D at_index]; exact ElL | reflexivity] ].
Qed.

Lemma pushup_update_formWarning (this : PushupCounter.t) l w h side :
  (33 <= List.length l)%nat ->
  let f := PushupCounter.measure this l w h side in
  let this2 := PushupCounter.stateMachine
                 (PushupCounter.set_angles this f.(PushupCounter.f_elbowAngle)
                    f.(PushupCounter.f_kneeAngle)) f.(PushupCounter.legsExtended) in
  (PushupCounter.update this l w h side).(PushupCounter.formWarning)
  = PushupCounter.feedback this2 f /\
  this2.(PushupCounter.minVisibility) = this.(PushupCounter.minVisibility).
Proof.
  intros Hfull. cbn zeta. rewrite pushup_update_full by exact Hfull. cbn zeta.
  split; [reflexivity |].
  unfold PushupCounter.stateMachine.
  destruct (PushupCounter.state _);
    repeat match goal with |- context [if ?b then _ else _] => destruct b end;
    reflexivity.
Qed.

(** X5. On a processed frame the push-up counter warns "Arm not clearly
    visible" exactly when neither arm has shoulder, elbow and wrist all
    visible: if either arm qualifies, an arm that qualifies is measured. *)
Theorem pushup_arm_warning_iff_no_arm_visible (this : PushupCounter.t) l w h side :
  (33 <= List.length l)%nat ->
  ((PushupCounter.update this l w h side).(PushupCounter.formWarning)
   = "Arm not clearly visible"
   <-> pushupArmOK this l w h true = false /\ pushupArmOK this l w h false = false).
Proof.
  intros Hfull.
  destruct (pushup_update_formWarning this l w h side Hfull) as [-> Hmv].
  destruct (pushup_measure_sides this l w h side) as (Harm & _).
  cbn zeta in *. unfold PushupCounter.feedback. rewrite Hmv, Harm.
  destruct (pushupArmOK this l w h true), (pushupArmOK this l w h false);
    cbn [orb negb];
    (split; [| intros [Ha Hb]; first [discriminate Ha | discriminate Hb | reflexivity]]);
    try (intros _; split; reflexivity);
    repeat match goal with
      | |- context [if ?b then _ else _] => destruct b
      end; intros Hw; discriminate Hw.
Qed.

Lemma pushup_arm_warning_iff_no_arm_visible_witness :
  (33 <= List.length pushupTop)%nat /\
  ((PushupCounter.update PushupCounter.default pushupTop (Num 640) (Num 480) "right")
     .(PushupCounter.formWarning) = "Arm not clearly visible"
   <-> pushupArmOK PushupCounter.default pushupTop (Num 640) (Num 480) true = false /\
       pushupArmOK PushupCounter.default pushupTop (Num 640) (Num 480) false = false).
Proof.
  assert (Hlen : (33 <= List.length pushupTop)%nat) by (cbn; lia).
  split; [exact Hlen |].
  apply (pushup_arm_warning_iff_no_arm_visible PushupCounter.default pushupTop
           (Num 640) (Num 480) "right" Hlen).
Defined.

(** X6. On a processed frame, when neither leg has hip, knee and ankle all
    visible the knee angle is NaN and the legs do not count as extended, so an
    unarmed machine stays unarmed; otherwise the knee angle stored is that of
    a leg whose three landmarks are all visible. *)
Theorem pushup_knee_angle_from_a_visible_leg (this : PushupCounter.t) l w h side :
  (33 <= List.length l)%nat ->
  let this' := PushupCounter.update this l w h side in
  let lok := pushupLegOK this l w h in
  (lok true = false /\ lok false = false ->
     this'.(PushupCounter.kneeAngle) = NaN /\
     (PushupCounter.measure this l w h side).(PushupCounter.legsExtended) = false /\
     (this.(PushupCounter.state) = PushupCounter.UNARMED ->
      this'.(PushupCounter.state) = PushupCounter.UNARMED)) /\
  (lok true = true \/ lok false = true ->
     exists s, lok s = true /\ this'.(PushupCounter.kneeAngle) = kneeAngleOf l w h s).
Proof.
  intros Hfull. cbn zeta.
  destruct (pushup_measure_sides this l w h side) as (_ & Hvis & Hnone & Hsome).
  cbn zeta in *.
  assert (Hknee : (PushupCounter.update this l w h side).(PushupCounter.kneeAngle)
                  = (PushupCounter.measure this l w h side).(PushupCounter.f_kneeAngle)).
  { rewrite pushup_update_full by exact Hfull. cbn zeta.
    unfold PushupCounter.stateMachine.
    cbn [PushupCounter.set_formWarning PushupCounter.kneeAngle].
    destruct (PushupCounter.state _);
      repeat match goal with |- context [if ?b then _ else _] => destruct b end;
      reflexivity. }
  split.
  - intros [HR HL]. rewrite Hknee.
    assert (Hor : pushupLegOK this l w h true || pushupLegOK this l w h false = false)
      by (rewrite HR, HL; reflexivity).
    assert (Hle : (PushupCounter.measure this l w h side).(PushupCounter.legsExtended) = false).
    { change ((PushupCounter.measure this l w h side).(PushupCounter.legsExtended))
        with ((PushupCounter.measure this l w h side).(PushupCounter.legsVisible)
              && negb (isNaN (PushupCounter.measure this l w h side).(PushupCounter.f_kneeAngle))
              && ((PushupCounter.measure this l w h side).(PushupCounter.f_kneeAngle)
                  [>=] this.(PushupCounter.legExtendedThresh))).
      rewrite Hvis, Hor. reflexivity. }
    split; [now apply Hnone | split; [exact Hle |]].
    intros Hun.
    destruct (pushup_update_machine this l w h side Hfull) as (_ & _ & _ & Hst).
    cbn zeta in Hst. rewrite Hst, Hun, Hle, andb_false_r. reflexivity.
  - intros Hany. rewrite Hknee. apply Hsome.
    destruct Hany as [-> | ->]; [reflexivity | apply orb_true_r].
Qed.

Lemma pushup_knee_angle_from_a_visible_leg_witness :
  (33 <= List.length pushupTop)%nat /\
  exists s,
    pushupLegOK PushupCounter.default pushupTop (Num 640) (Num 480) s = true /\
    (PushupCounter.update PushupCounter.default pushupTop (Num 640) (Num 480) "right")
      .(PushupCounter.kneeAngle) = kneeAngleOf pushupTop (Num 640) (Num 480) s.
Proof.
  assert (Hlen : (33 <= List.length pushupTop)%nat) by (cbn; lia).
  split; [exact Hlen |].
  apply (pushup_knee_angle_from_a_visible_leg PushupCounter.default pushupTop
           (Num 640) (Num 480) "right" Hlen).
  left. reflexivity.
Defined.

(* ================================================================== *)
(** ** The two rep machines: edges, pace and qualification *)
(* ================================================================== *)

Lemma pushup_update_fsm (this : PushupCounter.t) l w h side :
  (33 <= List.length l)%nat ->
  let f := PushupCounter.measure this l w h side in
  let this1 := PushupCounter.set_angles this f.(PushupCounter.f_elbowAngle)
                 f.(PushupCounter.f_kneeAngle) in
  let this2 := PushupCounter.stateMachine this1 f.(PushupCounter.legsExtended) in
  let this' := PushupCounter.update this l w h side in
  this'.(PushupCounter.state) = this2.(PushupCounter.state) /\
  this'.(PushupCounter.count) = this2.(PushupCounter.count) /\
  this'.(PushupCounter.legsQualified) = this2.(PushupCounter.legsQualified) /\
  this'.(PushupCounter.minVisibility) = this.(PushupCounter.minVisibility) /\
  this'.(PushupCounter.legExtendedThresh) = this.(PushupCounter.legExtendedThresh) /\
  this'.(PushupCounter.upThresh) = this.(PushupCounter.upThresh) /\
  this'.(PushupCounter.downThresh) = this.(PushupCounter.downThresh).
Proof.
  intros Hfull. cbn zeta. rewrite pushup_update_full by exact Hfull. cbn zeta.
  cbn [PushupCounter.set_formWarning PushupCounter.state PushupCounter.count
       PushupCounter.legsQualified PushupCounter.minVisibility
       PushupCounter.legExtendedThresh PushupCounter.upThresh PushupCounter.downThresh].
  unfold PushupCounter.stateMachine.
  destruct (PushupCounter.state (PushupCounter.set_angles this _ _));
    repeat match goal with |- context [if ?b then _ else _] => destruct b end;
    repeat split; reflexivity.
Qed.

Lemma pushup_edges (this : PushupCounter.t) l w h side :
  let this' := PushupCounter.update this l w h side in
  let s := this.(PushupCounter.state) in
  let s' := this'.(PushupCounter.state) in
  let n := this.(PushupCounter.count) in
  let n' := this'.(PushupCounter.count) in
  (s' = s /\ n' = n) \/
  (s = PushupCounter.UNARMED /\ s' = PushupCounter.UP /\ n' = n) \/
  (s = PushupCounter.UP /\ s' = PushupCounter.DOWN /\ n' = n) \/
  (s = PushupCounter.DOWN /\ s' = PushupCounter.UP /\ n' = (n + 1)%Z).
Proof.
  cbn zeta.
  destruct (Nat.lt_ge_cases (List.length l) 33) as [Hs | Hf].
  { rewrite pushup_update_short by exact Hs. now left. }
  destruct (pushup_update_fsm this l w h side Hf) as (-> & -> & _).
  unfold PushupCounter.stateMachine.
  cbn [PushupCounter.set_angles PushupCounter.state PushupCounter.count].
  destruct (PushupCounter.state this) eqn:Hst;
    repeat match goal with |- context [if ?b then _ else _] => destruct b end;
    cbn [PushupCounter.set_fsm PushupCounter.state PushupCounter.count]; rewrite ?Hst; tauto.
Qed.

Lemma squat_update_fsm (this : SquatCounter.t) l w h side :
  let m := SquatCounter.computeMetrics this l w h side in
  let this1 := SquatCounter.set_smoothed this
                 (SquatCounter.ema this this.(SquatCounter.kneeEma) m.(SquatCounter.m_kneeAngle))
                 (SquatCounter.ema this this.(SquatCounter.hipEma) m.(SquatCounter.m_hipAngle)) in
  let this2 := SquatCounter.stateMachine this1 (SquatCounter.smoothed this1 m) in
  let this' := SquatCounter.update this l w h side in
  this'.(SquatCounter.state) = this2.(SquatCounter.state) /\
  this'.(SquatCounter.count) = this2.(SquatCounter.count) /\
  this'.(SquatCounter.visibilityQualified) = this2.(SquatCounter.visibilityQualified) /\
  this'.(SquatCounter.kneeAngle) = this1.(SquatCounter.kneeAngle) /\
  this'.(SquatCounter.kneeEma) = this1.(SquatCounter.kneeEma) /\
  this'.(SquatCounter.hipAngle) = this1.(SquatCounter.hipAngle) /\
  this'.(SquatCounter.hipEma) = this1.(SquatCounter.hipEma) /\
  this'.(SquatCounter.formWarning)
  = SquatCounter.warningFromMetrics this2 (SquatCounter.smoothed this1 m).
Proof.
  cbn zeta. unfold SquatCounter.update. cbn zeta.
  match goal with
  | |- context [SquatCounter.stateMachine ?s ?m] =>
      destruct (squat_stateMachine_angles s m) as (E1 & E2 & E3 & E4 & _)
  end.
  cbn zeta in *.
  cbn [SquatCounter.set_warnings SquatCounter.state SquatCounter.count
       SquatCounter.visibilityQualified SquatCounter.kneeAngle SquatCounter.kneeEma
       SquatCounter.hipAngle SquatCounter.hipEma SquatCounter.formWarning].
  rewrite E1, E2, E3, E4. repeat split; reflexivity.
Qed.

Lemma squat_edges (this : SquatCounter.t) l w h side :
  let this' := SquatCounter.update this l w h side in
  let s := this.(SquatCounter.state) in
  let s' := this'.(SquatCounter.state) in
  let n := this.(SquatCounter.count) in
  let n' := this'.(SquatCounter.count) in
  (s' = s /\ n' = n) \/
  (s = SquatCounter.UNARMED /\ s' = SquatCounter.UP /\ n' = n) \/
  (s = SquatCounter.UP /\ s' = SquatCounter.DOWN /\ n' = n) \/
  (s = SquatCounter.DOWN /\ s' = SquatCounter.UP /\ n' = (n + 1)%Z).
Proof.
  cbn zeta.
  destruct (squat_update_fsm this l w h side) as (-> & -> & _).
  unfold SquatCounter.stateMachine.
  cbn [SquatCounter.set_smoothed SquatCounter.state SquatCounter.count].
  destruct (SquatCounter.state this) eqn:Hst;
    repeat match goal with |- context [if ?b then _ else _] => destruct b end;
    cbn [SquatCounter.set_fsm SquatCounter.state SquatCounter.count
         SquatCounter.set_smoothed]; rewrite ?Hst; tauto.
Qed.

(** X7. One [update] of the push-up counter or of the squat counter either
    leaves state and count alone or follows exactly one of the edges
    UNARMED->UP, UP->DOWN, DOWN->UP, and the count moves (by exactly one) on
    DOWN->UP only; no update leads back to UNARMED. *)
Theorem rep_machines_follow_three_edges :
  (forall (this : PushupCounter.t) l w h side,
      let this' := PushupCounter.update this l w h side in
      let s := this.(PushupCounter.state) in
      let s' := this'.(PushupCounter.state) in
      let n := this.(PushupCounter.count) in
      let n' := this'.(PushupCounter.count) in
      ((s' = s /\ n' = n) \/
       (s = PushupCounter.UNARMED /\ s' = PushupCounter.UP /\ n' = n) \/
       (s = PushupCounter.UP /\ s' = PushupCounter.DOWN /\ n' = n) \/
       (s = PushupCounter.DOWN /\ s' = PushupCounter.UP /\ n' = (n + 1)%Z)) /\
      (s' = PushupCounter.UNARMED -> s = PushupCounter.UNARMED)) /\
  (forall (this : SquatCounter.t) l w h side,
      let this' := SquatCounter.update this l w h side in
      let s := this.(SquatCounter.state) in
      let s' := this'.(SquatCounter.state) in
      let n := this.(SquatCounter.count) in
      let n' := this'.(SquatCounter.count) in
      ((s' = s /\ n' = n) \/
       (s = SquatCounter.UNARMED /\ s' = SquatCounter.UP /\ n' = n) \/
       (s = SquatCounter.UP /\ s' = SquatCounter.DOWN /\ n' = n) \/
       (s = SquatCounter.DOWN /\ s' = SquatCounter.UP /\ n' = (n + 1)%Z)) /\
      (s' = SquatCounter.UNARMED -> s = SquatCounter.UNARMED)).
Proof.
  split; intros this l w h side; cbn zeta.
  - pose proof (pushup_edges this l w h side) as H. cbn zeta in H.
    split; [exact H |].
    intros Hun. rewrite Hun in H.
    destruct H as [[H _] | [(_ & H & _) | [(_ & H & _) | (_ & H & _)]]];
      congruence.
  - pose proof (squat_edges this l w h side) as H. cbn zeta in H.
    split; [exact H |].
    intros Hun. rewrite Hun in H.
    destruct H as [[H _] | [(_ & H & _) | [(_ & H & _) | (_ & H & _)]]];
      congruence.
Qed.

Lemma rep_machines_follow_three_edges_witness :
  PushupCounter.default.(PushupCounter.state) = PushupCounter.UNARMED /\
  SquatCounter.default.(SquatCounter.state) = SquatCounter.UNARMED.
Proof.
  split.
  - apply (proj2 (proj1 rep_machines_follow_three_edges PushupCounter.default []
                    (Num 640) (Num 480) "right")).
    reflexivity.
  - apply (proj2 (proj2 rep_machines_follow_three_edges SquatCounter.default []
                    (Num 640) (Num 480) "right")).
    reflexivity.
Defined.

Lemma pushup_progress_step (this : PushupCounter.t) (c : Call) :
  (pushupProgress (pushupStep this c) <= pushupProgress this + 1)%Z /\
  (this.(PushupCounter.state) = PushupCounter.UNARMED ->
   pushupProgress (pushupStep this c) = pushupProgress this).
Proof.
  unfold pushupProgress, pushupStep.
  pose proof (pushup_edges this c.(c_landmarks) c.(c_imageW) c.(c_imageH) c.(c_side)) as H.
  cbn zeta in H.
  destruct H as [[-> ->] | [(-> & -> & ->) | [(-> & -> & ->) | (-> & -> & ->)]]];
    split; intros; try discriminate; lia.
Qed.

Lemma squat_progress_step (this : SquatCounter.t) (c : Call) :
  (squatProgress (squatStep this c) <= squatProgress this + 1)%Z /\
  (this.(SquatCounter.state) = SquatCounter.UNARMED ->
   squatProgress (squatStep this c) = squatProgress this).
Proof.
  unfold squatProgress, squatStep.
  pose proof (squat_edges this c.(c_landmarks) c.(c_imageW) c.(c_imageH) c.(c_side)) as H.
  cbn zeta in H.
  destruct H as [[-> ->] | [(-> & -> & ->) | [(-> & -> & ->) | (-> & -> & ->)]]];
    split; intros; try discriminate; lia.
Qed.

Lemma pushup_progress_run (calls : list Call) : forall this : PushupCounter.t,
  (pushupProgress (pushupRun this calls) <= pushupProgress this + Z.of_nat (List.length calls))%Z.
Proof.
  induction calls as [| c calls IH]; intros this.
  - cbn. lia.
  - cbn [pushupRun fold_left List.length]. fold (pushupRun (pushupStep this c) calls).
    specialize (IH (pushupStep this c)).
    destruct (pushup_progress_step this c) as [H _]. lia.
Qed.

Lemma squat_progress_run (calls : list Call) : forall this : SquatCounter.t,
  (squatProgress (squatRun this calls) <= squatProgress this + Z.of_nat (List.length calls))%Z.
Proof.
  induction calls as [| c calls IH]; intros this.
  - cbn. lia.
  - cbn [squatRun fold_left List.length]. fold (squatRun (squatStep this c) calls).
    specialize (IH (squatStep this c)).
    destruct (squat_progress_step this c) as [H _]. lia.
Qed.

(** X8. Reps cannot be counted faster than one per two frames: after n
    updates of a counter that starts unarmed (as after construction or
    [reset]) the count has grown by at most (n - 1) / 2, for the push-up
    counter and for the squat counter. *)
Theorem at_least_two_frames_per_rep :
  (forall (this : PushupCounter.t) (calls : list Call),
      this.(PushupCounter.state) = PushupCounter.UNARMED ->
      (2 * ((pushupRun this calls).(PushupCounter.count) - this.(PushupCounter.count)) + 1
       <= Z.max 1 (Z.of_nat (List.length calls)))%Z) /\
  (forall (this : SquatCounter.t) (calls : list Call),
      this.(SquatCounter.state) = SquatCounter.UNARMED ->
      (2 * ((squatRun this calls).(SquatCounter.count) - this.(SquatCounter.count)) + 1
       <= Z.max 1 (Z.of_nat (List.length calls)))%Z).
Proof.
  split.
  - intros this calls. revert this.
    induction calls as [| c calls IH]; intros this Hun.
    + cbn [pushupRun fold_left List.length]. lia.
    + cbn [pushupRun fold_left List.length]. fold (pushupRun (pushupStep this c) calls).
      destruct (pushup_progress_step this c) as [_ Hsame]. specialize (Hsame Hun).
      pose proof (pushup_progress_run calls (pushupStep this c)) as Hrun.
      unfold pushupProgress in *. rewrite Hun in Hsame.
      destruct (PushupCounter.state (pushupRun (pushupStep this c) calls));
        destruct (PushupCounter.state (pushupStep this c)) eqn:Hst1; try lia.
      all: specialize (IH (pushupStep this c) Hst1); lia.
  - intros this calls. revert this.
    induction calls as [| c calls IH]; intros this Hun.
    + cbn [squatRun fold_left List.length]. lia.
    + cbn [squatRun fold_left List.length]. fold (squatRun (squatStep this c) calls).
      destruct (squat_progress_step this c) as [_ Hsame]. specialize (Hsame Hun).
      pose proof (squat_progress_run calls (squatStep this c)) as Hrun.
      unfold squatProgress in *. rewrite Hun in Hsame.
      destruct (SquatCounter.state (squatRun (squatStep this c) calls));
        destruct (SquatCounter.state (squatStep this c)) eqn:Hst1; try lia.
      all: specialize (IH (squatStep this c) Hst1); lia.
Qed.

Lemma at_least_two_frames_per_rep_witness :
  PushupCounter.default.(PushupCounter.state) = PushupCounter.UNARMED /\
  (2 * ((pushupRun PushupCounter.default [squatCall pushupTop; squatCall pushupBottom])
          .(PushupCounter.count) - PushupCounter.default.(PushupCounter.count)) + 1
   <= Z.max 1 (Z.of_nat (List.length [squatCall pushupTop; squatCall pushupBottom])))%Z.
Proof.
  split; [reflexivity |].
  apply (proj1 at_least_two_frames_per_rep PushupCounter.default
           [squatCall pushupTop; squatCall pushupBottom] eq_refl).
Defined.

Lemma pushup_measure_config (a b : PushupCounter.t) l w h side :
  a.(PushupCounter.minVisibility) = b.(PushupCounter.minVisibility) ->
  a.(PushupCounter.legExtendedThresh) = b.(PushupCounter.legExtendedThresh) ->
  PushupCounter.measure a l w h side = PushupCounter.measure b l w h side.
Proof.
  intros Hv Ht. unfold PushupCounter.measure. now rewrite Hv, Ht.
Qed.

Lemma pushup_step_without_extended_legs (this : PushupCounter.t) (c : Call) :
  (this.(PushupCounter.state) = PushupCounter.DOWN ->
   this.(PushupCounter.legsQualified) = false) ->
  legsNotExtendedIn this c ->
  let this' := pushupStep this c in
  this'.(PushupCounter.count) = this.(PushupCounter.count) /\
  (this'.(PushupCounter.state) = PushupCounter.DOWN ->
   this'.(PushupCounter.legsQualified) = false) /\
  (this.(PushupCounter.state) = PushupCounter.UNARMED ->
   this'.(PushupCounter.state) = PushupCounter.UNARMED) /\
  this'.(PushupCounter.minVisibility) = this.(PushupCounter.minVisibility) /\
  this'.(PushupCounter.legExtendedThresh) = this.(PushupCounter.legExtendedThresh).
Proof.
  intros Hinv Hleg. cbn zeta. unfold pushupStep, legsNotExtendedIn in *.
  destruct (Nat.lt_ge_cases (List.length c.(c_landmarks)) 33) as [Hs | Hf].
  { rewrite pushup_update_short by exact Hs. tauto. }
  destruct (pushup_update_fsm this _ (c_imageW c) (c_imageH c) (c_side c) Hf)
    as (-> & -> & -> & -> & -> & _).
  rewrite Hleg. unfold PushupCounter.stateMachine.
  cbn [PushupCounter.set_angles PushupCounter.state PushupCounter.count
       PushupCounter.legsQualified PushupCounter.elbowAngle PushupCounter.upThresh
       PushupCounter.downThresh].
  destruct (PushupCounter.state this) eqn:Hst.
  - rewrite andb_false_r.
    cbn [PushupCounter.set_fsm PushupCounter.state PushupCounter.count
         PushupCounter.legsQualified]. repeat split; congruence.
  - destruct (_ [<=] _);
      cbn [PushupCounter.set_fsm PushupCounter.set_angles PushupCounter.state
           PushupCounter.count PushupCounter.legsQualified];
      repeat split; congruence.
  - rewrite (Hinv eq_refl). cbn [orb]. rewrite andb_false_r.
    cbn [PushupCounter.set_fsm PushupCounter.state PushupCounter.count
         PushupCounter.legsQualified]. repeat split; congruence.
Qed.

(** X9. Legs are a precondition of every push-up rep: from a counter that is
    not holding an already qualified descent (in particular from a new or
    reset counter), a sequence of frames in none of which the legs are
    extended (knee angle missing or below [legExtendedThresh]) leaves the
    count where it was, whatever the arms do; a counter that starts unarmed
    does not even arm. *)
Theorem pushup_no_rep_without_extended_legs (calls : list Call) :
  forall this : PushupCounter.t,
  (this.(PushupCounter.state) = PushupCounter.DOWN ->
   this.(PushupCounter.legsQualified) = false) ->
  Forall (legsNotExtendedIn this) calls ->
  (pushupRun this calls).(PushupCounter.count) = this.(PushupCounter.count) /\
  (this.(PushupCounter.state) = PushupCounter.UNARMED ->
   (pushupRun this calls).(PushupCounter.state) = PushupCounter.UNARMED).
Proof.
  induction calls as [| c calls IH]; intros this Hinv Hall.
  - cbn [pushupRun fold_left]. tauto.
  - cbn [pushupRun fold_left]. fold (pushupRun (pushupStep this c) calls).
    inversion Hall as [| ? ? Hc Hrest]; subst.
    destruct (pushup_step_without_extended_legs this c Hinv Hc)
      as (Hcnt & Hinv' & Hun & Hv & Ht).
    assert (Hrest' : Forall (legsNotExtendedIn (pushupStep this c)) calls).
    { eapply Forall_impl; [| exact Hrest]. intros d Hd.
      unfold legsNotExtendedIn in *.
      rewrite (pushup_measure_config (pushupStep this c) this) by assumption.
      exact Hd. }
    destruct (IH (pushupStep this c) Hinv' Hrest') as [IHc IHs].
    split; [congruence |]. intros H0. apply IHs, Hun, H0.
Qed.

Lemma squatDeep_legs_not_extended :
  legsNotExtendedIn PushupCounter.default (squatCall squatDeep).
Proof.
  unfold legsNotExtendedIn, squatCall, squatDeep.
  cbn [c_landmarks c_imageW c_imageH c_side].
  destruct (pushup_measure_pose PushupCounter.default 0.5 0.4 0 0 0 0 0.5 0.8 0.5 0.7 0.5 0.9
              640 480) as (_ & _ & Hl).
  cbn zeta in Hl. change (lm 0 0) with origin in Hl. rewrite Hl.
  rewrite angle2D_folded by lra.
  cbn [isNaN negb andb nge nle PushupCounter.default PushupCounter.new
       PushupCounter.legExtendedThresh]. apply Rleb_false. lra.
Qed.

Lemma pushup_no_rep_without_extended_legs_witness :
  (pushupRun PushupCounter.default [squatCall squatDeep; squatCall squatDeep])
    .(PushupCounter.count) = 0%Z /\
  (pushupRun PushupCounter.default [squatCall squatDeep; squatCall squatDeep])
    .(PushupCounter.state) = PushupCounter.UNARMED.
Proof.
  destruct (pushup_no_rep_without_extended_legs
              [squatCall squatDeep; squatCall squatDeep] PushupCounter.default)
    as [Hc Hs].
  - discriminate.
  - repeat constructor; exact squatDeep_legs_not_extended.
  - split; [exact Hc | exact (Hs eq_refl)].
Defined.

Lemma squat_legsVisible_sides (this : SquatCounter.t) l w h side :
  (SquatCounter.computeMetrics this l w h side).(SquatCounter.legsVisible)
  = negb (List.length l <? 33)%nat
    && (squatLegOK this l w h true || squatLegOK this l w h false).
Proof.
  unfold SquatCounter.computeMetrics, squatLegOK.
  destruct (List.length l <? 33)%nat; [reflexivity |].
  destruct (startsWith (toLowerCase side) "r");
    cbn -[isVisible toPoint calculateAngle2D at_index Math.max Math.hypot Math.abs];
    set (mv := SquatCounter.minVisibility this);
    destruct (isVisible (toPoint (at_index l POSE_LANDMARKS.RIGHT_SHOULDER) w h) mv
              && isVisible (toPoint (at_index l POSE_LANDMARKS.RIGHT_HIP) w h) mv
              && isVisible (toPoint (at_index l POSE_LANDMARKS.RIGHT_KNEE) w h) mv
              && isVisible (toPoint (at_index l POSE_LANDMARKS.RIGHT_ANKLE) w h) mv) eqn:ER;
    destruct (isVisible (toPoint (at_index l POSE_LANDMARKS.LEFT_SHOULDER) w h) mv
              && isVisible (toPoint (at_index l POSE_LANDMARKS.LEFT_HIP) w h) mv
              && isVisible (toPoint (at_index l POSE_LANDMARKS.LEFT_KNEE) w h) mv
              && isVisible (toPoint (at_index l POSE_LANDMARKS.LEFT_ANKLE) w h) mv) eqn:EL;
    cbn -[isVisible toPoint calculateAngle2D at_index Math.max Math.hypot Math.abs];
    rewrite ?ER, ?EL; reflexivity.
Qed.

Lemma squat_step_stuck (this : SquatCounter.t) (c : Call) :
  this.(SquatCounter.state) = SquatCounter.DOWN ->
  this.(SquatCounter.visibilityQualified) = false ->
  let this' := squatStep this c in
  this'.(SquatCounter.state) = SquatCounter.DOWN /\
  this'.(SquatCounter.visibilityQualified) = false /\
  this'.(SquatCounter.count) = this.(SquatCounter.count).
Proof.
  intros Hst Hvq. cbn zeta. unfold squatStep.
  destruct (squat_update_fsm this (c_landmarks c) (c_imageW c) (c_imageH c) (c_side c))
    as (-> & -> & -> & _).
  unfold SquatCounter.stateMachine.
  cbn [SquatCounter.set_smoothed SquatCounter.state SquatCounter.count
       SquatCounter.visibilityQualified].
  rewrite Hst, Hvq. cbn [andb]. rewrite andb_false_r.
  cbn [SquatCounter.set_fsm SquatCounter.state SquatCounter.count
       SquatCounter.visibilityQualified]. repeat split; reflexivity.
Qed.

Lemma squat_run_stuck (calls : list Call) : forall this : SquatCounter.t,
  this.(SquatCounter.state) = SquatCounter.DOWN ->
  this.(SquatCounter.visibilityQualified) = false ->
  (squatRun this calls).(SquatCounter.state) = SquatCounter.DOWN /\
  (squatRun this calls).(SquatCounter.count) = this.(SquatCounter.count).
Proof.
  induction calls as [| c calls IH]; intros this Hst Hvq.
  - cbn [squatRun fold_left]. tauto.
  - cbn [squatRun fold_left]. fold (squatRun (squatStep this c) calls).
    destruct (squat_step_stuck this c Hst Hvq) as (Hst' & Hvq' & Hc).
    destruct (IH _ Hst' Hvq') as [H1 H2]. split; congruence.
Qed.

(** X10. The squat counter does not recover from a descent in which the legs
    were lost from view.  If, while the machine is in DOWN, one frame has no
    fully visible side (a frame of fewer than 33 landmarks is such a frame),
    then after that frame and after any further sequence of frames the
    machine is still in DOWN and the count has not moved: only [reset]
    leaves this state. *)
Theorem squat_descent_with_a_lost_frame_never_completes
        (this : SquatCounter.t) (c : Call) (calls : list Call) :
  this.(SquatCounter.state) = SquatCounter.DOWN ->
  ((List.length c.(c_landmarks) < 33)%nat \/
   (squatLegOK this c.(c_landmarks) c.(c_imageW) c.(c_imageH) true = false /\
    squatLegOK this c.(c_landmarks) c.(c_imageW) c.(c_imageH) false = false)) ->
  (squatRun this (c :: calls)).(SquatCounter.state) = SquatCounter.DOWN /\
  (squatRun this (c :: calls)).(SquatCounter.count) = this.(SquatCounter.count).
Proof.
  intros Hst Hlost.
  assert (Hlv : (SquatCounter.computeMetrics this (c_landmarks c) (c_imageW c)
                   (c_imageH c) (c_side c)).(SquatCounter.legsVisible) = false).
  { rewrite squat_legsVisible_sides.
    destruct Hlost as [Hs | [H1 H2]].
    - apply Nat.ltb_lt in Hs. now rewrite Hs.
    - rewrite H1, H2. apply andb_false_r. }
  cbn [squatRun fold_left]. fold (squatRun (squatStep this c) calls).
  assert (Hstep : (squatStep this c).(SquatCounter.state) = SquatCounter.DOWN /\
                  (squatStep this c).(SquatCounter.visibilityQualified) = false /\
                  (squatStep this c).(SquatCounter.count) = this.(SquatCounter.count)).
  { unfold squatStep.
    destruct (squat_update_fsm this (c_landmarks c) (c_imageW c) (c_imageH c) (c_side c))
      as (-> & -> & -> & _).
    unfold SquatCounter.stateMachine.
    cbn [SquatCounter.set_smoothed SquatCounter.state SquatCounter.count
         SquatCounter.visibilityQualified SquatCounter.smoothed SquatCounter.legsVisible
         SquatCounter.standing].
    rewrite Hst, Hlv. rewrite !andb_false_r.
    cbn [SquatCounter.set_fsm SquatCounter.state SquatCounter.count
         SquatCounter.visibilityQualified]. repeat split; reflexivity. }
  destruct Hstep as (Hst' & Hvq' & Hc).
  destruct (squat_run_stuck calls _ Hst' Hvq') as [H1 H2]. split; congruence.
Qed.

Lemma squat_descent_with_a_lost_frame_never_completes_witness :
  let this := squatAt SquatCounter.DOWN 0 NaN NaN true "" "" in
  let calls := [squatCall []; squatCall squatStanding; squatCall squatStanding] in
  (squatRun this calls).(SquatCounter.state) = SquatCounter.DOWN /\
  (squatRun this calls).(SquatCounter.count) = 0%Z.
Proof.
  apply (squat_descent_with_a_lost_frame_never_completes
           (squatAt SquatCounter.DOWN 0 NaN NaN true "" "") (squatCall [])
           [squatCall squatStanding; squatCall squatStanding]).
  - reflexivity.
  - left. cbn. lia.
Defined.

(** X13. The squat counter reports "Keep legs in frame" exactly for the
    frames in which no side has shoulder, hip, knee and ankle all visible:
    frames of fewer than 33 landmarks, and frames in which both the left and
    the right side fail the visibility test.  The preferred side plays no
    part. *)
Theorem squat_legs_warning_iff_no_side_visible (this : SquatCounter.t) l w h side :
  (SquatCounter.update this l w h side).(SquatCounter.formWarning) = "Keep legs in frame"
  <-> ((List.length l < 33)%nat \/
       (squatLegOK this l w h true = false /\ squatLegOK this l w h false = false)).
Proof.
  destruct (squat_update_fsm this l w h side) as (_ & _ & _ & _ & _ & _ & _ & ->).
  unfold SquatCounter.warningFromMetrics.
  cbn [SquatCounter.smoothed SquatCounter.legsVisible].
  rewrite squat_legsVisible_sides.
  destruct (Nat.ltb_spec (List.length l) 33) as [Hs | Hf]; cbn [negb andb].
  - split; [intros _; now left | reflexivity].
  - destruct (squatLegOK this l w h true), (squatLegOK this l w h false); cbn [orb negb].
    1-3: split; [| intros [? | [? ?]]; try discriminate; lia];
      repeat match goal with
             | |- context [if ?b then _ else _] => destruct b
             end; intros H; discriminate H.
    split; [intros _; right; split; reflexivity | reflexivity].
Qed.

(* ================================================================== *)
(** ** PlankEvaluator: warnings, scores and the hold clock *)
(* ================================================================== *)

Lemma plank_update_open_fields (this : PlankEvaluator.t) now l w h :
  (33 <= List.length l)%nat ->
  PlankEvaluator.criticalPointsVisible this l w h = true ->
  let a := PlankEvaluator.assess this l w h in
  let tm := PlankEvaluator.stateMachine this now a.(PlankEvaluator.a_stableEnough) in
  let this' := PlankEvaluator.update this now l w h in
  this'.(PlankEvaluator.formWarnings) = a.(PlankEvaluator.a_issues) /\
  this'.(PlankEvaluator.holdTime)
  = PlankEvaluator.holdTimeAt now tm.(PlankEvaluator.t_holdStartTime) /\
  this'.(PlankEvaluator.totalTime) = tm.(PlankEvaluator.t_totalTime) /\
  this'.(PlankEvaluator.lastUpdateTime) = now.
Proof.
  intros Hfull Hgate a tm this'. subst this'. unfold PlankEvaluator.update.
  apply Nat.ltb_ge in Hfull. rewrite Hfull, Hgate.
  cbn [negb]. repeat split; reflexivity.
Qed.

Lemma plank_update_closed_fields (this : PlankEvaluator.t) now l w h :
  (33 <= List.length l)%nat ->
  PlankEvaluator.criticalPointsVisible this l w h = false ->
  let this' := PlankEvaluator.update this now l w h in
  this'.(PlankEvaluator.formWarnings) = ["Keep at least one shoulder and knee visible"] /\
  this'.(PlankEvaluator.holdTime) = this.(PlankEvaluator.holdTime) /\
  this'.(PlankEvaluator.totalTime) = this.(PlankEvaluator.totalTime) /\
  this'.(PlankEvaluator.lastUpdateTime) = this.(PlankEvaluator.lastUpdateTime) /\
  this'.(PlankEvaluator.headScore) = this.(PlankEvaluator.headScore).
Proof.
  intros Hfull Hgate this'. subst this'. unfold PlankEvaluator.update.
  apply Nat.ltb_ge in Hfull. rewrite Hfull, Hgate. cbn.
  repeat split; reflexivity.
Qed.

Lemma assess_issues (this : PlankEvaluator.t) l w h :
  let a := PlankEvaluator.assess this l w h in
  let c := this.(PlankEvaluator.cfg) in
  a.(PlankEvaluator.a_issues)
  = (snd (PlankEvaluator.scoreHip c a.(PlankEvaluator.a_hipAngSmooth))
     ++ snd (PlankEvaluator.scoreHead c a.(PlankEvaluator.a_headAngSmooth))
     ++ snd (PlankEvaluator.scoreStack c a.(PlankEvaluator.a_stackShSmooth)
               a.(PlankEvaluator.a_stackHipSmooth))
     ++ snd (PlankEvaluator.scoreUnder c a.(PlankEvaluator.a_underSmooth))
     ++ snd (PlankEvaluator.scoreFeet c a.(PlankEvaluator.a_feetWSmooth)))%list.
Proof. reflexivity. Qed.

Ltac score_ifs :=
  repeat match goal with
         | |- context [if ?b then _ else _] => destruct b
         end.

Lemma reachable_warning (w : string) :
  existsb (String.eqb w) plankReachableWarnings = true -> In w plankReachableWarnings.
Proof.
  intros H. apply existsb_exists in H. destruct H as (x & Hin & Heq).
  apply String.eqb_eq in Heq. now subst.
Qed.

Ltac reachable := repeat constructor; apply reachable_warning; reflexivity.

Lemma scoreHip_default_above_180 (a : number) :
  unsetOrWithin 180 360 a ->
  Forall (fun w => In w plankReachableWarnings)
         (snd (PlankEvaluator.scoreHip PlankEvaluator.defaultConfig a)).
Proof.
  destruct a as [| r]; intros H; [constructor |].
  cbn in H. unfold PlankEvaluator.scoreHip.
  cbn [isNaN negb PlankEvaluator.defaultConfig PlankEvaluator.hipSagMax
       PlankEvaluator.hipOkRange PlankEvaluator.hipPikeMin fst snd nlt ngt].
  rewrite (Rltb_false r 150), (Rltb_false r 165) by lra.
  score_ifs; cbn [snd]; reachable.
Qed.

Lemma scoreHead_default_above_180 (a : number) :
  unsetOrWithin 180 360 a ->
  PlankEvaluator.scoreHead PlankEvaluator.defaultConfig a = (Num 1, []).
Proof.
  destruct a as [| r]; intros H; [reflexivity |].
  cbn in H. unfold PlankEvaluator.scoreHead.
  cbn [isNaN negb PlankEvaluator.defaultConfig PlankEvaluator.headOkRange fst snd nlt ngt
       nadd lift2].
  rewrite (Rltb_false r 155), (Rltb_false r (155 + 10)) by lra. reflexivity.
Qed.

Lemma score_rest_warnings (c : PlankEvaluator.Config) (s1 s2 u f : number) :
  Forall (fun w => In w plankReachableWarnings)
         (snd (PlankEvaluator.scoreStack c s1 s2)
          ++ snd (PlankEvaluator.scoreUnder c u) ++ snd (PlankEvaluator.scoreFeet c f))%list.
Proof.
  repeat (apply Forall_app; split).
  - unfold PlankEvaluator.scoreStack. score_ifs; cbn [snd]; reachable.
  - unfold PlankEvaluator.scoreUnder. score_ifs; cbn [snd]; reachable.
  - unfold PlankEvaluator.scoreFeet. score_ifs; cbn [snd]; reachable.
Qed.

Lemma plank_default_step (this : PlankEvaluator.t) (c : PlankCall) :
  this.(PlankEvaluator.cfg) = PlankEvaluator.defaultConfig ->
  plankAnglesWithin this ->
  Forall (fun w => In w plankReachableWarnings) this.(PlankEvaluator.formWarnings) ->
  this.(PlankEvaluator.headScore) = Num 1 ->
  let this' := plankStep this c in
  this'.(PlankEvaluator.cfg) = PlankEvaluator.defaultConfig /\
  plankAnglesWithin this' /\
  Forall (fun w => In w plankReachableWarnings) this'.(PlankEvaluator.formWarnings) /\
  this'.(PlankEvaluator.headScore) = Num 1.
Proof.
  intros Hcfg Hin Hw Hh. cbn zeta. unfold plankStep.
  pose proof (plank_update_within this (p_now c) (p_landmarks c) (p_imageW c) (p_imageH c) Hin)
    as Hin'.
  destruct (Nat.lt_ge_cases (List.length (p_landmarks c)) 33) as [Hs | Hf].
  { rewrite plank_update_short by exact Hs. tauto. }
  destruct (PlankEvaluator.criticalPointsVisible this (p_landmarks c) (p_imageW c) (p_imageH c))
    eqn:Hgate.
  - destruct (plank_update_gate_open this (p_now c) _ _ _ Hf Hgate)
      as (_ & _ & _ & _ & _ & _ & Ehead & _ & _ & _ & Ehip & Ehd & Ecfg).
    destruct (plank_update_open_fields this (p_now c) _ _ _ Hf Hgate) as (Ew & _).
    destruct Hin' as (_ & Hhip' & Hhead'). rewrite Ehip in Hhip'. rewrite Ehd in Hhead'.
    destruct (assess_scores this (p_landmarks c) (p_imageW c) (p_imageH c))
      as (_ & Esh & _).
    cbn zeta in *.
    split; [| split; [| split]].
    + congruence.
    + exact (plank_update_within this _ _ _ _ Hin).
    + pose proof (assess_issues this (p_landmarks c) (p_imageW c) (p_imageH c)) as Ei.
      cbn zeta in Ei. rewrite Ew, Ei, Hcfg.
      rewrite (scoreHead_default_above_180 _ Hhead'). cbn [snd app].
      apply Forall_app. split;
        [apply scoreHip_default_above_180; exact Hhip' | apply score_rest_warnings].
    + rewrite Ehead, Esh, Hcfg. now rewrite (scoreHead_default_above_180 _ Hhead').
  - destruct (plank_update_gate_closed this (p_now c) _ _ _ Hf Hgate)
      as (_ & _ & _ & _ & _ & _ & Ecfg).
    destruct (plank_update_closed_fields this (p_now c) _ _ _ Hf Hgate)
      as (Ew & _ & _ & _ & Ehead).
    cbn zeta in *. split; [| split; [| split]].
    + congruence.
    + exact (plank_update_within this _ _ _ _ Hin).
    + rewrite Ew. reachable.
    + congruence.
Qed.

(** X14. A plank evaluator with the default configuration never reports
    sagging hips or a dropping head.  Since [angle3] answers 360 minus the
    angle, the smoothed hip and head angles never fall below 180, so from
    the constructor (or [reset]) and through any sequence of updates every
    warning is one of the seven other messages - "Hips sagging too much",
    "Lift hips slightly" and "Look forward (head dropping)" are unreachable -
    and the head sub-score is always 1. *)
Theorem plank_default_never_reports_sagging_hips (t1 t2 : Z) (calls : list PlankCall) :
  let this := plankRun (PlankEvaluator.default t1 t2) calls in
  Forall (fun w => In w plankReachableWarnings) this.(PlankEvaluator.formWarnings) /\
  this.(PlankEvaluator.headScore) = Num 1.
Proof.
  cbn zeta.
  assert (Hgen : forall calls this,
             this.(PlankEvaluator.cfg) = PlankEvaluator.defaultConfig ->
             plankAnglesWithin this ->
             Forall (fun w => In w plankReachableWarnings) this.(PlankEvaluator.formWarnings) ->
             this.(PlankEvaluator.headScore) = Num 1 ->
             Forall (fun w => In w plankReachableWarnings)
                    (plankRun this calls).(PlankEvaluator.formWarnings) /\
             (plankRun this calls).(PlankEvaluator.headScore) = Num 1).
  { clear calls. induction calls as [| c calls IH]; intros this H1 H2 H3 H4.
    - cbn [plankRun fold_left]. tauto.
    - cbn [plankRun fold_left]. fold (plankRun (plankStep this c) calls).
      destruct (plank_default_step this c H1 H2 H3 H4) as (G1 & G2 & G3 & G4).
      apply IH; assumption. }
  apply Hgen.
  - reflexivity.
  - apply default_plank_angles_within.
  - constructor.
  - reflexivity.
Qed.

Lemma max_Num_ge (b v : R) : exists b', Math.max (Num b) (Num v) = Num b' /\ b <= b' /\ v <= b'.
Proof.
  exists (Rmax b v). split; [reflexivity |]. split; [apply Rmax_l | apply Rmax_r].
Qed.

Lemma plank_bestHold_step (this : PlankEvaluator.t) (c : PlankCall) (b : R) :
  this.(PlankEvaluator.bestHold) = Num b ->
  exists b', (plankStep this c).(PlankEvaluator.bestHold) = Num b' /\ b <= b' /\
             (plankProcessed c = true ->
              PlankEvaluator.criticalPointsVisible this c.(p_landmarks) c.(p_imageW)
                c.(p_imageH) = true ->
              exists v, (plankStep this c).(PlankEvaluator.holdTime) = Num v /\ v <= b').
Proof.
  intros Hb. unfold plankStep, plankProcessed.
  destruct (Nat.lt_ge_cases (List.length (p_landmarks c)) 33) as [Hs | Hf].
  { rewrite plank_update_short by exact Hs. exists b. split; [exact Hb |].
    split; [lra |]. apply Nat.ltb_lt in Hs. rewrite Hs. discriminate. }
  destruct (PlankEvaluator.criticalPointsVisible this (p_landmarks c) (p_imageW c) (p_imageH c))
    eqn:Hgate.
  - destruct (plank_update_gate_open this (p_now c) _ _ _ Hf Hgate)
      as (_ & _ & _ & Eb & _).
    destruct (plank_update_open_fields this (p_now c) _ _ _ Hf Hgate) as (_ & Eh & _).
    cbn zeta in *. rewrite Eb, Eh, Hb.
    destruct (holdTimeAt_Num (p_now c)
                (PlankEvaluator.t_holdStartTime
                   (PlankEvaluator.stateMachine this (p_now c)
                      (PlankEvaluator.a_stableEnough
                         (PlankEvaluator.assess this (p_landmarks c) (p_imageW c)
                            (p_imageH c)))))) as [v ->].
    destruct (max_Num_ge b v) as (b' & -> & H1 & H2).
    exists b'. split; [reflexivity |]. split; [exact H1 |].
    intros _ _. exists v. split; [reflexivity | exact H2].
  - destruct (plank_update_gate_closed this (p_now c) _ _ _ Hf Hgate)
      as (_ & _ & Eb & _).
    cbn zeta in *. rewrite Eb. exists b. split; [exact Hb |]. split; [lra |].
    intros _ H. discriminate H.
Qed.

(** X15. The best hold of a plank evaluator never decreases: through any
    sequence of updates it stays a number at least as large as before, and
    after every frame that passes the visibility gate it is at least the
    hold time of that frame. *)
Theorem plank_bestHold_never_decreases (calls : list PlankCall) :
  forall (this : PlankEvaluator.t) (b : R),
  this.(PlankEvaluator.bestHold) = Num b ->
  (exists b', (plankRun this calls).(PlankEvaluator.bestHold) = Num b' /\ b <= b') /\
  (forall c : PlankCall,
      plankProcessed c = true ->
      PlankEvaluator.criticalPointsVisible (plankRun this calls) c.(p_landmarks)
        c.(p_imageW) c.(p_imageH) = true ->
      exists v b', (plankRun this (calls ++ [c])).(PlankEvaluator.holdTime) = Num v /\
                   (plankRun this (calls ++ [c])).(PlankEvaluator.bestHold) = Num b' /\
                   v <= b').
Proof.
  assert (Hrun : forall calls this b,
             this.(PlankEvaluator.bestHold) = Num b ->
             exists b', (plankRun this calls).(PlankEvaluator.bestHold) = Num b' /\ b <= b').
  { clear calls. induction calls as [| c calls IH]; intros this b Hb.
    - exists b. split; [exact Hb | lra].
    - cbn [plankRun fold_left]. fold (plankRun (plankStep this c) calls).
      destruct (plank_bestHold_step this c b Hb) as (b1 & Hb1 & Hle & _).
      destruct (IH _ _ Hb1) as (b' & Hb' & Hle').
      exists b'. split; [exact Hb' | lra]. }
  intros this b Hb. split; [now apply Hrun |].
  intros c Hp Hg.
  destruct (Hrun calls this b Hb) as (b1 & Hb1 & _).
  unfold plankRun in *. rewrite fold_left_app. cbn [fold_left].
  destruct (plank_bestHold_step _ c b1 Hb1) as (b' & Hb' & _ & Hv).
  destruct (Hv Hp Hg) as (v & Ev & Hle).
  exists v, b'. repeat split; assumption.
Qed.

Lemma plank_bestHold_never_decreases_witness :
  exists b', (plankRun (PlankEvaluator.default 1 2) [plankCall 3 plankStraight])
               .(PlankEvaluator.bestHold) = Num b' /\ 0 <= b'.
Proof.
  apply (plank_bestHold_never_decreases [plankCall 3 plankStraight]
           (PlankEvaluator.default 1 2) 0).
  reflexivity.
Defined.




Lemma scoreHip_clean (c : PlankEvaluator.Config) (a : number) :
  snd (PlankEvaluator.scoreHip c a) = [] -> fst (PlankEvaluator.scoreHip c a) = Num 1.
Proof.
  unfold PlankEvaluator.scoreHip. score_ifs; cbn [fst snd]; intros H;
    first [discriminate H | reflexivity].
Qed.

Lemma scoreStack_clean (c : PlankEvaluator.Config) (a b : number) :
  snd (PlankEvaluator.scoreStack c a b) = [] -> fst (PlankEvaluator.scoreStack c a b) = Num 1.
Proof.
  unfold PlankEvaluator.scoreStack. score_ifs; cbn [fst snd]; intros H;
    first [discriminate H | reflexivity].
Qed.

Lemma scoreUnder_clean (c : PlankEvaluator.Config) (a : number) :
  snd (PlankEvaluator.scoreUnder c a) = [] -> fst (PlankEvaluator.scoreUnder c a) = Num 1.
Proof.
  unfold PlankEvaluator.scoreUnder. score_ifs; cbn [fst snd]; intros H;
    first [discriminate H | reflexivity].
Qed.

Lemma scoreFeet_clean (c : PlankEvaluator.Config) (a : number) :
  snd (PlankEvaluator.scoreFeet c a) = [] -> fst (PlankEvaluator.scoreFeet c a) = Num 1.
Proof.
  unfold PlankEvaluator.scoreFeet. score_ifs; cbn [fst snd]; intros H;
    first [discriminate H | reflexivity].
Qed.

Lemma scoreHead_clean_default (a : number) :
  snd (PlankEvaluator.scoreHead PlankEvaluator.defaultConfig a) = [] ->
  exists s, fst (PlankEvaluator.scoreHead PlankEvaluator.defaultConfig a) = Num s
            /\ 0.8 <= s <= 1.
Proof.
  destruct a as [| r].
  - intros _. exists 1. split; [reflexivity | lra].
  - unfold PlankEvaluator.scoreHead.
    cbn [isNaN negb PlankEvaluator.defaultConfig PlankEvaluator.headOkRange fst snd nlt ngt
         nadd nsub nmul lift2].
    unfold Rltb. destruct (Rlt_dec r 155) as [H1 | H1]; cbn [fst snd]; [discriminate |].
    intros _. destruct (Rlt_dec r (155 + 10)) as [H2 | H2]; cbn [fst].
    + rewrite ndiv_Num by lra. cbn [nmul nadd lift2].
      eexists. split; [reflexivity | lra].
    + exists 1. split; [reflexivity | lra].
Qed.

(** X17. With the default configuration, a frame that passes the visibility
    gate and raises no warning scores at least 97 out of 100: every
    sub-score is then 1, except the head score, which may lie between 0.8
    and 1 in the ten degrees above the lower head limit where no message is
    issued. *)
Theorem plank_no_warning_scores_at_least_97 (this : PlankEvaluator.t) (c : PlankCall) :
  this.(PlankEvaluator.cfg) = PlankEvaluator.defaultConfig ->
  plankProcessed c = true ->
  PlankEvaluator.criticalPointsVisible this c.(p_landmarks) c.(p_imageW) c.(p_imageH) = true ->
  (plankStep this c).(PlankEvaluator.formWarnings) = [] ->
  exists s, (plankStep this c).(PlankEvaluator.overallScore) = Num s /\ 97 <= s <= 100.
Proof.
  intros Hcfg Hp Hgate Hclean. unfold plankStep, plankProcessed in *.
  apply negb_true_iff, Nat.ltb_ge in Hp.
  destruct (plank_update_gate_open this (p_now c) _ _ _ Hp Hgate)
    as (_ & _ & _ & _ & Eo & _).
  destruct (plank_update_open_fields this (p_now c) _ _ _ Hp Hgate) as (Ew & _).
  cbn zeta in *. rewrite Ew in Hclean. rewrite Eo.
  pose proof (assess_issues this (p_landmarks c) (p_imageW c) (p_imageH c)) as Ei.
  pose proof (assess_overallScore this (p_landmarks c) (p_imageW c) (p_imageH c)) as Es.
  destruct (assess_scores this (p_landmarks c) (p_imageW c) (p_imageH c))
    as (E1 & E2 & E3 & E4 & E5).
  cbn zeta in *. rewrite Hclean in Ei. symmetry in Ei.
  apply app_eq_nil in Ei. destruct Ei as [N1 Ei].
  apply app_eq_nil in Ei. destruct Ei as [N2 Ei].
  apply app_eq_nil in Ei. destruct Ei as [N3 Ei].
  apply app_eq_nil in Ei. destruct Ei as [N4 N5].
  rewrite Es, E1, E2, E3, E4, E5, Hcfg. rewrite Hcfg in N1, N2, N3, N4, N5.
  rewrite (scoreHip_clean _ _ N1), (scoreStack_clean _ _ _ N3),
          (scoreUnder_clean _ _ N4), (scoreFeet_clean _ _ N5).
  destruct (scoreHead_clean_default _ N2) as (s & -> & Hs).
  rewrite overall_default. eexists. split; [reflexivity | lra].
Qed.

Lemma verticalMisalignDeg_stacked (px py qy pz : R) (va vb : number) :
  PlankEvaluator.verticalMisalignDeg (mkPoint (Num px) (Num py) (Num pz) va)
    (mkPoint (Num px) (Num qy) (Num pz) vb) = NaN.
Proof.
  unfold PlankEvaluator.verticalMisalignDeg.
  cbn [x y z nsub nadd nmul lift2 Math.sqrt Math.hypot].
  rewrite Rltb_false by apply sum_squares_nonneg.
  cbn [nlt]. destruct (Rltb _ 1e-6); [reflexivity |].
  rewrite hypot_zero by lra. rewrite Rltb_true by lra. reflexivity.
Qed.

Lemma sqrt_48 : sqrt ((0.5 * 480 - 0.6 * 480) * (0.5 * 480 - 0.6 * 480)) = 48.
Proof.
  replace ((0.5 * 480 - 0.6 * 480) * (0.5 * 480 - 0.6 * 480)) with (48 * 48) by lra.
  apply sqrt_square. lra.
Qed.

Lemma plankClean_no_warning (t1 t2 now : Z) :
  (plankStep (PlankEvaluator.default t1 t2) (plankCall now plankClean))
    .(PlankEvaluator.formWarnings) = [].
Proof.
  unfold plankStep, plankCall. cbn [p_now p_landmarks p_imageW p_imageH].
  assert (Hlen : (33 <= List.length plankClean)%nat) by (cbn; lia).
  destruct (plank_update_open_fields (PlankEvaluator.default t1 t2) now plankClean
              (Num 640) (Num 480) Hlen eq_refl) as (-> & _).
  pose proof (assess_issues (PlankEvaluator.default t1 t2) plankClean (Num 640) (Num 480))
    as Ei. cbn zeta in Ei. rewrite Ei. clear Ei.
  set (this := PlankEvaluator.default t1 t2).
  set (P := fun px py => mkPoint (Num (px * 640)) (Num (py * 480)) (Num 0) NaN).
  assert (Ehip : PlankEvaluator.a_hipAngSmooth
                   (PlankEvaluator.assess this plankClean (Num 640) (Num 480)) = Num 180).
  { change (PlankEvaluator.a_hipAngSmooth _)
      with (PlankEvaluator.angle3 (PlankEvaluator.avg (P 0.2 0.5) (P 0.2 0.6))
              (PlankEvaluator.avg (P 0.5 0.5) (P 0.5 0.6))
              (PlankEvaluator.avg (P 0.9 0.5) (P 0.9 0.6))).
    unfold P. rewrite !avg_Num. apply angle3_straight; lra. }
  assert (Ehead : PlankEvaluator.a_headAngSmooth
                    (PlankEvaluator.assess this plankClean (Num 640) (Num 480)) = Num 180).
  { change (PlankEvaluator.a_headAngSmooth _)
      with (PlankEvaluator.angle3 (PlankEvaluator.avg (P 0.1 0.5) (P 0.1 0.6))
              (PlankEvaluator.avg (P 0.2 0.5) (P 0.2 0.6))
              (PlankEvaluator.avg (P 0.5 0.5) (P 0.5 0.6))).
    unfold P. rewrite !avg_Num. apply angle3_straight; lra. }
  assert (Esh : PlankEvaluator.a_stackShSmooth
                  (PlankEvaluator.assess this plankClean (Num 640) (Num 480)) = NaN).
  { change (PlankEvaluator.a_stackShSmooth _)
      with (PlankEvaluator.verticalMisalignDeg (P 0.2 0.5) (P 0.2 0.6)).
    apply verticalMisalignDeg_stacked. }
  assert (Etype : PlankEvaluator.a_plankType
                    (PlankEvaluator.assess this plankClean (Num 640) (Num 480))
                  = PlankEvaluator.HIGH).
  { change (PlankEvaluator.a_plankType _)
      with (PlankEvaluator.classifyPlank this (P 0.2 0.5) (P 0.2 0.6) (P 0.2 0.6) (P 0.2 0.7)
              (P 0.2 0.7) (P 0.2 0.8)).
    unfold PlankEvaluator.classifyPlank, P.
    cbn -[IZR Rdiv Rmult Rplus Rminus Rinv Rleb Rltb ndiv].
    rewrite ndiv_Num by lra. cbn [nlt]. rewrite Rltb_true by lra. reflexivity. }
  assert (Eunder : PlankEvaluator.a_underSmooth
                     (PlankEvaluator.assess this plankClean (Num 640) (Num 480)) = Num 0).
  { change (PlankEvaluator.a_underSmooth _)
      with (((PlankEvaluator.horizDist
                (if PlankEvaluator.isHIGH
                      (PlankEvaluator.a_plankType
                         (PlankEvaluator.assess this plankClean (Num 640) (Num 480)))
                 then P 0.2 0.7 else P 0.2 0.6) (P 0.2 0.5)
              [+] PlankEvaluator.horizDist
                    (if PlankEvaluator.isHIGH
                          (PlankEvaluator.a_plankType
                             (PlankEvaluator.assess this plankClean (Num 640) (Num 480)))
                     then P 0.2 0.8 else P 0.2 0.7) (P 0.2 0.6)) [/] Num 2)
            [/] Math.max
                  (Math.hypot
                     ((PlankEvaluator.avg (P 0.2 0.5) (P 0.2 0.6)).(x)
                      [-] (PlankEvaluator.avg (P 0.5 0.5) (P 0.5 0.6)).(x))
                     ((PlankEvaluator.avg (P 0.2 0.5) (P 0.2 0.6)).(y)
                      [-] (PlankEvaluator.avg (P 0.5 0.5) (P 0.5 0.6)).(y)))
                  (Num 1)).
    rewrite Etype. unfold P. rewrite !avg_Num. unfold PlankEvaluator.horizDist.
    cbn [PlankEvaluator.isHIGH x y z nsub nadd lift2 Math.hypot Math.max].
    rewrite !hypot_zero by lra.
    rewrite ndiv_Num by lra.
    match goal with |- context [Rmax ?a 1] =>
      rewrite ndiv_Num by (pose proof (Rmax_r a 1); lra) end.
    f_equal. unfold Rdiv. lra. }
  assert (Efeet : PlankEvaluator.a_feetWSmooth
                    (PlankEvaluator.assess this plankClean (Num 640) (Num 480)) = Num 1).
  { change (PlankEvaluator.a_feetWSmooth _)
      with (Math.hypot ((P 0.9 0.5).(x) [-] (P 0.9 0.6).(x)) ((P 0.9 0.5).(y) [-] (P 0.9 0.6).(y))
            [/] Math.max
                  ((Math.hypot ((P 0.2 0.5).(x) [-] (P 0.2 0.6).(x))
                      ((P 0.2 0.5).(y) [-] (P 0.2 0.6).(y))
                    [+] Math.hypot ((P 0.5 0.5).(x) [-] (P 0.5 0.6).(x))
                          ((P 0.5 0.5).(y) [-] (P 0.5 0.6).(y))) [/] Num 2)
                  (Num 1)).
    unfold P. cbn [x y nsub nadd lift2 Math.hypot Math.max].
    rewrite !(sqrt_vertical _ (0.5 * 480 - 0.6 * 480)) by lra.
    rewrite (Rabs_left (0.5 * 480 - 0.6 * 480)) by lra.
    rewrite ndiv_Num by lra. cbn [Math.max lift2].
    rewrite Rmax_left by lra.
    rewrite ndiv_Num by lra. f_equal. field. lra. }
  rewrite Ehip, Ehead, Esh, Eunder, Efeet.
  unfold PlankEvaluator.scoreHip, PlankEvaluator.scoreHead, PlankEvaluator.scoreStack,
    PlankEvaluator.scoreUnder, PlankEvaluator.scoreFeet, this.
  cbn -[IZR Rdiv Rmult Rplus Rminus Rinv Rleb Rltb ndiv].
  decide_cmp. reflexivity.
Qed.

Lemma plank_no_warning_scores_at_least_97_witness :
  exists s, (plankStep (PlankEvaluator.default 1 2) (plankCall 3 plankClean))
              .(PlankEvaluator.overallScore) = Num s /\ 97 <= s <= 100.
Proof.
  apply (plank_no_warning_scores_at_least_97 (PlankEvaluator.default 1 2)
           (plankCall 3 plankClean)).
  - reflexivity.
  - reflexivity.
  - reflexivity.
  - apply plankClean_no_warning.
Defined.

(* ================================================================== *)
(** ** The wrappers: what each warning turns into *)
(* ================================================================== *)

Lemma pushup_feedback_known (this : PushupCounter.t) (f : PushupCounter.Frame) :
  In (PushupCounter.feedback this f) (map (fun r => fst (fst r)) pushupRows).
Proof.
  unfold PushupCounter.feedback. cbn zeta.
  score_ifs; cbn [map pushupRows fst]; repeat (first [left; reflexivity | right]).
Qed.

Lemma pushup_row (w : string) :
  In w (map (fun r => fst (fst r)) pushupRows) ->
  In (w, includes w "visible" || includes w "frame",
      if includes w "legs" then kneesAndHips
      else if includes w "arms" then elbowsAndWrists else [])
     pushupRows.
Proof.
  cbn [map pushupRows fst].
  intros H; repeat (destruct H as [<- | H]; [vm_compute; tauto |]); destruct H.
Qed.

(** X18. What [processPushup] reports for each warning of the counter.  On a
    frame of at least 33 landmarks the warning is one of seven texts, and
    the visibility flag and the highlighted landmarks are those of its row:
    both visibility warnings raise the flag, the three leg warnings
    highlight knees and hips, "Extend your arms more" highlights elbows and
    wrists, and "Arm not clearly visible" highlights nothing.  The feedback
    is the warning, or the stage prompt when there is none, and the form is
    correct exactly when there is no warning.  The incoming state is not
    read. *)
Theorem processPushup_reports_the_row_of_the_warning
        (m : Singletons) (l : list Landmark) (st : ExerciseState.t) :
  (33 <= List.length l)%nat ->
  let r := fst (processPushup m l st) in
  let pc := (snd (processPushup m l st)).(pushupCounter) in
  let w := pc.(PushupCounter.formWarning) in
  (exists vis lms,
      r.(ExerciseState.visibilityIssue) = Some vis /\
      r.(ExerciseState.landmarksNeedingImprovement) = Some lms /\
      In (w, vis, lms) pushupRows) /\
  r.(ExerciseState.isCorrectForm) = String.eqb w "" /\
  r.(ExerciseState.feedback)
  = (if String.eqb w "" then
       match pc.(PushupCounter.state) with
       | PushupCounter.UP => "Go Down"
       | PushupCounter.DOWN => "Push Up"
       | PushupCounter.UNARMED => "Get Ready"
       end
     else w) /\
  r.(ExerciseState.count) = pc.(PushupCounter.count) /\
  r.(ExerciseState.timer) = None /\
  processPushup m l st = processPushup m l initialExerciseState.
Proof.
  intros Hfull. cbn zeta. unfold processPushup. cbn zeta.
  cbn [fst snd pushupCounter ExerciseState.visibilityIssue
       ExerciseState.landmarksNeedingImprovement ExerciseState.isCorrectForm
       ExerciseState.feedback ExerciseState.count ExerciseState.timer
       PushupCounter.getState PushupCounter.s_warning PushupCounter.s_state
       PushupCounter.s_count].
  split.
  - do 2 eexists. split; [reflexivity |]. split; [reflexivity |].
    apply pushup_row.
    destruct (pushup_update_formWarning m.(pushupCounter) l (Num 640) (Num 480) "right" Hfull)
      as [-> _].
    apply pushup_feedback_known.
  - repeat split; try reflexivity.
    set (w := PushupCounter.formWarning _).
    destruct w; [| reflexivity]. cbn [str_or String.eqb].
    destruct (PushupCounter.state _); reflexivity.
Qed.

Lemma processPushup_reports_the_row_of_the_warning_witness :
  (fst (processPushup (load 1 2) pushupTop initialExerciseState)).(ExerciseState.timer) = None.
Proof.
  assert (Hlen : (33 <= List.length pushupTop)%nat) by (cbn; lia).
  apply (processPushup_reports_the_row_of_the_warning (load 1 2) pushupTop
           initialExerciseState Hlen).
Defined.

Lemma first_of_app (P : string -> Prop) (l1 l2 : list string) :
  (l1 = [] \/ exists w, l1 = [w] /\ P w) -> P (plankFirst l2) -> P (plankFirst (l1 ++ l2)%list).
Proof. intros [-> | (w & -> & Hw)] H2; [exact H2 | exact Hw]. Qed.

Ltac one_of_rows := cbn [map plankRows fst]; repeat (first [left; reflexivity | right]).

Lemma plank_issues_known (c : PlankEvaluator.Config) (a b s1 s2 u f : number) :
  In (plankFirst
        (snd (PlankEvaluator.scoreHip c a) ++ snd (PlankEvaluator.scoreHead c b)
         ++ snd (PlankEvaluator.scoreStack c s1 s2)
         ++ snd (PlankEvaluator.scoreUnder c u) ++ snd (PlankEvaluator.scoreFeet c f))%list)
     (map (fun r => fst (fst r)) plankRows).
Proof.
  apply first_of_app.
  { unfold PlankEvaluator.scoreHip. score_ifs; cbn [snd];
      first [left; reflexivity | right; eexists; split; [reflexivity | one_of_rows]]. }
  apply first_of_app.
  { unfold PlankEvaluator.scoreHead. score_ifs; cbn [snd];
      first [left; reflexivity | right; eexists; split; [reflexivity | one_of_rows]]. }
  apply first_of_app.
  { unfold PlankEvaluator.scoreStack. score_ifs; cbn [snd];
      first [left; reflexivity | right; eexists; split; [reflexivity | one_of_rows]]. }
  apply first_of_app.
  { unfold PlankEvaluator.scoreUnder. score_ifs; cbn [snd];
      first [left; reflexivity | right; eexists; split; [reflexivity | one_of_rows]]. }
  unfold PlankEvaluator.scoreFeet. score_ifs; cbn [snd plankFirst]; one_of_rows.
Qed.

Lemma plank_row (w : string) :
  In w (map (fun r => fst (fst r)) plankRows) ->
  In (w, includes w "visible",
      if includes w "hips" then shouldersHipsAnkles
      else if includes w "head" then
        [POSE_LANDMARKS.LEFT_SHOULDER; POSE_LANDMARKS.RIGHT_SHOULDER]
      else if includes w "shoulders" || includes w "twist" then shouldersAndHips
      else if includes w "hands" || includes w "elbows" then
        [POSE_LANDMARKS.LEFT_WRIST; POSE_LANDMARKS.RIGHT_WRIST;
         POSE_LANDMARKS.LEFT_ELBOW; POSE_LANDMARKS.RIGHT_ELBOW;
         POSE_LANDMARKS.LEFT_SHOULDER; POSE_LANDMARKS.RIGHT_SHOULDER]
      else if includes w "feet" then
        [POSE_LANDMARKS.LEFT_ANKLE; POSE_LANDMARKS.RIGHT_ANKLE]
      else [])
     plankRows.
Proof.
  cbn [map plankRows fst].
  intros H; repeat (destruct H as [<- | H]; [vm_compute; tauto |]); destruct H.
Qed.

(** X19. What [processPlank] reports for the first warning of the evaluator.
    On a frame of at least 33 landmarks that warning is one of eleven texts
    (none included) and the visibility flag and the highlighted landmarks
    are those of its row.  The substring tests are case-sensitive and
    ordered, so "Hips sagging too much" highlights nothing,
    "Align shoulders/hips (no twist)" is highlighted like a hip warning,
    "Position hands/elbows under shoulders" highlights shoulders and hips,
    and the wrist-and-elbow list is never returned.  The form is correct
    only without a warning and in HOLDING; the count is 0, the stage
    NEUTRAL and the timer the evaluator's hold time. *)
Theorem processPlank_reports_the_row_of_the_warning
        (m : Singletons) (now : Z) (l : list Landmark) (st : ExerciseState.t) :
  (33 <= List.length l)%nat ->
  let r := fst (processPlank m now l st) in
  let pe := (snd (processPlank m now l st)).(plankEvaluator) in
  let w := plankFirst pe.(PlankEvaluator.formWarnings) in
  (exists vis lms,
      r.(ExerciseState.visibilityIssue) = Some vis /\
      r.(ExerciseState.landmarksNeedingImprovement) = Some lms /\
      In (w, vis, lms) plankRows /\
      ~ In POSE_LANDMARKS.LEFT_WRIST lms /\ ~ In POSE_LANDMARKS.LEFT_ELBOW lms) /\
  r.(ExerciseState.isCorrectForm)
  = String.eqb w ""
    && PlankEvaluator.PlankState_eqb pe.(PlankEvaluator.state) PlankEvaluator.HOLDING /\
  r.(ExerciseState.feedback)
  = (if String.eqb w "" then PlankEvaluator.getStateLabel pe else w) /\
  r.(ExerciseState.count) = 0%Z /\
  r.(ExerciseState.stage) = StageNEUTRAL /\
  r.(ExerciseState.timer) = Some pe.(PlankEvaluator.holdTime).
Proof.
  intros Hfull. cbn zeta. unfold processPlank. cbn zeta.
  cbn [fst snd plankEvaluator ExerciseState.visibilityIssue
       ExerciseState.landmarksNeedingImprovement ExerciseState.isCorrectForm
       ExerciseState.feedback ExerciseState.count ExerciseState.timer ExerciseState.stage
       PlankEvaluator.getState PlankEvaluator.s_warning PlankEvaluator.s_state
       PlankEvaluator.s_holdTime].
  fold (plankFirst (PlankEvaluator.formWarnings
                      (PlankEvaluator.update (plankEvaluator m) now l (Num 640) (Num 480)))).
  set (pe := PlankEvaluator.update (plankEvaluator m) now l (Num 640) (Num 480)).
  assert (Hknown : In (plankFirst (PlankEvaluator.formWarnings pe))
                      (map (fun r => fst (fst r)) plankRows)).
  { unfold pe.
    destruct (PlankEvaluator.criticalPointsVisible (plankEvaluator m) l (Num 640) (Num 480))
      eqn:Hgate.
    - destruct (plank_update_open_fields (plankEvaluator m) now l _ _ Hfull Hgate) as (-> & _).
      pose proof (assess_issues (plankEvaluator m) l (Num 640) (Num 480)) as Ei.
      cbn zeta in Ei. rewrite Ei. apply plank_issues_known.
    - destruct (plank_update_closed_fields (plankEvaluator m) now l _ _ Hfull Hgate)
        as (-> & _).
      cbn [plankFirst]. one_of_rows. }
  split.
  - do 2 eexists. split; [reflexivity |]. split; [reflexivity |].
    split; [apply plank_row; exact Hknown |].
    revert Hknown. generalize (plankFirst (PlankEvaluator.formWarnings pe)). intros w.
    cbn [map plankRows fst].
    intros H; repeat (destruct H as [<- | H]; [vm_compute; intuition discriminate |]);
      destruct H.
  - repeat split; try reflexivity.
    + destruct (PlankEvaluator.state pe); reflexivity.
    + destruct (plankFirst (PlankEvaluator.formWarnings pe)); reflexivity.
Qed.

Lemma processPlank_reports_the_row_of_the_warning_witness :
  (fst (processPlank (load 1 2) 3 plankStraight initialExerciseState)).(ExerciseState.count)
  = 0%Z.
Proof.
  apply (processPlank_reports_the_row_of_the_warning (load 1 2) 3 plankStraight
           initialExerciseState plankStraight_length).
Defined.

Lemma acos_nonneg_le_half_pi (c : R) : 0 <= c <= 1 -> acos c <= PI / 2.
Proof.
  intros Hc. destruct (Rle_dec (acos c) (PI / 2)) as [H | H]; [exact H | exfalso].
  pose proof (acos_bound c) as [_ Hhi]. pose proof PI_RGT_0 as Hpi.
  assert (Hneg : cos (acos c) < 0) by (apply cos_lt_0; lra).
  rewrite cos_acos in Hneg by lra. lra.
Qed.

(** X20. [verticalMisalignDeg] measures the tilt of the segment between two
    points against the horizontal plane: its result is NaN or lies in
    [0, 90], and it does not depend on the order of the two points.  When
    one point is exactly above the other (the largest possible tilt) the
    horizontal extent is below the guard and the result is NaN, not 90. *)
Theorem verticalMisalignDeg_between_0_and_90 (l r : Point) :
  unsetOrWithin 0 90 (PlankEvaluator.verticalMisalignDeg l r) /\
  PlankEvaluator.verticalMisalignDeg l r = PlankEvaluator.verticalMisalignDeg r l /\
  (l.(x) = r.(x) -> l.(z) = r.(z) -> PlankEvaluator.verticalMisalignDeg l r = NaN).
Proof.
  destruct l as [lx ly lz lv], r as [rx ry rz rv].
  unfold PlankEvaluator.verticalMisalignDeg. cbn [x y z].
  destruct lx as [| lx], ly as [| ly], lz as [| lz], rx as [| rx], ry as [| ry], rz as [| rz];
    try (cbn [nsub nadd nmul ndiv lift2 Math.sqrt Math.hypot nlt Math.min Math.max
              Math.acos unsetOrWithin];
         repeat match goal with |- context [if ?b then _ else _] => destruct b end;
         cbn [nsub nadd nmul ndiv lift2 Math.sqrt Math.hypot nlt Math.min Math.max
              Math.acos unsetOrWithin];
         repeat split; try exact I; try reflexivity; intros; discriminate).
  cbn [nsub nadd nmul lift2 Math.sqrt Math.hypot nlt].
  replace ((lx - rx) * (lx - rx)) with ((rx - lx) * (rx - lx)) by ring.
  replace ((ly - ry) * (ly - ry)) with ((ry - ly) * (ry - ly)) by ring.
  replace ((lz - rz) * (lz - rz)) with ((rz - lz) * (rz - lz)) by ring.
  rewrite !Rltb_false by apply sum_squares_nonneg.
  set (n := sqrt ((rx - lx) * (rx - lx) + (ry - ly) * (ry - ly) + (rz - lz) * (rz - lz))).
  set (hn := sqrt ((rx - lx) * (rx - lx) + (rz - lz) * (rz - lz))).
  split; [| split; [reflexivity |]].
  - cbn [nlt]. unfold Rltb. destruct (Rlt_dec n 1e-6) as [Hn | Hn]; [exact I |].
    destruct (Rlt_dec hn 1e-6) as [Hh | Hh]; [exact I |].
    rewrite ndiv_Num by lra.
    cbn [Math.min Math.max lift2 Math.acos].
    assert (Hq : 0 <= hn / n) by (apply Rmult_le_pos; [lra | left; apply Rinv_0_lt_compat; lra]).
    set (c := Rmax (-1) (Rmin 1 (hn / n))).
    assert (Hc : 0 <= c <= 1).
    { unfold c. split.
      - apply Rle_trans with (Rmin 1 (hn / n)); [apply Rmin_glb; lra | apply Rmax_r].
      - apply Rmax_lub; [lra | apply Rmin_l]. }
    rewrite (Rleb_true (-1) c), (Rleb_true c 1) by lra.
    cbn [andb nmul lift2]. unfold Math.PI. pose proof PI_RGT_0 as Hpi.
    rewrite ndiv_Num by lra. cbn [unsetOrWithin].
    pose proof (acos_bound c) as [H0 _].
    pose proof (acos_nonneg_le_half_pi c Hc) as H1.
    split.
    + apply Rmult_le_pos; [nra | left; now apply Rinv_0_lt_compat].
    + apply (Rmult_le_reg_r PI); [exact Hpi |].
      unfold Rdiv. rewrite Rmult_assoc, Rinv_l by lra. nra.
  - intros Hx Hz. injection Hx as ->. injection Hz as ->.
    assert (Hh0 : hn = 0) by (unfold hn; apply hypot_zero; lra).
    cbn [nlt]. destruct (Rltb n 1e-6); [reflexivity |].
    rewrite Hh0. rewrite Rltb_true by lra. reflexivity.
Qed.

Lemma verticalMisalignDeg_between_0_and_90_witness :
  PlankEvaluator.verticalMisalignDeg (mkPoint (Num 1) (Num 2) (Num 3) NaN)
    (mkPoint (Num 1) (Num 5) (Num 3) NaN) = NaN.
Proof.
  apply (verticalMisalignDeg_between_0_and_90 (mkPoint (Num 1) (Num 2) (Num 3) NaN)
           (mkPoint (Num 1) (Num 5) (Num 3) NaN)); reflexivity.
Defined.

(* ================================================================== *)
(** ** The stateless squat processor *)
(* ================================================================== *)

Lemma index_in_range (l : list Landmark) (i : nat) :
  (i < List.length l)%nat -> exists v, index l i = Some v.
Proof.
  intros H. unfold index. destruct (nth_error l i) as [v |] eqn:E; [now exists v |].
  apply nth_error_None in E. lia.
Qed.

Lemma index_out_of_range (l : list Landmark) (i : nat) :
  (List.length l <= i)%nat -> index l i = None.
Proof. intros H. unfold index. now apply nth_error_None. Qed.

(** X21. The exported [processSquat] reads its landmarks without a length
    guard.  With at least 29 landmarks (every index up to the right ankle
    present) it always returns a state; with 24 or fewer it always ends in a
    TypeError, because the right hip is dereferenced unconditionally. *)
Theorem processSquat_returns_from_29_landmarks (l : list Landmark) (st : ExerciseState.t) :
  ((29 <= List.length l)%nat -> exists r, StatelessSquat.run l st = Some r) /\
  ((List.length l <= 24)%nat -> StatelessSquat.run l st = None).
Proof.
  split.
  - intros H. unfold StatelessSquat.run. cbn zeta.
    destruct (index_in_range l POSE_LANDMARKS.LEFT_SHOULDER) as [lsh ->];
      [unfold POSE_LANDMARKS.LEFT_SHOULDER; lia |].
    destruct (index_in_range l POSE_LANDMARKS.RIGHT_SHOULDER) as [rsh ->];
      [unfold POSE_LANDMARKS.RIGHT_SHOULDER; lia |].
    destruct (index_in_range l POSE_LANDMARKS.LEFT_HIP) as [lhip ->];
      [unfold POSE_LANDMARKS.LEFT_HIP; lia |].
    destruct (index_in_range l POSE_LANDMARKS.RIGHT_HIP) as [rhip ->];
      [unfold POSE_LANDMARKS.RIGHT_HIP; lia |].
    destruct (index_in_range l POSE_LANDMARKS.LEFT_KNEE) as [lkn ->];
      [unfold POSE_LANDMARKS.LEFT_KNEE; lia |].
    destruct (index_in_range l POSE_LANDMARKS.RIGHT_KNEE) as [rkn ->];
      [unfold POSE_LANDMARKS.RIGHT_KNEE; lia |].
    destruct (index_in_range l POSE_LANDMARKS.LEFT_ANKLE) as [lan ->];
      [unfold POSE_LANDMARKS.LEFT_ANKLE; lia |].
    destruct (index_in_range l POSE_LANDMARKS.RIGHT_ANKLE) as [ran ->];
      [unfold POSE_LANDMARKS.RIGHT_ANKLE; lia |].
    unfold StatelessSquat.bothGate, StatelessSquat.angleAt.
    destruct (StatelessSquat.gate lhip), (StatelessSquat.gate lkn),
      (StatelessSquat.gate rhip), (StatelessSquat.gate rkn);
      cbn [negb andb]; eexists; reflexivity.
  - intros H. unfold StatelessSquat.run. cbn zeta.
    rewrite (index_out_of_range l POSE_LANDMARKS.RIGHT_HIP)
      by (unfold POSE_LANDMARKS.RIGHT_HIP; lia).
    destruct (StatelessSquat.bothGate _ _); reflexivity.
Qed.

Lemma processSquat_returns_from_29_landmarks_witness :
  exists r, StatelessSquat.run frameOrigin initialExerciseState = Some r.
Proof.
  apply (processSquat_returns_from_29_landmarks frameOrigin initialExerciseState).
  cbn. lia.
Defined.

Lemma countRep_counts (st : ExerciseState.t) (k h : number) (lean : bool) :
  let r := StatelessSquat.countRep st k h lean in
  r.(ExerciseState.timer) = st.(ExerciseState.timer) /\
  r.(ExerciseState.visibilityIssue) = Some false /\
  (r.(ExerciseState.isCorrectForm) = false ->
   r.(ExerciseState.count) = st.(ExerciseState.count) /\
   r.(ExerciseState.stage) = st.(ExerciseState.stage)) /\
  (r.(ExerciseState.count) = st.(ExerciseState.count) /\
   r.(ExerciseState.feedback) <> "Good Squat!"
   \/
   r.(ExerciseState.count) = (st.(ExerciseState.count) + 1)%Z /\
   st.(ExerciseState.stage) = StageDOWN /\ r.(ExerciseState.stage) = StageUP /\
   (k [>=] StatelessSquat.UP_THRESH) = true /\
   r.(ExerciseState.feedback) = "Good Squat!" /\
   r.(ExerciseState.isCorrectForm) = true).
Proof.
  cbn zeta. unfold StatelessSquat.countRep. cbn zeta.
  destruct (lean && (h [<] StatelessSquat.TORSO_LEAN_MAX));
    [cbn; repeat split; left; split; [reflexivity | discriminate] |].
  destruct (k [>=] StatelessSquat.UP_THRESH) eqn:Hup;
    [| destruct (k [<=] StatelessSquat.DOWN_THRESH)];
    destruct (ExerciseState.stage st) eqn:Hst; cbn -[Z.add];
    repeat split; try discriminate; try reflexivity;
    first [left; split; [reflexivity | discriminate]
          | right; repeat split; reflexivity ].
Qed.

(** What any state returned by [processSquat] keeps of the incoming one. *)
Lemma stateless_run_safe
        (l : list Landmark) (st r : ExerciseState.t) :
  StatelessSquat.run l st = Some r ->
  r.(ExerciseState.timer) = st.(ExerciseState.timer) /\
  (r.(ExerciseState.isCorrectForm) = false ->
   r.(ExerciseState.count) = st.(ExerciseState.count) /\
   r.(ExerciseState.stage) = st.(ExerciseState.stage)) /\
  (r.(ExerciseState.count) = st.(ExerciseState.count) /\
   r.(ExerciseState.feedback) <> "Good Squat!"
   \/
   r.(ExerciseState.count) = (st.(ExerciseState.count) + 1)%Z /\
   st.(ExerciseState.stage) = StageDOWN /\ r.(ExerciseState.stage) = StageUP /\
   r.(ExerciseState.feedback) = "Good Squat!" /\
   r.(ExerciseState.isCorrectForm) = true) /\
  (r.(ExerciseState.visibilityIssue) = Some true ->
   r.(ExerciseState.feedback) = "Full body visible?" /\
   r.(ExerciseState.isCorrectForm) = false).
Proof.
  unfold StatelessSquat.run. cbn zeta. intros H.
  destruct (StatelessSquat.bothGate _ _) as [lv |]; [| discriminate].
  destruct (StatelessSquat.bothGate _ _) as [rv |]; [| discriminate].
  destruct (negb lv && negb rv).
  { injection H as <-. cbn. repeat split; try reflexivity.
    left. split; [reflexivity | discriminate]. }
  assert (Hrep : forall k h lean, Some (StatelessSquat.countRep st k h lean) = Some r ->
                 r.(ExerciseState.timer) = st.(ExerciseState.timer) /\
                 (r.(ExerciseState.isCorrectForm) = false ->
                  r.(ExerciseState.count) = st.(ExerciseState.count) /\
                  r.(ExerciseState.stage) = st.(ExerciseState.stage)) /\
                 (r.(ExerciseState.count) = st.(ExerciseState.count) /\
                  r.(ExerciseState.feedback) <> "Good Squat!"
                  \/
                  r.(ExerciseState.count) = (st.(ExerciseState.count) + 1)%Z /\
                  st.(ExerciseState.stage) = StageDOWN /\ r.(ExerciseState.stage) = StageUP /\
                  r.(ExerciseState.feedback) = "Good Squat!" /\
                  r.(ExerciseState.isCorrectForm) = true) /\
                 (r.(ExerciseState.visibilityIssue) = Some true ->
                  r.(ExerciseState.feedback) = "Full body visible?" /\
                  r.(ExerciseState.isCorrectForm) = false)).
  { intros k h lean E. injection E as <-.
    destruct (countRep_counts st k h lean) as (Ht & Hv & Hf & Hc). cbn zeta in *.
    split; [exact Ht |]. split; [exact Hf |]. split.
    - destruct Hc as [Hc | Hc]; [left; exact Hc | right; tauto].
    - rewrite Hv. discriminate. }
  destruct (lv && rv).
  - destruct (StatelessSquat.angleAt _ _ _); [| discriminate].
    destruct (StatelessSquat.angleAt _ _ _); [| discriminate].
    eapply Hrep; exact H.
  - destruct lv.
    + destruct (StatelessSquat.angleAt _ _ _); [| discriminate].
      destruct (StatelessSquat.angleAt _ _ _); [| discriminate].
      eapply Hrep; exact H.
    + destruct (StatelessSquat.angleAt _ _ _); [| discriminate].
      destruct (StatelessSquat.angleAt _ _ _); [| discriminate].
      eapply Hrep; exact H.
Qed.

(* ================================================================== *)
(** ** The plank's angle against the shared one *)
(* ================================================================== *)

Lemma calculateAngle3D_swap (a b c : Point) :
  calculateAngle3D a b c = calculateAngle3D c b a.
Proof.
  unfold calculateAngle3D. cbn zeta.
  rewrite (nmul_comm (Math.sqrt _) (Math.sqrt _)).
  rewrite (nmul_comm (a.(x) [-] b.(x)) (c.(x) [-] b.(x))).
  rewrite (nmul_comm (a.(y) [-] b.(y)) (c.(y) [-] b.(y))).
  rewrite (nmul_comm (a.(z) [-] b.(z)) (c.(z) [-] b.(z))).
  reflexivity.
Qed.

(** X24. The plank evaluator's [angle3] is the reflex angle of the shared
    [calculateAngle3D]: in exact arithmetic it returns 360 minus that angle
    (NaN exactly when that angle is NaN).  So it does not depend on the order
    of the outer points, a body in one line measures 180 like any angle
    whose plain measure is 180, and a right angle measures 270. *)
Theorem angle3_is_360_minus_calculateAngle3D (a b c : Point) :
  PlankEvaluator.angle3 a b c = Num 360 [-] calculateAngle3D a b c /\
  PlankEvaluator.angle3 a b c = PlankEvaluator.angle3 c b a /\
  (calculateAngle3D a b c = Num 180 -> PlankEvaluator.angle3 a b c = Num 180) /\
  (calculateAngle3D a b c = Num 90 -> PlankEvaluator.angle3 a b c = Num 270).
Proof.
  assert (H : forall p q r, PlankEvaluator.angle3 p q r = Num 360 [-] calculateAngle3D p q r).
  { intros p q r. unfold PlankEvaluator.angle3, calculateAngle3D. cbn zeta.
    match goal with |- Num 180 [-] ?e [+] Num 180 = _ => destruct e as [| v] end;
      cbn [nsub nadd lift2]; [reflexivity | f_equal; lra]. }
  split; [apply H |]. split; [| split].
  - rewrite !H. f_equal. apply calculateAngle3D_swap.
  - intros E. rewrite H, E. cbn [nsub lift2]. f_equal. lra.
  - intros E. rewrite H, E. cbn [nsub lift2]. f_equal. lra.
Qed.

Lemma angle3_is_360_minus_calculateAngle3D_witness :
  PlankEvaluator.angle3 (mkPoint (Num 1) (Num 0) (Num 0) NaN)
    (mkPoint (Num 0) (Num 0) (Num 0) NaN) (mkPoint (Num 0) (Num 1) (Num 0) NaN) = Num 270.
Proof.
  apply (angle3_is_360_minus_calculateAngle3D (mkPoint (Num 1) (Num 0) (Num 0) NaN)
           (mkPoint (Num 0) (Num 0) (Num 0) NaN) (mkPoint (Num 0) (Num 1) (Num 0) NaN)).
  rewrite calculateAngle3D_Num. f_equal.
  replace ((1 - 0) * (0 - 0) + (0 - 0) * (1 - 0) + (0 - 0) * (0 - 0)) with 0 by lra.
  apply clamp_zero_quotient.
Defined.

(* ================================================================== *)
(** ** The stateless push-up processor *)
(* ================================================================== *)

Lemma part000_countRep_counts (st : ExerciseState.t) (e k : number) :
  let r := Part000.countRep st e k in
  r.(ExerciseState.timer) = st.(ExerciseState.timer) /\
  r.(ExerciseState.visibilityIssue) = Some false /\
  (r.(ExerciseState.isCorrectForm) = false ->
   r.(ExerciseState.count) = st.(ExerciseState.count) /\
   r.(ExerciseState.stage) = st.(ExerciseState.stage)) /\
  (r.(ExerciseState.count) = st.(ExerciseState.count) /\
   r.(ExerciseState.feedback) <> "Nice Rep!"
   \/
   r.(ExerciseState.count) = (st.(ExerciseState.count) + 1)%Z /\
   st.(ExerciseState.stage) = StageDOWN /\ r.(ExerciseState.stage) = StageUP /\
   r.(ExerciseState.feedback) = "Nice Rep!" /\
   r.(ExerciseState.isCorrectForm) = true).
Proof.
  cbn zeta. unfold Part000.countRep. cbn zeta.
  destruct (k [<] Part000.LEG_EXTENDED_THRESH);
    [cbn; repeat split; left; split; [reflexivity | discriminate] |].
  destruct (e [>=] Part000.UP_THRESH) eqn:Hup;
    [| destruct (e [<=] Part000.DOWN_THRESH)];
    destruct (ExerciseState.stage st) eqn:Hst; cbn -[Z.add];
    repeat split; try discriminate; try reflexivity;
    first [left; split; [reflexivity | discriminate]
          | right; repeat split; reflexivity ].
Qed.

(** What any state returned by the stateless [processPushup] keeps of the
    incoming one. *)
Lemma stateless_processPushup_safe
        (calculateAngle : option Landmark -> option Landmark -> option Landmark -> option number)
        (l : list Landmark) (st : ExerciseState.t) :
  (forall r, Part000.processPushup calculateAngle l st = Some r ->
     r.(ExerciseState.timer) = st.(ExerciseState.timer) /\
     (r.(ExerciseState.isCorrectForm) = false ->
      r.(ExerciseState.count) = st.(ExerciseState.count) /\
      r.(ExerciseState.stage) = st.(ExerciseState.stage)) /\
     (r.(ExerciseState.count) = st.(ExerciseState.count) /\
      r.(ExerciseState.feedback) <> "Nice Rep!"
      \/
      r.(ExerciseState.count) = (st.(ExerciseState.count) + 1)%Z /\
      st.(ExerciseState.stage) = StageDOWN /\ r.(ExerciseState.stage) = StageUP /\
      r.(ExerciseState.feedback) = "Nice Rep!" /\
      r.(ExerciseState.isCorrectForm) = true) /\
     (r.(ExerciseState.visibilityIssue) = Some true ->
      r.(ExerciseState.feedback) = "Knees must be visible")).
Proof.
  intros r. unfold Part000.processPushup. cbn zeta. intros H.
  destruct (index l POSE_LANDMARKS.LEFT_KNEE) as [lk |]; [| discriminate].
  destruct (index l POSE_LANDMARKS.RIGHT_KNEE) as [rk |]; [| discriminate].
  destruct (negb _ && negb _).
  { injection H as <-. cbn. repeat split; try reflexivity.
    left. split; [reflexivity | discriminate]. }
  destruct (calculateAngle _ _ _) as [la |]; [| discriminate].
  destruct (calculateAngle _ _ _) as [ra |]; [| discriminate].
  destruct (Part000.visibleKneeAngle _ _ _ _) as [k |]; [| discriminate].
  injection H as <-.
  destruct (part000_countRep_counts st ((la [+] ra) [/] Num 2) k) as (Ht & Hv & Hf & Hc).
  cbn zeta in *.
  split; [exact Ht |]. split; [exact Hf |]. split; [exact Hc |].
  rewrite Hv. discriminate.
Qed.

(** The edges of the stateless [processPushup]: no visible knee, too few
    landmarks, a NaN knee angle. *)
Lemma stateless_processPushup_edges
        (calculateAngle : option Landmark -> option Landmark -> option Landmark -> option number)
        (l : list Landmark) (st : ExerciseState.t) :
  (forall leftKnee rightKnee,
     index l POSE_LANDMARKS.LEFT_KNEE = Some leftKnee ->
     index l POSE_LANDMARKS.RIGHT_KNEE = Some rightKnee ->
     StatelessPushup.isKneeVisible leftKnee = false ->
     StatelessPushup.isKneeVisible rightKnee = false ->
     Part000.processPushup calculateAngle l st
     = Some (StatelessSquat.with_form st "Knees must be visible" false true
               [POSE_LANDMARKS.LEFT_KNEE; POSE_LANDMARKS.RIGHT_KNEE])) /\
  ((List.length l <= 26)%nat -> Part000.processPushup calculateAngle l st = None) /\
  (forall e, (Part000.countRep st e NaN).(ExerciseState.isCorrectForm) = true).
Proof.
  split; [| split].
  - intros lk rk El Er Hl Hr. unfold Part000.processPushup. cbn zeta.
    rewrite El, Er, Hl, Hr. reflexivity.
  - intros H. unfold Part000.processPushup. cbn zeta.
    rewrite (index_out_of_range l POSE_LANDMARKS.RIGHT_KNEE)
      by (unfold POSE_LANDMARKS.RIGHT_KNEE; lia).
    destruct (index l POSE_LANDMARKS.LEFT_KNEE); reflexivity.
  - intros e. unfold Part000.countRep. cbn [nlt]. cbn zeta.
    repeat match goal with |- context [if ?b then _ else _] => destruct b end; reflexivity.
Qed.

(* ================================================================== *)
(** ** The angle functions with overflow *)
(* ================================================================== *)

Lemma Rabs_bounds (r b : R) : Rabs r <= b -> - b <= r <= b.
Proof. unfold Rabs. destruct (Rcase_abs r); lra. Qed.

Lemma Rabs_within (r b : R) : - b <= r <= b -> Rabs r <= b.
Proof. unfold Rabs. destruct (Rcase_abs r); lra. Qed.

Lemma of_real_fin (r : R) :
  Rabs r <= Double.MAX_VALUE -> Double.of_real r = Double.Fin r.
Proof.
  intros H. apply Rabs_bounds in H. unfold Double.of_real.
  rewrite !Rltb_false by lra. reflexivity.
Qed.

Lemma double_sub (u v : R) :
  Rabs u <= 1e150 -> Rabs v <= 1e150 ->
  Double.sub (Double.Fin u) (Double.Fin v) = Double.Fin (u - v) /\ Rabs (u - v) <= 2e150.
Proof.
  intros Hu Hv. apply Rabs_bounds in Hu, Hv.
  assert (H : Rabs (u - v) <= 2e150) by (apply Rabs_within; lra).
  split; [| exact H]. cbn [Double.sub]. apply of_real_fin.
  unfold Double.MAX_VALUE. lra.
Qed.

Lemma product_within (u v : R) :
  Rabs u <= 2e150 -> Rabs v <= 2e150 -> Rabs (u * v) <= 4e300.
Proof.
  intros Hu Hv. rewrite Rabs_mult.
  replace 4e300 with (2e150 * 2e150) by lra.
  apply Rmult_le_compat; auto using Rabs_pos.
Qed.

Lemma double_mul (u v : R) :
  Rabs u <= 2e150 -> Rabs v <= 2e150 ->
  Double.mul (Double.Fin u) (Double.Fin v) = Double.Fin (u * v).
Proof.
  intros Hu Hv. pose proof (product_within u v Hu Hv) as H.
  cbn [Double.mul]. apply of_real_fin. unfold Double.MAX_VALUE. lra.
Qed.

Lemma double_add (p q : R) :
  Rabs p <= 8e300 -> Rabs q <= 4e300 ->
  Double.add (Double.Fin p) (Double.Fin q) = Double.Fin (p + q).
Proof.
  intros Hp Hq. apply Rabs_bounds in Hp, Hq.
  cbn [Double.add]. apply of_real_fin. apply Rabs_within.
  unfold Double.MAX_VALUE. lra.
Qed.

Lemma norm_within (s : R) : 0 <= s <= 1.6e301 -> 0 <= sqrt s <= 4e150.
Proof.
  intros [H0 H1]. split; [apply sqrt_pos |].
  rewrite <- (sqrt_square 4e150) by lra.
  apply sqrt_le_1_alt. lra.
Qed.

Lemma squares_2_within (u v : R) :
  Rabs u <= 2e150 -> Rabs v <= 2e150 -> 0 <= u * u + v * v <= 1.6e301.
Proof.
  intros Hu Hv.
  pose proof (product_within u u Hu Hu) as H1. pose proof (product_within v v Hv Hv) as H2.
  apply Rabs_bounds in H1, H2. split; [nra | lra].
Qed.

Lemma squares_3_within (u v w : R) :
  Rabs u <= 2e150 -> Rabs v <= 2e150 -> Rabs w <= 2e150 ->
  0 <= u * u + v * v + w * w <= 1.6e301.
Proof.
  intros Hu Hv Hw.
  pose proof (product_within u u Hu Hu) as H1. pose proof (product_within v v Hv Hv) as H2.
  pose proof (product_within w w Hw Hw) as H3.
  apply Rabs_bounds in H1, H2, H3. split; [nra | lra].
Qed.

Lemma double_hypot (u v : R) :
  Rabs u <= 2e150 -> Rabs v <= 2e150 ->
  Double.hypot (Double.Fin u) (Double.Fin v) = Double.Fin (sqrt (u * u + v * v)).
Proof.
  intros Hu Hv. pose proof (norm_within _ (squares_2_within u v Hu Hv)) as H.
  cbn [Double.hypot]. apply of_real_fin. apply Rabs_within.
  unfold Double.MAX_VALUE. lra.
Qed.

Lemma double_norm (u v w : R) :
  Rabs u <= 2e150 -> Rabs v <= 2e150 -> Rabs w <= 2e150 ->
  Double.sqrt
    (Double.add (Double.add (Double.mul (Double.Fin u) (Double.Fin u))
                   (Double.mul (Double.Fin v) (Double.Fin v)))
       (Double.mul (Double.Fin w) (Double.Fin w)))
  = Double.Fin (sqrt (u * u + v * v + w * w)).
Proof.
  intros Hu Hv Hw.
  pose proof (product_within u u Hu Hu) as H1. pose proof (product_within v v Hv Hv) as H2.
  pose proof (product_within w w Hw Hw) as H3.
  rewrite !double_mul by assumption.
  rewrite (double_add (u * u) (v * v)) by lra.
  rewrite double_add by (try assumption; apply Rabs_bounds in H1, H2; apply Rabs_within; lra).
  cbn [Double.sqrt]. rewrite Rltb_false by apply sum_squares_nonneg. reflexivity.
Qed.

Lemma double_norms_product (s t : R) :
  0 <= s <= 1.6e301 -> 0 <= t <= 1.6e301 ->
  Double.mul (Double.Fin (sqrt s)) (Double.Fin (sqrt t)) = Double.Fin (sqrt s * sqrt t).
Proof.
  intros Hs Ht. pose proof (norm_within s Hs) as H1. pose proof (norm_within t Ht) as H2.
  cbn [Double.mul]. apply of_real_fin. apply Rabs_within.
  unfold Double.MAX_VALUE. split; nra.
Qed.

Lemma double_quotient (dot n : R) :
  Rabs dot <= n ->
  Double.div (Double.Fin dot) (Double.max (Double.Fin 1e-9) (Double.Fin n))
  = Double.Fin (dot / Rmax 1e-9 n).
Proof.
  intros Hdot. cbn [Double.max Double.div].
  destruct (Req_dec_T (Rmax 1e-9 n) 0) as [E | _];
    [exfalso; now apply (floored_den_nonzero n) |].
  apply of_real_fin.
  pose proof (Rmax_l 1e-9 n) as Hl. pose proof (Rmax_r 1e-9 n) as Hr.
  apply Rabs_bounds in Hdot.
  assert (Hq : -1 <= dot / Rmax 1e-9 n <= 1).
  { split; apply (Rmult_le_reg_r (Rmax 1e-9 n)); try lra;
      unfold Rdiv; rewrite Rmult_assoc, Rinv_l by lra; lra. }
  apply Rabs_within. unfold Double.MAX_VALUE. lra.
Qed.

Lemma double_degrees_clamped (c : R) :
  -1 <= c <= 1 ->
  Double.div (Double.mul (Double.acos (Double.Fin c)) (Double.Fin 180)) Double.PI
  = Double.Fin (acos c * 180 / PI)
  /\ 0 <= acos c * 180 / PI <= 180.
Proof.
  intros Hc. cbn [Double.acos].
  rewrite (Rleb_true (-1) c), (Rleb_true c 1) by lra. cbn [andb Double.mul].
  pose proof (acos_bound c) as [H0 H1]. pose proof PI_RGT_0 as Hpi. pose proof PI_4 as Hpi4.
  assert (Hd : 0 <= acos c * 180 / PI <= 180).
  { split.
    - apply Rmult_le_pos; [nra | left; now apply Rinv_0_lt_compat].
    - apply (Rmult_le_reg_r PI); [exact Hpi |].
      unfold Rdiv. rewrite Rmult_assoc, Rinv_l by lra. nra. }
  split; [| exact Hd].
  rewrite of_real_fin by (apply Rabs_within; unfold Double.MAX_VALUE; lra).
  unfold Double.PI. cbn [Double.div].
  destruct (Req_dec_T PI 0) as [E | _]; [lra |].
  apply of_real_fin. apply Rabs_within. unfold Double.MAX_VALUE. lra.
Qed.

Lemma double_degrees (q : R) :
  Double.div
    (Double.mul
       (Double.acos (Double.max (Double.Fin (-1)) (Double.min (Double.Fin 1) (Double.Fin q))))
       (Double.Fin 180)) Double.PI
  = Double.Fin (acos (Rmax (-1) (Rmin 1 q)) * 180 / PI).
Proof.
  cbn [Double.min Double.max].
  apply double_degrees_clamped.
  split; [apply Rmax_l | apply Rmax_lub; [lra | apply Rmin_l]].
Qed.

Lemma cauchy_schwarz_3 (u1 u2 u3 v1 v2 v3 : R) :
  Rabs (u1 * v1 + u2 * v2 + u3 * v3)
  <= sqrt (u1 * u1 + u2 * u2 + u3 * u3) * sqrt (v1 * v1 + v2 * v2 + v3 * v3).
Proof.
  rewrite <- sqrt_mult by apply sum_squares_nonneg.
  rewrite <- sqrt_Rsqr_abs. apply sqrt_le_1_alt.
  pose proof (Rle_0_sqr (u1 * v2 - u2 * v1)) as H1.
  pose proof (Rle_0_sqr (u1 * v3 - u3 * v1)) as H2.
  pose proof (Rle_0_sqr (u2 * v3 - u3 * v2)) as H3.
  unfold Rsqr in *. lra.
Qed.

(** Where nothing overflows the two embeddings of [calculateAngle2D]
    agree. *)
Lemma double_calculateAngle2D_agrees (ax ay az bx by_ bz cx cy cz : R) (va vb vc : Double.t) :
  Rabs ax <= 1e150 -> Rabs ay <= 1e150 ->
  Rabs bx <= 1e150 -> Rabs by_ <= 1e150 ->
  Rabs cx <= 1e150 -> Rabs cy <= 1e150 ->
  Double.calculateAngle2D
    (Double.mkPoint (Double.Fin ax) (Double.Fin ay) (Double.Fin az) va)
    (Double.mkPoint (Double.Fin bx) (Double.Fin by_) (Double.Fin bz) vb)
    (Double.mkPoint (Double.Fin cx) (Double.Fin cy) (Double.Fin cz) vc)
  = to_double (calculateAngle2D (mkPoint (Num ax) (Num ay) (Num az) NaN)
                 (mkPoint (Num bx) (Num by_) (Num bz) NaN)
                 (mkPoint (Num cx) (Num cy) (Num cz) NaN)).
Proof.
  intros Hax Hay Hbx Hby Hcx Hcy.
  rewrite calculateAngle2D_Num. cbn [to_double].
  unfold Double.calculateAngle2D. cbn [Double.x Double.y].
  destruct (double_sub ax bx Hax Hbx) as [-> Hu1].
  destruct (double_sub ay by_ Hay Hby) as [-> Hu2].
  destruct (double_sub cx bx Hcx Hbx) as [-> Hv1].
  destruct (double_sub cy by_ Hcy Hby) as [-> Hv2].
  rewrite !double_hypot, !double_mul by assumption.
  rewrite double_norms_product by (apply squares_2_within; assumption).
  rewrite double_add
    by (try (apply product_within; assumption);
        pose proof (product_within (ax - bx) (cx - bx) Hu1 Hv1); lra).
  rewrite double_quotient by apply cauchy_schwarz_2.
  apply double_degrees.
Qed.

Lemma double_calculateAngle3D_agrees (ax ay az bx by_ bz cx cy cz : R) (va vb vc : Double.t) :
  Rabs ax <= 1e150 -> Rabs ay <= 1e150 -> Rabs az <= 1e150 ->
  Rabs bx <= 1e150 -> Rabs by_ <= 1e150 -> Rabs bz <= 1e150 ->
  Rabs cx <= 1e150 -> Rabs cy <= 1e150 -> Rabs cz <= 1e150 ->
  Double.calculateAngle3D
    (Double.mkPoint (Double.Fin ax) (Double.Fin ay) (Double.Fin az) va)
    (Double.mkPoint (Double.Fin bx) (Double.Fin by_) (Double.Fin bz) vb)
    (Double.mkPoint (Double.Fin cx) (Double.Fin cy) (Double.Fin cz) vc)
  = to_double (calculateAngle3D (mkPoint (Num ax) (Num ay) (Num az) NaN)
                 (mkPoint (Num bx) (Num by_) (Num bz) NaN)
                 (mkPoint (Num cx) (Num cy) (Num cz) NaN)).
Proof.
  intros Hax Hay Haz Hbx Hby Hbz Hcx Hcy Hcz.
  rewrite calculateAngle3D_Num. cbn [to_double].
  unfold Double.calculateAngle3D. cbn [Double.x Double.y Double.z].
  destruct (double_sub ax bx Hax Hbx) as [-> Hu1].
  destruct (double_sub ay by_ Hay Hby) as [-> Hu2].
  destruct (double_sub az bz Haz Hbz) as [-> Hu3].
  destruct (double_sub cx bx Hcx Hbx) as [-> Hv1].
  destruct (double_sub cy by_ Hcy Hby) as [-> Hv2].
  destruct (double_sub cz bz Hcz Hbz) as [-> Hv3].
  rewrite !double_norm by assumption.
  rewrite double_norms_product by (apply squares_3_within; assumption).
  pose proof (product_within _ _ Hu1 Hv1) as P1.
  pose proof (product_within _ _ Hu2 Hv2) as P2.
  pose proof (product_within _ _ Hu3 Hv3) as P3.
  rewrite !double_mul by assumption.
  rewrite (double_add ((ax - bx) * (cx - bx))) by (try assumption; lra).
  rewrite double_add
    by (try assumption; apply Rabs_bounds in P1, P2; apply Rabs_within; lra).
  rewrite double_quotient by apply cauchy_schwarz_3.
  apply double_degrees.
Qed.

Lemma of_real_huge (r : R) : Double.MAX_VALUE < r -> Double.of_real r = Double.Inf false.
Proof. intros H. unfold Double.of_real. now rewrite Rltb_true. Qed.

Lemma double_far_square : Double.mul (Double.Fin 1e200) (Double.Fin 1e200) = Double.Inf false.
Proof. cbn [Double.mul]. apply of_real_huge. unfold Double.MAX_VALUE. lra. Qed.

Lemma double_sub_0 (u : R) :
  Rabs u <= 1e200 -> Double.sub (Double.Fin u) (Double.Fin 0) = Double.Fin u.
Proof.
  intros H. apply Rabs_bounds in H. cbn [Double.sub].
  replace (u - 0) with u by lra.
  apply of_real_fin, Rabs_within. unfold Double.MAX_VALUE. lra.
Qed.

Lemma double_zero_square : Double.mul (Double.Fin 0) (Double.Fin 0) = Double.Fin 0.
Proof.
  cbn [Double.mul]. replace (0 * 0) with 0 by lra.
  apply of_real_fin. rewrite Rabs_R0. unfold Double.MAX_VALUE. lra.
Qed.


Lemma far_within : Rabs 1e200 <= 1e200.
Proof. apply Rabs_within. lra. Qed.

Lemma zero_within : Rabs 0 <= 1e200.
Proof. apply Rabs_within. lra. Qed.




(** X2. Right angles and degenerate input, in arithmetic without rounding,
    where nothing overflows.  For coordinates of magnitude at most 1e150,
    both angle functions return exactly 90 when the two vectors from the
    vertex have dot product 0; this covers, through the floored denominator,
    every configuration in which an outer point lies on the vertex.  The
    bound is needed: with an outer point on the vertex and the other at
    (1e200, 0, 0) the 3D function multiplies 0 by an infinite length and
    returns NaN. *)
Theorem zero_dot_product_gives_90_where_nothing_overflows
        (ax ay az bx by_ bz cx cy cz : R) (va vb vc : Double.t) :
  Rabs ax <= 1e150 -> Rabs ay <= 1e150 -> Rabs az <= 1e150 ->
  Rabs bx <= 1e150 -> Rabs by_ <= 1e150 -> Rabs bz <= 1e150 ->
  Rabs cx <= 1e150 -> Rabs cy <= 1e150 -> Rabs cz <= 1e150 ->
  let a := Double.mkPoint (Double.Fin ax) (Double.Fin ay) (Double.Fin az) va in
  let b := Double.mkPoint (Double.Fin bx) (Double.Fin by_) (Double.Fin bz) vb in
  let c := Double.mkPoint (Double.Fin cx) (Double.Fin cy) (Double.Fin cz) vc in
  ((ax - bx) * (cx - bx) + (ay - by_) * (cy - by_) = 0 ->
     Double.calculateAngle2D a b c = Double.Fin 90) /\
  ((ax - bx) * (cx - bx) + (ay - by_) * (cy - by_) + (az - bz) * (cz - bz) = 0 ->
     Double.calculateAngle3D a b c = Double.Fin 90) /\
  Double.calculateAngle2D b b c = Double.Fin 90 /\
  Double.calculateAngle2D a b b = Double.Fin 90 /\
  Double.calculateAngle3D b b c = Double.Fin 90 /\
  Double.calculateAngle3D a b b = Double.Fin 90 /\
  Double.calculateAngle3D (Double.at_ 0 0 0) (Double.at_ 0 0 0) (Double.at_ 1e200 0 0)
  = Double.NaN.
Proof.
  intros Hax Hay Haz Hbx Hby Hbz Hcx Hcy Hcz. cbn zeta.
  assert (H2 : forall px py pz qx qy qz rx ry rz u v w,
             Rabs px <= 1e150 -> Rabs py <= 1e150 ->
             Rabs qx <= 1e150 -> Rabs qy <= 1e150 ->
             Rabs rx <= 1e150 -> Rabs ry <= 1e150 ->
             (px - qx) * (rx - qx) + (py - qy) * (ry - qy) = 0 ->
             Double.calculateAngle2D
               (Double.mkPoint (Double.Fin px) (Double.Fin py) (Double.Fin pz) u)
               (Double.mkPoint (Double.Fin qx) (Double.Fin qy) (Double.Fin qz) v)
               (Double.mkPoint (Double.Fin rx) (Double.Fin ry) (Double.Fin rz) w)
             = Double.Fin 90).
  { intros. rewrite double_calculateAngle2D_agrees by assumption.
    rewrite calculateAngle2D_Num. cbn [to_double]. f_equal.
    match goal with H : _ = 0 |- _ => rewrite H end. apply clamp_zero_quotient. }
  assert (H3 : forall px py pz qx qy qz rx ry rz u v w,
             Rabs px <= 1e150 -> Rabs py <= 1e150 -> Rabs pz <= 1e150 ->
             Rabs qx <= 1e150 -> Rabs qy <= 1e150 -> Rabs qz <= 1e150 ->
             Rabs rx <= 1e150 -> Rabs ry <= 1e150 -> Rabs rz <= 1e150 ->
             (px - qx) * (rx - qx) + (py - qy) * (ry - qy) + (pz - qz) * (rz - qz) = 0 ->
             Double.calculateAngle3D
               (Double.mkPoint (Double.Fin px) (Double.Fin py) (Double.Fin pz) u)
               (Double.mkPoint (Double.Fin qx) (Double.Fin qy) (Double.Fin qz) v)
               (Double.mkPoint (Double.Fin rx) (Double.Fin ry) (Double.Fin rz) w)
             = Double.Fin 90).
  { intros. rewrite double_calculateAngle3D_agrees by assumption.
    rewrite calculateAngle3D_Num. cbn [to_double]. f_equal.
    match goal with H : _ = 0 |- _ => rewrite H end. apply clamp_zero_quotient. }
  split; [| split; [| split; [| split; [| split; [| split]]]]].
  - now apply H2.
  - now apply H3.
  - apply H2; try assumption. lra.
  - apply H2; try assumption. lra.
  - apply H3; try assumption. lra.
  - apply H3; try assumption. lra.
  - unfold Double.calculateAngle3D, Double.at_. cbn [Double.x Double.y Double.z].
    rewrite (double_sub_0 1e200 far_within), (double_sub_0 0 zero_within).
    rewrite !double_far_square, !double_zero_square.
    assert (E0 : Double.of_real 0 = Double.Fin 0)
      by (apply of_real_fin; rewrite Rabs_R0; unfold Double.MAX_VALUE; lra).
    cbn [Double.mul]. replace (0 * 1e200) with 0 by lra. rewrite !E0.
    cbn [Double.add]. replace (0 + 0) with 0 by lra. rewrite !E0.
    cbn [Double.add]. replace (0 + 0) with 0 by lra. rewrite !E0.
    cbn [Double.sqrt]. rewrite Rltb_false by lra. rewrite sqrt_0.
    cbn [Double.mul]. destruct (Req_dec_T 0 0) as [_ | H]; [reflexivity | lra].
Qed.

Lemma zero_dot_product_gives_90_where_nothing_overflows_witness :
  Double.calculateAngle2D (Double.at_ 1 0 0) (Double.at_ 0 0 0) (Double.at_ 0 1 0)
  = Double.Fin 90 /\
  Double.calculateAngle3D (Double.at_ 1 0 0) (Double.at_ 0 0 0) (Double.at_ 0 1 0)
  = Double.Fin 90.
Proof.
  assert (B0 : Rabs 0 <= 1e150) by (apply Rabs_within; lra).
  assert (B1 : Rabs 1 <= 1e150) by (apply Rabs_within; lra).
  pose proof (zero_dot_product_gives_90_where_nothing_overflows 1 0 0 0 0 0 0 1 0
                Double.NaN Double.NaN Double.NaN B1 B0 B0 B0 B0 B0 B0 B1 B0) as H.
  cbn zeta in H. destruct H as (H2 & H3 & _).
  split; [apply H2; lra | apply H3; lra].
Defined.

(** X3. In arithmetic without rounding, where nothing overflows and the
    floor of the denominator is not active, the 2D function returns the
    angle between the two vectors: for coordinates of magnitude at most
    1e150 and lengths whose product is at least 1e-9, a value r in [0, 180]
    whose cosine times the product of the two lengths is the dot product. *)
Theorem calculateAngle2D_is_the_angle_where_nothing_overflows
        (ax ay az bx by_ bz cx cy cz : R) (va vb vc : Double.t) :
  Rabs ax <= 1e150 -> Rabs ay <= 1e150 ->
  Rabs bx <= 1e150 -> Rabs by_ <= 1e150 ->
  Rabs cx <= 1e150 -> Rabs cy <= 1e150 ->
  let lengths := sqrt ((ax - bx) * (ax - bx) + (ay - by_) * (ay - by_))
                 * sqrt ((cx - bx) * (cx - bx) + (cy - by_) * (cy - by_)) in
  1e-9 <= lengths ->
  exists r,
    Double.calculateAngle2D
      (Double.mkPoint (Double.Fin ax) (Double.Fin ay) (Double.Fin az) va)
      (Double.mkPoint (Double.Fin bx) (Double.Fin by_) (Double.Fin bz) vb)
      (Double.mkPoint (Double.Fin cx) (Double.Fin cy) (Double.Fin cz) vc) = Double.Fin r
    /\ 0 <= r <= 180
    /\ cos (r * PI / 180) * lengths = (ax - bx) * (cx - bx) + (ay - by_) * (cy - by_).
Proof.
  intros Hax Hay Hbx Hby Hcx Hcy lengths Hfloor.
  rewrite double_calculateAngle2D_agrees by assumption.
  destruct (calculateAngle2D_exact_angle ax ay bx by_ cx cy (Num az) (Num bz) (Num cz)
              NaN NaN NaN Hfloor) as (r & -> & Hr & Hcos).
  exists r. split; [reflexivity |]. split; assumption.
Qed.

Lemma calculateAngle2D_is_the_angle_where_nothing_overflows_witness :
  exists r,
    Double.calculateAngle2D (Double.at_ 1 0 0) (Double.at_ 0 0 0) (Double.at_ 0 1 0)
    = Double.Fin r
    /\ 0 <= r <= 180
    /\ cos (r * PI / 180)
       * (sqrt ((1 - 0) * (1 - 0) + (0 - 0) * (0 - 0))
          * sqrt ((0 - 0) * (0 - 0) + (1 - 0) * (1 - 0)))
       = (1 - 0) * (0 - 0) + (0 - 0) * (1 - 0).
Proof.
  assert (B0 : Rabs 0 <= 1e150) by (apply Rabs_within; lra).
  assert (B1 : Rabs 1 <= 1e150) by (apply Rabs_within; lra).
  apply (calculateAngle2D_is_the_angle_where_nothing_overflows 1 0 0 0 0 0 0 1 0
           Double.NaN Double.NaN Double.NaN B1 B0 B0 B0 B0 B1).
  replace ((1 - 0) * (1 - 0) + (0 - 0) * (0 - 0)) with 1 by lra.
  replace ((0 - 0) * (0 - 0) + (1 - 0) * (1 - 0)) with 1 by lra.
  rewrite sqrt_1. lra.
Defined.

(* ================================================================== *)
(** ** The overall plank score as a weighted sum *)
(* ================================================================== *)

(** C8. With the default configuration the five weights are 0.35 (hip), 0.15
    (head), 0.15 (stack), 0.20 (under) and 0.15 (feet) and sum to 1.  On a
    frame of at least 33 landmarks that passes the visibility gate, the five
    sub-scores the update leaves are reals in [0, 1] and the overall score
    is their weighted sum times 100; it lies in [0, 100] and is exactly 100
    when the five sub-scores are 1.  On a frame that fails the gate the
    overall score is 0. *)
Theorem plank_overall_score_is_the_weighted_sum (this : PlankEvaluator.t) now l w h :
  this.(PlankEvaluator.cfg) = PlankEvaluator.defaultConfig ->
  (33 <= List.length l)%nat ->
  let this' := PlankEvaluator.update this now l w h in
  let weight key := PlankEvaluator.weight_or this.(PlankEvaluator.cfg) key in
  (weight "hip" (Num 0.35) = Num 0.35 /\ weight "head" (Num 0.15) = Num 0.15 /\
   weight "stack" (Num 0.15) = Num 0.15 /\ weight "under" (Num 0.2) = Num 0.2 /\
   weight "feet" (Num 0.15) = Num 0.15 /\
   weight "hip" (Num 0.35) [+] weight "head" (Num 0.15) [+] weight "stack" (Num 0.15)
   [+] weight "under" (Num 0.2) [+] weight "feet" (Num 0.15) = Num 1) /\
  (PlankEvaluator.criticalPointsVisible this l w h = true ->
   exists hip head stack under feet : R,
     this'.(PlankEvaluator.hipScore) = Num hip /\
     this'.(PlankEvaluator.headScore) = Num head /\
     this'.(PlankEvaluator.stackScore) = Num stack /\
     this'.(PlankEvaluator.underScore) = Num under /\
     this'.(PlankEvaluator.feetScore) = Num feet /\
     0 <= hip <= 1 /\ 0 <= head <= 1 /\ 0 <= stack <= 1 /\ 0 <= under <= 1 /\
     0 <= feet <= 1 /\
     this'.(PlankEvaluator.overallScore)
     = Num ((0.35 * hip + 0.15 * head + 0.15 * stack + 0.2 * under + 0.15 * feet) * 100) /\
     0 <= (0.35 * hip + 0.15 * head + 0.15 * stack + 0.2 * under + 0.15 * feet) * 100 <= 100 /\
     (hip = 1 -> head = 1 -> stack = 1 -> under = 1 -> feet = 1 ->
      this'.(PlankEvaluator.overallScore) = Num 100)) /\
  (PlankEvaluator.criticalPointsVisible this l w h = false ->
   this'.(PlankEvaluator.overallScore) = Num 0).
Proof.
  intros Hcfg Hfull. cbn zeta. split; [| split].
  - rewrite Hcfg. unfold PlankEvaluator.weight_or.
    cbn [PlankEvaluator.weights PlankEvaluator.defaultConfig PlankEvaluator.defaultWeights
         String.eqb Ascii.eqb Bool.eqb].
    repeat match goal with
           | |- context [Req_dec_T ?a 0] => destruct (Req_dec_T a 0); [lra |]
           end.
    repeat split. cbn [nadd lift2]. f_equal. lra.
  - intros Hgate.
    destruct (plank_update_gate_open this now l w h Hfull Hgate)
      as (_ & _ & _ & _ & -> & -> & -> & -> & -> & -> & _).
    rewrite assess_overallScore.
    destruct (assess_scores this l w h) as (-> & -> & -> & -> & ->).
    rewrite Hcfg.
    destruct (scoreHip_unit (PlankEvaluator.a_hipAngSmooth (PlankEvaluator.assess this l w h)))
      as (hip & -> & Hhip).
    destruct (scoreHead_unit (PlankEvaluator.a_headAngSmooth (PlankEvaluator.assess this l w h)))
      as (head & -> & Hhead).
    destruct (scoreStack_unit
                (PlankEvaluator.a_stackShSmooth (PlankEvaluator.assess this l w h))
                (PlankEvaluator.a_stackHipSmooth (PlankEvaluator.assess this l w h)))
      as (stack & -> & Hstack).
    destruct (scoreUnder_unit (PlankEvaluator.a_underSmooth (PlankEvaluator.assess this l w h)))
      as (under & -> & Hunder).
    destruct (scoreFeet_unit (PlankEvaluator.a_feetWSmooth (PlankEvaluator.assess this l w h)))
      as (feet & -> & Hfeet).
    exists hip, head, stack, under, feet.
    rewrite overall_default.
    repeat (split; [first [reflexivity | assumption] |]).
    split; [lra |].
    intros -> -> -> -> ->. f_equal. lra.
  - intros Hgate.
    now destruct (plank_update_gate_closed this now l w h Hfull Hgate) as (_ & -> & _).
Qed.

Lemma plank_overall_score_is_the_weighted_sum_witness :
  exists hip head stack under feet : R,
    (PlankEvaluator.update (PlankEvaluator.default 0 0) 0 frameOrigin (Num 640) (Num 480))
      .(PlankEvaluator.overallScore)
    = Num ((0.35 * hip + 0.15 * head + 0.15 * stack + 0.2 * under + 0.15 * feet) * 100)
    /\ 0 <= (0.35 * hip + 0.15 * head + 0.15 * stack + 0.2 * under + 0.15 * feet) * 100 <= 100.
Proof.
  assert (Hlen : (33 <= List.length frameOrigin)%nat) by (cbn; lia).
  destruct (proj1 (proj2 (plank_overall_score_is_the_weighted_sum
                            (PlankEvaluator.default 0 0) 0 frameOrigin (Num 640) (Num 480)
                            eq_refl Hlen)) eq_refl)
    as (hip & head & stack & under & feet & _ & _ & _ & _ & _ & _ & _ & _ & _ & _ & H & Hb & _).
  exists hip, head, stack, under, feet. split; assumption.
Defined.

(* ================================================================== *)
(** ** Smoothed angles: once set, in range *)
(* ================================================================== *)


Lemma setWithin_elim (lo hi : R) (a : number) :
  setWithin lo hi a -> unsetOrWithin lo hi a /\ isNaN a = false.
Proof. intros (r & -> & H). now split. Qed.





Lemma avg_bounded (a b : Point) :
  boundedPoint a -> boundedPoint b -> boundedPoint (PlankEvaluator.avg a b).
Proof.
  intros (ax & ay & az & Eax & Eay & Eaz & Hax & Hay & Haz)
         (bx & by_ & bz & Ebx & Eby & Ebz & Hbx & Hby & Hbz).
  destruct a as [a1 a2 a3 va], b as [b1 b2 b3 vb]. cbn [x y z] in *. subst.
  rewrite avg_Num.
  apply Rabs_bounds in Hax, Hay, Haz, Hbx, Hby, Hbz.
  exists ((ax + bx) / 2), ((ay + by_) / 2), ((az + bz) / 2).
  repeat split; try reflexivity; apply Rabs_within; lra.
Qed.

(** On bounded points the angle functions of the exact model are those of
    the arithmetic with overflow: no intermediate value leaves the finite
    doubles. *)
Lemma bounded_angles_do_not_overflow (a b c : Point) :
  boundedPoint a -> boundedPoint b -> boundedPoint c ->
  Double.calculateAngle2D (to_double_point a) (to_double_point b) (to_double_point c)
  = to_double (calculateAngle2D a b c) /\
  Double.calculateAngle3D (to_double_point a) (to_double_point b) (to_double_point c)
  = to_double (calculateAngle3D a b c).
Proof.
  intros (ax & ay & az & Eax & Eay & Eaz & Hax & Hay & Haz)
         (bx & by_ & bz & Ebx & Eby & Ebz & Hbx & Hby & Hbz)
         (cx & cy & cz & Ecx & Ecy & Ecz & Hcx & Hcy & Hcz).
  destruct a as [a1 a2 a3 va], b as [b1 b2 b3 vb], c as [c1 c2 c3 vc].
  cbn [x y z] in *. subst.
  unfold to_double_point. cbn [x y z vis to_double].
  rewrite double_calculateAngle2D_agrees, double_calculateAngle3D_agrees by assumption.
  split; reflexivity.
Qed.


















(* ================================================================== *)
(** ** Smoothed angles on concrete runs *)
(* ================================================================== *)
















(* ================================================================== *)
(** ** The stateless squat processor counts *)
(* ================================================================== *)

Lemma low_is_not_high (k : number) (lo hi : R) :
  lo < hi -> (k [<=] Num lo) = true -> (k [>=] Num hi) = false.
Proof.
  intros Hlt. destruct k as [| r]; cbn [nle nge]; [discriminate |].
  unfold Rleb. destruct (Rle_dec r lo), (Rle_dec hi r); intros; try reflexivity; try discriminate.
  lra.
Qed.

Lemma run_on_squatFrameAngles (l : list Landmark) (st : ExerciseState.t) k h c :
  squatFrameAngles l = Some (k, h, c) ->
  StatelessSquat.run l st = Some (StatelessSquat.countRep st k h c).
Proof.
  unfold squatFrameAngles, StatelessSquat.run. cbn zeta.
  destruct (StatelessSquat.bothGate _ _) as [lv |]; [| discriminate].
  destruct (StatelessSquat.bothGate _ _) as [rv |]; [| discriminate].
  destruct lv, rv; cbn [negb andb];
    repeat match goal with
           | |- context [match StatelessSquat.angleAt ?a ?b ?c with _ => _ end] =>
               destruct (StatelessSquat.angleAt a b c)
           end;
    try discriminate; intros H; injection H as <- <- <-; reflexivity.
Qed.

Lemma squat_countRep_up (st : ExerciseState.t) k h c :
  squatFormPasses h c = true -> (k [>=] StatelessSquat.UP_THRESH) = true ->
  st.(ExerciseState.stage) = StageDOWN ->
  let r := StatelessSquat.countRep st k h c in
  r.(ExerciseState.count) = (st.(ExerciseState.count) + 1)%Z /\
  r.(ExerciseState.stage) = StageUP /\
  r.(ExerciseState.feedback) = "Good Squat!" /\
  r.(ExerciseState.isCorrectForm) = true.
Proof.
  unfold squatFormPasses. intros Hf Hup Hst. cbn zeta. unfold StatelessSquat.countRep.
  apply negb_true_iff in Hf. rewrite Hf. cbn zeta. rewrite Hup, Hst.
  cbn [Stage_eqb]. repeat split.
Qed.

Lemma squat_countRep_down (st : ExerciseState.t) k h c :
  squatFormPasses h c = true -> (k [<=] StatelessSquat.DOWN_THRESH) = true ->
  let r := StatelessSquat.countRep st k h c in
  r.(ExerciseState.count) = st.(ExerciseState.count) /\
  r.(ExerciseState.stage) = StageDOWN /\
  r.(ExerciseState.feedback) = "Stand Up".
Proof.
  unfold squatFormPasses. intros Hf Hdown. cbn zeta. unfold StatelessSquat.countRep.
  apply negb_true_iff in Hf. rewrite Hf. cbn zeta.
  assert (Hnot : (k [>=] StatelessSquat.UP_THRESH) = false)
    by (apply (low_is_not_high k 95 165); [lra | exact Hdown]).
  rewrite Hnot, Hdown. repeat split.
Qed.

Lemma gate_lmv (px py : R) : StatelessSquat.gate (lmv px py) = true.
Proof.
  unfold StatelessSquat.gate, lmv. cbn [visibility].
  destruct (Req_dec_T 0.9 0) as [H | _]; [lra |].
  cbn [ngt nlt StatelessSquat.VISIBILITY_THRESH]. apply Rltb_true. lra.
Qed.

(** The angles of a frame in which both legs pass the gate and are drawn
    on one vertical line. *)
Lemma squatFrameAngles_pose (sh e wr : Landmark) (hx hy kx ky ax ay : R) :
  squatFrameAngles (pose sh e wr (lmv hx hy) (lmv kx ky) (lmv ax ay))
  = let P px py := mkPoint (Num (px * 1)) (Num (py * 1)) (Num 0) (Num 0.9) in
    Some ((calculateAngle2D (P hx hy) (P kx ky) (P ax ay)
           [+] calculateAngle2D (P hx hy) (P kx ky) (P ax ay)) [/] Num 2, Num 180, false).
Proof.
  unfold squatFrameAngles, pose.
  cbn [index nth_error map seq Nat.eqb orb
       POSE_LANDMARKS.LEFT_SHOULDER POSE_LANDMARKS.RIGHT_SHOULDER
       POSE_LANDMARKS.LEFT_HIP POSE_LANDMARKS.RIGHT_HIP
       POSE_LANDMARKS.LEFT_KNEE POSE_LANDMARKS.RIGHT_KNEE
       POSE_LANDMARKS.LEFT_ANKLE POSE_LANDMARKS.RIGHT_ANKLE
       StatelessSquat.bothGate].
  rewrite !gate_lmv. reflexivity.
Qed.

Lemma squatStandingVisible_angles :
  squatFrameAngles squatStandingVisible = Some (Num 180, Num 180, false).
Proof.
  unfold squatStandingVisible. rewrite squatFrameAngles_pose. cbn beta zeta.
  rewrite !angle2D_straight by lra. cbn [nadd lift2].
  rewrite ndiv_Num by lra. replace ((180 + 180) / 2) with 180 by lra. reflexivity.
Qed.

Lemma squatDeepVisible_angles :
  squatFrameAngles squatDeepVisible = Some (Num 0, Num 180, false).
Proof.
  unfold squatDeepVisible. rewrite squatFrameAngles_pose. cbn beta zeta.
  rewrite !angle2D_folded by lra. cbn [nadd lift2].
  rewrite ndiv_Num by lra. replace ((0 + 0) / 2) with 0 by lra. reflexivity.
Qed.

(** X22. The exported [processSquat] is a rep counter.  Safety: a returned
    state keeps the incoming timer; its count is the incoming count, or that
    count plus one exactly on the frame answered "Good Squat!" (incoming
    stage DOWN, result stage UP, form correct); a frame flagged as incorrect
    form changes neither count nor stage; only "Full body visible?" raises
    the visibility flag.  Liveness: on a frame with a side in view whose
    torso-lean check passes, a knee angle of at least 165 met in stage DOWN
    returns the count plus one with "Good Squat!"; and from any state, such
    a frame with a knee angle of at most 95 followed by such a frame with a
    knee angle of at least 165 returns, after the two calls, the count plus
    one. *)
Theorem processSquat_counts_on_standing_up_from_DOWN
        (l : list Landmark) (st : ExerciseState.t) :
  (forall r, StatelessSquat.run l st = Some r ->
     r.(ExerciseState.timer) = st.(ExerciseState.timer) /\
     (r.(ExerciseState.isCorrectForm) = false ->
      r.(ExerciseState.count) = st.(ExerciseState.count) /\
      r.(ExerciseState.stage) = st.(ExerciseState.stage)) /\
     (r.(ExerciseState.count) = st.(ExerciseState.count) /\
      r.(ExerciseState.feedback) <> "Good Squat!"
      \/
      r.(ExerciseState.count) = (st.(ExerciseState.count) + 1)%Z /\
      st.(ExerciseState.stage) = StageDOWN /\ r.(ExerciseState.stage) = StageUP /\
      r.(ExerciseState.feedback) = "Good Squat!" /\
      r.(ExerciseState.isCorrectForm) = true) /\
     (r.(ExerciseState.visibilityIssue) = Some true ->
      r.(ExerciseState.feedback) = "Full body visible?" /\
      r.(ExerciseState.isCorrectForm) = false)) /\
  (forall k h c,
     squatFrameAngles l = Some (k, h, c) -> squatFormPasses h c = true ->
     (k [>=] StatelessSquat.UP_THRESH) = true ->
     st.(ExerciseState.stage) = StageDOWN ->
     exists r, StatelessSquat.run l st = Some r /\
               r.(ExerciseState.count) = (st.(ExerciseState.count) + 1)%Z /\
               r.(ExerciseState.stage) = StageUP /\
               r.(ExerciseState.feedback) = "Good Squat!" /\
               r.(ExerciseState.isCorrectForm) = true) /\
  (forall l' k h c k' h' c',
     squatFrameAngles l = Some (k, h, c) -> squatFormPasses h c = true ->
     (k [<=] StatelessSquat.DOWN_THRESH) = true ->
     squatFrameAngles l' = Some (k', h', c') -> squatFormPasses h' c' = true ->
     (k' [>=] StatelessSquat.UP_THRESH) = true ->
     exists r r', StatelessSquat.run l st = Some r /\
                  r.(ExerciseState.count) = st.(ExerciseState.count) /\
                  r.(ExerciseState.stage) = StageDOWN /\
                  StatelessSquat.run l' r = Some r' /\
                  r'.(ExerciseState.count) = (st.(ExerciseState.count) + 1)%Z /\
                  r'.(ExerciseState.stage) = StageUP /\
                  r'.(ExerciseState.feedback) = "Good Squat!").
Proof.
  split; [| split].
  - intros r H. eapply stateless_run_safe. exact H.
  - intros k h c Ha Hf Hup Hst.
    exists (StatelessSquat.countRep st k h c).
    split; [now apply run_on_squatFrameAngles |].
    now apply squat_countRep_up.
  - intros l' k h c k' h' c' Ha Hf Hdown Ha' Hf' Hup.
    destruct (squat_countRep_down st k h c Hf Hdown) as (Ec & Es & _).
    destruct (squat_countRep_up (StatelessSquat.countRep st k h c) k' h' c' Hf' Hup Es)
      as (Ec' & Es' & Ef' & _).
    exists (StatelessSquat.countRep st k h c),
           (StatelessSquat.countRep (StatelessSquat.countRep st k h c) k' h' c').
    split; [now apply run_on_squatFrameAngles |].
    split; [exact Ec |]. split; [exact Es |].
    split; [now apply run_on_squatFrameAngles |].
    split; [rewrite Ec', Ec; reflexivity |]. split; assumption.
Qed.

(** X22 on a squat: the deep frame, then the standing frame, from the
    state a workout starts with. *)
Lemma processSquat_counts_on_standing_up_from_DOWN_witness :
  exists r r',
    StatelessSquat.run squatDeepVisible initialExerciseState = Some r /\
    r.(ExerciseState.count) = 0%Z /\
    r.(ExerciseState.stage) = StageDOWN /\
    StatelessSquat.run squatStandingVisible r = Some r' /\
    r'.(ExerciseState.count) = 1%Z /\
    r'.(ExerciseState.stage) = StageUP /\
    r'.(ExerciseState.feedback) = "Good Squat!".
Proof.
  apply (proj2 (proj2 (processSquat_counts_on_standing_up_from_DOWN
                         squatDeepVisible initialExerciseState))
           squatStandingVisible (Num 0) (Num 180) false (Num 180) (Num 180) false).
  - apply squatDeepVisible_angles.
  - reflexivity.
  - cbn [nle StatelessSquat.DOWN_THRESH]. apply Rleb_true. lra.
  - apply squatStandingVisible_angles.
  - reflexivity.
  - cbn [nge nle StatelessSquat.UP_THRESH]. apply Rleb_true. lra.
Defined.

(* ================================================================== *)
(** ** The stateless push-up processor counts *)
(* ================================================================== *)

Lemma processPushup_on_pushupFrameAngles
      (calculateAngle : option Landmark -> option Landmark -> option Landmark -> option number)
      (l : list Landmark) (st : ExerciseState.t) e k :
  pushupFrameAngles calculateAngle l = Some (e, k) ->
  Part000.processPushup calculateAngle l st = Some (Part000.countRep st e k).
Proof.
  unfold pushupFrameAngles, Part000.processPushup. cbn zeta.
  destruct (index l POSE_LANDMARKS.LEFT_KNEE) as [lk |]; [| discriminate].
  destruct (index l POSE_LANDMARKS.RIGHT_KNEE) as [rk |]; [| discriminate].
  destruct (negb _ && negb _); [discriminate |].
  destruct (calculateAngle _ _ _) as [la |]; [| discriminate].
  destruct (calculateAngle _ _ _) as [ra |]; [| discriminate].
  destruct (Part000.visibleKneeAngle _ _ _ _) as [kn |]; [| discriminate].
  intros H. injection H as <- <-. reflexivity.
Qed.

Lemma pushup_countRep_up (st : ExerciseState.t) e k :
  (k [<] Part000.LEG_EXTENDED_THRESH) = false -> (e [>=] Part000.UP_THRESH) = true ->
  st.(ExerciseState.stage) = StageDOWN ->
  let r := Part000.countRep st e k in
  r.(ExerciseState.count) = (st.(ExerciseState.count) + 1)%Z /\
  r.(ExerciseState.stage) = StageUP /\
  r.(ExerciseState.feedback) = "Nice Rep!" /\
  r.(ExerciseState.isCorrectForm) = true.
Proof.
  intros Hk Hup Hst. cbn zeta. unfold Part000.countRep.
  rewrite Hk. cbn zeta. rewrite Hup, Hst. cbn [Stage_eqb]. repeat split.
Qed.

Lemma pushup_countRep_down (st : ExerciseState.t) e k :
  (k [<] Part000.LEG_EXTENDED_THRESH) = false -> (e [<=] Part000.DOWN_THRESH) = true ->
  let r := Part000.countRep st e k in
  r.(ExerciseState.count) = st.(ExerciseState.count) /\
  r.(ExerciseState.stage) = StageDOWN /\
  r.(ExerciseState.feedback) = "Push Up".
Proof.
  intros Hk Hdown. cbn zeta. unfold Part000.countRep.
  rewrite Hk. cbn zeta.
  assert (Hnot : (e [>=] Part000.UP_THRESH) = false)
    by (apply (low_is_not_high e 70 145); [lra | exact Hdown]).
  rewrite Hnot, Hdown. repeat split.
Qed.

Lemma isKneeVisible_lmv (px py : R) : StatelessPushup.isKneeVisible (lmv px py) = true.
Proof.
  unfold StatelessPushup.isKneeVisible, lmv. cbn [visibility].
  cbn [ngt nlt StatelessPushup.VISIBILITY_THRESH]. apply Rltb_true. lra.
Qed.

(** The angles of a frame with both knees visible, with [angleAt] of the
    exported module standing for [calculateAngle]. *)
Lemma pushupFrameAngles_pose (sx sy ex ey wx wy hx hy kx ky ax ay : R) :
  pushupFrameAngles StatelessSquat.angleAt
    (pose (lmv sx sy) (lmv ex ey) (lmv wx wy) (lmv hx hy) (lmv kx ky) (lmv ax ay))
  = let P px py := mkPoint (Num (px * 1)) (Num (py * 1)) (Num 0) (Num 0.9) in
    Some ((calculateAngle2D (P sx sy) (P ex ey) (P wx wy)
           [+] calculateAngle2D (P sx sy) (P ex ey) (P wx wy)) [/] Num 2,
          (calculateAngle2D (P hx hy) (P kx ky) (P ax ay)
           [+] calculateAngle2D (P hx hy) (P kx ky) (P ax ay)) [/] Num 2).
Proof.
  unfold pushupFrameAngles, Part000.visibleKneeAngle, pose.
  cbn [index nth_error map seq Nat.eqb orb
       POSE_LANDMARKS.LEFT_SHOULDER POSE_LANDMARKS.RIGHT_SHOULDER
       POSE_LANDMARKS.LEFT_ELBOW POSE_LANDMARKS.RIGHT_ELBOW
       POSE_LANDMARKS.LEFT_WRIST POSE_LANDMARKS.RIGHT_WRIST
       POSE_LANDMARKS.LEFT_HIP POSE_LANDMARKS.RIGHT_HIP
       POSE_LANDMARKS.LEFT_KNEE POSE_LANDMARKS.RIGHT_KNEE
       POSE_LANDMARKS.LEFT_ANKLE POSE_LANDMARKS.RIGHT_ANKLE].
  rewrite !isKneeVisible_lmv. reflexivity.
Qed.

Lemma pushupTopVisible_angles :
  pushupFrameAngles StatelessSquat.angleAt pushupTopVisible = Some (Num 180, Num 180).
Proof.
  unfold pushupTopVisible. rewrite pushupFrameAngles_pose. cbn beta zeta.
  rewrite !angle2D_straight by lra. cbn [nadd lift2].
  rewrite ndiv_Num by lra. replace ((180 + 180) / 2) with 180 by lra. reflexivity.
Qed.

Lemma pushupBottomVisible_angles :
  pushupFrameAngles StatelessSquat.angleAt pushupBottomVisible = Some (Num 0, Num 180).
Proof.
  unfold pushupBottomVisible. rewrite pushupFrameAngles_pose. cbn beta zeta.
  rewrite !angle2D_folded by lra. rewrite !angle2D_straight by lra. cbn [nadd lift2].
  rewrite !ndiv_Num by lra.
  replace ((180 + 180) / 2) with 180 by lra. replace ((0 + 0) / 2) with 0 by lra.
  reflexivity.
Qed.

(** X25. The stateless [processPushup] of the earlier service file is a rep
    counter, for any [calculateAngle].  Safety: a returned state keeps the
    incoming timer; its count is the incoming count, or that count plus one
    exactly on the frame answered "Nice Rep!" (incoming stage DOWN, result
    stage UP, form correct); a frame flagged as incorrect form changes
    neither count nor stage; only "Knees must be visible" raises the
    visibility flag.  Liveness: on a frame with a visible knee whose knee
    angle is not below 130, an elbow angle of at least 145 met in stage DOWN
    returns the count plus one with "Nice Rep!"; and from any state, such a
    frame with an elbow angle of at most 70 followed by such a frame with an
    elbow angle of at least 145 returns, after the two calls, the count plus
    one.  Edges: when no knee is visible the answer is given without calling
    [calculateAngle]; with 26 or fewer landmarks the call ends in a
    TypeError; a knee angle that is NaN passes the leg check. *)
Theorem stateless_processPushup_counts_on_pushing_up_from_DOWN
        (calculateAngle : option Landmark -> option Landmark -> option Landmark -> option number)
        (l : list Landmark) (st : ExerciseState.t) :
  (forall r, Part000.processPushup calculateAngle l st = Some r ->
     r.(ExerciseState.timer) = st.(ExerciseState.timer) /\
     (r.(ExerciseState.isCorrectForm) = false ->
      r.(ExerciseState.count) = st.(ExerciseState.count) /\
      r.(ExerciseState.stage) = st.(ExerciseState.stage)) /\
     (r.(ExerciseState.count) = st.(ExerciseState.count) /\
      r.(ExerciseState.feedback) <> "Nice Rep!"
      \/
      r.(ExerciseState.count) = (st.(ExerciseState.count) + 1)%Z /\
      st.(ExerciseState.stage) = StageDOWN /\ r.(ExerciseState.stage) = StageUP /\
      r.(ExerciseState.feedback) = "Nice Rep!" /\
      r.(ExerciseState.isCorrectForm) = true) /\
     (r.(ExerciseState.visibilityIssue) = Some true ->
      r.(ExerciseState.feedback) = "Knees must be visible")) /\
  (forall e k,
     pushupFrameAngles calculateAngle l = Some (e, k) ->
     (k [<] Part000.LEG_EXTENDED_THRESH) = false ->
     (e [>=] Part000.UP_THRESH) = true ->
     st.(ExerciseState.stage) = StageDOWN ->
     exists r, Part000.processPushup calculateAngle l st = Some r /\
               r.(ExerciseState.count) = (st.(ExerciseState.count) + 1)%Z /\
               r.(ExerciseState.stage) = StageUP /\
               r.(ExerciseState.feedback) = "Nice Rep!" /\
               r.(ExerciseState.isCorrectForm) = true) /\
  (forall l' e k e' k',
     pushupFrameAngles calculateAngle l = Some (e, k) ->
     (k [<] Part000.LEG_EXTENDED_THRESH) = false ->
     (e [<=] Part000.DOWN_THRESH) = true ->
     pushupFrameAngles calculateAngle l' = Some (e', k') ->
     (k' [<] Part000.LEG_EXTENDED_THRESH) = false ->
     (e' [>=] Part000.UP_THRESH) = true ->
     exists r r', Part000.processPushup calculateAngle l st = Some r /\
                  r.(ExerciseState.count) = st.(ExerciseState.count) /\
                  r.(ExerciseState.stage) = StageDOWN /\
                  Part000.processPushup calculateAngle l' r = Some r' /\
                  r'.(ExerciseState.count) = (st.(ExerciseState.count) + 1)%Z /\
                  r'.(ExerciseState.stage) = StageUP /\
                  r'.(ExerciseState.feedback) = "Nice Rep!") /\
  (forall leftKnee rightKnee,
     index l POSE_LANDMARKS.LEFT_KNEE = Some leftKnee ->
     index l POSE_LANDMARKS.RIGHT_KNEE = Some rightKnee ->
     StatelessPushup.isKneeVisible leftKnee = false ->
     StatelessPushup.isKneeVisible rightKnee = false ->
     Part000.processPushup calculateAngle l st
     = Some (StatelessSquat.with_form st "Knees must be visible" false true
               [POSE_LANDMARKS.LEFT_KNEE; POSE_LANDMARKS.RIGHT_KNEE])) /\
  ((List.length l <= 26)%nat -> Part000.processPushup calculateAngle l st = None) /\
  (forall e, (Part000.countRep st e NaN).(ExerciseState.isCorrectForm) = true).
Proof.
  split; [| split; [| split]].
  - apply stateless_processPushup_safe.
  - intros e k Ha Hk Hup Hst.
    exists (Part000.countRep st e k).
    split; [now apply processPushup_on_pushupFrameAngles |].
    now apply pushup_countRep_up.
  - intros l' e k e' k' Ha Hk Hdown Ha' Hk' Hup.
    destruct (pushup_countRep_down st e k Hk Hdown) as (Ec & Es & _).
    destruct (pushup_countRep_up (Part000.countRep st e k) e' k' Hk' Hup Es)
      as (Ec' & Es' & Ef' & _).
    exists (Part000.countRep st e k), (Part000.countRep (Part000.countRep st e k) e' k').
    split; [now apply processPushup_on_pushupFrameAngles |].
    split; [exact Ec |]. split; [exact Es |].
    split; [now apply processPushup_on_pushupFrameAngles |].
    split; [rewrite Ec', Ec; reflexivity |]. split; assumption.
  - apply stateless_processPushup_edges.
Qed.

(** X25 on a push-up: the bottom frame, then the top frame, from the state
    a workout starts with, with [angleAt] of the exported module standing
    for [calculateAngle]. *)
Lemma stateless_processPushup_counts_on_pushing_up_from_DOWN_witness :
  exists r r',
    Part000.processPushup StatelessSquat.angleAt pushupBottomVisible initialExerciseState
    = Some r /\
    r.(ExerciseState.count) = 0%Z /\
    r.(ExerciseState.stage) = StageDOWN /\
    Part000.processPushup StatelessSquat.angleAt pushupTopVisible r = Some r' /\
    r'.(ExerciseState.count) = 1%Z /\
    r'.(ExerciseState.stage) = StageUP /\
    r'.(ExerciseState.feedback) = "Nice Rep!".
Proof.
  apply (proj1 (proj2 (proj2 (stateless_processPushup_counts_on_pushing_up_from_DOWN
                                StatelessSquat.angleAt pushupBottomVisible
                                initialExerciseState)))
           pushupTopVisible (Num 0) (Num 180) (Num 180) (Num 180)).
  - apply pushupBottomVisible_angles.
  - cbn [nlt Part000.LEG_EXTENDED_THRESH]. apply Rltb_false. lra.
  - cbn [nle Part000.DOWN_THRESH]. apply Rleb_true. lra.
  - apply pushupTopVisible_angles.
  - cbn [nlt Part000.LEG_EXTENDED_THRESH]. apply Rltb_false. lra.
  - cbn [nge nle Part000.UP_THRESH]. apply Rleb_true. lra.
Defined.
